(** * FinTrack: the dashboard's derived view model

    A shallow embedding of the data derivations of
    [client/src/components/FinTrack.tsx] (monthly metrics, pie chart
    series, recent transactions, category breakdown, insights) and the
    properties the specification states about them.

    JavaScript numbers are IEEE 754 binary64 values; they are modelled by
    Rocq's primitive [float], which is the same format, so sums, quotients,
    [NaN], the infinities and the signed zeros behave as they do at run
    time.  The built-ins the component calls ([parseFloat], [ToNumber],
    [toFixed], [Array.prototype.sort], property access on a plain object,
    [Object.entries], [Intl.NumberFormat]) are modelled after ECMA-262
    and ECMA-402 in module [JS].  A string is the sequence of bytes of
    its UTF-8 form.

    Module [FinTrack] has the derivations on values, an array being the
    list of its elements; module [Runtime] has them on a heap, where
    arrays have an identity and [sort] works in place, and the two are
    proved to agree. *)

From Stdlib Require Import ZArith NArith List String Ascii Bool Lia.
From Stdlib Require Import Floats Permutation Sorted.
From Stdlib Require DecimalString.
Import ListNotations.

Local Open Scope list_scope.
Local Open Scope string_scope.

(* ================================================================== *)
(** * The JavaScript built-ins used by the component *)
(* ================================================================== *)

Module JS.

(** ** Numbers *)

Definition number := float.

(** [ToBoolean] on a number: [+0], [-0] and [NaN] are falsy. *)
Definition truthyNumber (x : number) : bool :=
  negb (PrimFloat.is_nan x || PrimFloat.is_zero x).

(** [x > y] and [x < y] on numbers (false as soon as one side is [NaN]). *)
Definition greater (x y : number) : bool := PrimFloat.ltb y x.
Definition less (x y : number) : bool := PrimFloat.ltb x y.

(** ** Numeric literals in strings *)

Definition digitVal (c : ascii) : option N :=
  let n := N_of_ascii c in
  if ((48 <=? n) && (n <=? 57))%N then Some (n - 48)%N else None.

(** The white space [parseFloat] and [ToNumber] strip
    ([StrWhiteSpaceChar]: [WhiteSpace] and [LineTerminator]).  A string
    is the sequence of bytes of its UTF-8 form here, so that a character
    outside ASCII takes two or three bytes:
    - TAB, LF, VT, FF, CR (bytes 9 to 13) and SP (32);
    - U+00A0 (C2 A0);
    - U+1680 (E1 9A 80);
    - U+2000 to U+200A, U+2028, U+2029, U+202F (E2 80 80 to 8A, A8, A9, AF);
    - U+205F (E2 81 9F), U+3000 (E3 80 80) and U+FEFF (EF BB BF). *)
Definition isWhiteSpace (c : ascii) : bool :=
  let n := N_of_ascii c in
  ((9 <=? n) && (n <=? 13) || (n =? 32))%N.

Definition isWhiteSpace2 (c1 c2 : ascii) : bool :=
  ((N_of_ascii c1 =? 194) && (N_of_ascii c2 =? 160))%N.

Definition isWhiteSpace3 (c1 c2 c3 : ascii) : bool :=
  let n1 := N_of_ascii c1 in
  let n2 := N_of_ascii c2 in
  let n3 := N_of_ascii c3 in
  ((n1 =? 225) && (n2 =? 154) && (n3 =? 128)
   || (n1 =? 226) && (n2 =? 128)
      && ((128 <=? n3) && (n3 <=? 138) || (n3 =? 168) || (n3 =? 169)
          || (n3 =? 175))
   || (n1 =? 226) && (n2 =? 129) && (n3 =? 159)
   || (n1 =? 227) && (n2 =? 128) && (n3 =? 128)
   || (n1 =? 239) && (n2 =? 187) && (n3 =? 191))%N.

Fixpoint trimStart (s : string) : string :=
  match s with
  | String c1 r1 =>
      if isWhiteSpace c1 then trimStart r1
      else
        match r1 with
        | String c2 r2 =>
            if isWhiteSpace2 c1 c2 then trimStart r2
            else
              match r2 with
              | String c3 r3 =>
                  if isWhiteSpace3 c1 c2 c3 then trimStart r3 else s
              | EmptyString => s
              end
        | EmptyString => s
        end
  | EmptyString => s
  end.

Definition allWhiteSpace (s : string) : bool :=
  match trimStart s with
  | EmptyString => true
  | String _ _ => false
  end.

(** [takeDigits s acc cnt] reads the longest run of decimal digits at the
    head of [s]: the value read (on top of [acc]), how many digits were
    read (on top of [cnt]), and the rest of the string. *)
Fixpoint takeDigits (s : string) (acc : N) (cnt : nat) : N * nat * string :=
  match s with
  | String c r =>
      match digitVal c with
      | Some d => takeDigits r (acc * 10 + d)%N (S cnt)
      | None => (acc, cnt, s)
      end
  | EmptyString => (acc, cnt, s)
  end.

(** A scanned [StrDecimalLiteral]: an infinity, or [(-1)^neg * m * 10^e]. *)
Inductive literal :=
| LitInfinity (neg : bool)
| LitDecimal (neg : bool) (m : N) (e : Z).

Definition scanSign (s : string) : bool * string :=
  match s with
  | String "-" r => (true, r)
  | String "+" r => (false, r)
  | _ => (false, s)
  end.

(** The [ExponentPart], when one is there: [e] or [E], an optional sign
    and at least one digit.  Otherwise nothing is consumed. *)
Definition scanExponent (s : string) : Z * string :=
  match s with
  | String c r =>
      if (Ascii.eqb c "e" || Ascii.eqb c "E")%bool then
        let '(neg, r1) := scanSign r in
        let '(v, cnt, r2) := takeDigits r1 0%N 0%nat in
        match cnt with
        | O => (0%Z, s)
        | S _ => ((if neg then - Z.of_N v else Z.of_N v)%Z, r2)
        end
      else (0%Z, s)
  | EmptyString => (0%Z, s)
  end.

Definition startsWith (s p : string) : bool := String.prefix p s.

(** The longest prefix of [s] that is a [StrDecimalLiteral], with what
    follows it; [None] when no prefix is one. *)
Definition scanDecimal (s : string) : option (literal * string) :=
  let '(neg, s1) := scanSign s in
  if startsWith s1 "Infinity" then
    Some (LitInfinity neg, String.substring 8 (String.length s1 - 8) s1)
  else
    let '(ip, icnt, s2) := takeDigits s1 0%N 0%nat in
    let '(m, fcnt, s3) :=
      match s2 with
      | String "." r =>
          let '(m, fcnt, r') := takeDigits r ip 0%nat in
          match icnt, fcnt with
          | O, O => (ip, 0%nat, s2)
          | _, _ => (m, fcnt, r')
          end
      | _ => (ip, 0%nat, s2)
      end in
    match icnt, fcnt with
    | O, O => None
    | _, _ =>
        let '(e, s4) := scanExponent s3 in
        Some (LitDecimal neg m (e - Z.of_nat fcnt), s4)
    end.

(** The Number value of [(-1)^neg * m * 10^e], rounded to nearest, ties to
    even.  A non-negative exponent gives an integer, which
    [binary_round] rounds; a negative one gives the quotient of two
    integers, which [SFdiv] rounds once. *)
Definition decimalToNumber (neg : bool) (m : N) (e : Z) : number :=
  match m with
  | N0 => if neg then PrimFloat.neg_zero else PrimFloat.zero
  | Npos p =>
      SF2Prim
        (if (0 <=? e)%Z
         then binary_round prec emax neg (p * Z.to_pos (10 ^ e))%positive 0
         else SFdiv prec emax (S754_finite neg p 0)
                (S754_finite false (Z.to_pos (10 ^ (- e))) 0))
  end.

Definition literalToNumber (l : literal) : number :=
  match l with
  | LitInfinity neg => if neg then PrimFloat.neg_infinity else PrimFloat.infinity
  | LitDecimal neg m e => decimalToNumber neg m e
  end.

(** [parseFloat(s)]: leading white space is dropped, the longest prefix
    that is a decimal literal is converted, anything after it is ignored;
    [NaN] when there is no such prefix. *)
Definition parseFloat (s : string) : number :=
  match scanDecimal (trimStart s) with
  | Some (l, _) => literalToNumber l
  | None => PrimFloat.nan
  end.

(** [ToNumber] on a string ([StringToNumber]): white space is stripped at
    both ends and the whole of what is left must be a numeric literal: a
    decimal literal, or an unsigned [0x], [0o] or [0b] integer.  The empty
    string is [+0]; anything else is [NaN]. *)
Definition radixDigitVal (radix : N) (c : ascii) : option N :=
  let n := N_of_ascii c in
  let v :=
    if ((48 <=? n) && (n <=? 57))%N then Some (n - 48)%N
    else if ((97 <=? n) && (n <=? 102))%N then Some (n - 87)%N
    else if ((65 <=? n) && (n <=? 70))%N then Some (n - 55)%N
    else None in
  match v with
  | Some d => if (d <? radix)%N then Some d else None
  | None => None
  end.

Fixpoint takeRadixDigits (radix : N) (s : string) (acc : N) (cnt : nat)
  : N * nat * string :=
  match s with
  | String c r =>
      match radixDigitVal radix c with
      | Some d => takeRadixDigits radix r (acc * radix + d)%N (S cnt)
      | None => (acc, cnt, s)
      end
  | EmptyString => (acc, cnt, s)
  end.

Definition radixOfPrefix (c : ascii) : option N :=
  if (Ascii.eqb c "x" || Ascii.eqb c "X")%bool then Some 16%N
  else if (Ascii.eqb c "o" || Ascii.eqb c "O")%bool then Some 8%N
  else if (Ascii.eqb c "b" || Ascii.eqb c "B")%bool then Some 2%N
  else None.

Definition scanNonDecimal (s : string) : option (N * string) :=
  match s with
  | String "0" (String c r) =>
      match radixOfPrefix c with
      | Some radix =>
          let '(v, cnt, r') := takeRadixDigits radix r 0%N 0%nat in
          match cnt with
          | O => None
          | S _ => Some (v, r')
          end
      | None => None
      end
  | _ => None
  end.

Definition stringToNumber (s : string) : number :=
  let t := trimStart s in
  if allWhiteSpace t then PrimFloat.zero
  else
    match scanNonDecimal t with
    | Some (v, rest) =>
        if allWhiteSpace rest then decimalToNumber false v 0 else PrimFloat.nan
    | None =>
        match scanDecimal t with
        | Some (l, rest) =>
            if allWhiteSpace rest then literalToNumber l else PrimFloat.nan
        | None => PrimFloat.nan
        end
    end.

(** ** Completions

    An evaluation ends normally with a value or abruptly with a thrown
    error. *)
Inductive completion (A : Type) : Type :=
| Normal (a : A)
| Throw (error : string).
Arguments Normal {A} a.
Arguments Throw {A} error.

Definition bind {A B} (c : completion A) (k : A -> completion B)
  : completion B :=
  match c with
  | Normal a => k a
  | Throw e => Throw e
  end.

Notation "x <- c ;; k" := (bind c (fun x => k))
  (at level 61, c at next level, right associativity).

(** ** [Number.prototype.toFixed] *)

Definition decimalString (n : N) : string :=
  DecimalString.NilZero.string_of_uint (N.to_uint n).

Fixpoint zeros (n : nat) : string :=
  match n with
  | O => EmptyString
  | S k => String "0" (zeros k)
  end.

(** The digits of [n] with a point before the last [f] of them, padded
    with zeros on the left so that at least one digit precedes the point. *)
Definition fixedDigits (f : nat) (n : N) : string :=
  let m := decimalString n in
  let m := if (String.length m <=? f)%nat
           then zeros (f + 1 - String.length m) ++ m else m in
  match f with
  | O => m
  | S _ =>
      let k := String.length m in
      String.substring 0 (k - f) m ++ "." ++ String.substring (k - f) f m
  end.

Section ToFixed.

(** [Number::toString] on a finite number of magnitude at least 1e21 (the
    shortest decimal that reads back as the number, in exponent
    notation) is left to the host. *)
Variable largeToString : number -> string.

(** [x.toFixed(fractionDigits)].  The integer [n] for which
    [n / 10^f - |x|] is closest to zero (the larger one on a tie) is
    computed exactly, from the mantissa and exponent of [x]. *)
Definition toFixed (fractionDigits : Z) (x : number) : completion string :=
  if ((fractionDigits <? 0) || (100 <? fractionDigits))%Z
  then Throw "RangeError"
  else
    let f := Z.to_nat fractionDigits in
    Normal
      match Prim2SF x with
      | S754_nan => "NaN"
      | S754_infinity s => if s then "-Infinity" else "Infinity"
      | S754_zero _ => fixedDigits f 0
      | S754_finite s m e =>
          let sign := if s then "-" else "" in
          let large :=
            if (0 <=? e)%Z then (10 ^ 21 <=? Zpos m * 2 ^ e)%Z
            else (10 ^ 21 * 2 ^ (- e) <=? Zpos m)%Z in
          if large then sign ++ largeToString (PrimFloat.abs x)
          else
            let n :=
              if (0 <=? e)%Z then (Zpos m * 2 ^ e * 10 ^ fractionDigits)%Z
              else ((2 * Zpos m * 10 ^ fractionDigits + 2 ^ (- e))
                      / 2 ^ (- e + 1))%Z in
            sign ++ fixedDigits f (Z.to_N n)
      end.

End ToFixed.

(** ** Values held by the records of the component *)

(** [VNativeText] stands for a string that begins with the text of an
    inherited [Object.prototype] member (["[object Object]"] or the source
    text of a built-in function).  Such a string is not empty and no
    prefix of it is a numeric literal, which is all the component can
    observe of it.  [VObject] is such a member itself. *)
Inductive jsval :=
| VUndefined
| VNumber (x : number)
| VString (s : string)
| VNativeText
| VObject.

Definition truthy (v : jsval) : bool :=
  match v with
  | VUndefined => false
  | VNumber x => truthyNumber x
  | VString s => negb (String.eqb s "")
  | VNativeText | VObject => true
  end.

(** [a || b] *)
Definition orElse (a b : jsval) : jsval := if truthy a then a else b.

Definition toNumber (v : jsval) : number :=
  match v with
  | VNumber x => x
  | VString s => stringToNumber s
  | VUndefined | VNativeText | VObject => PrimFloat.nan
  end.

Section NumberToString.

(** The digits of a finite non-zero number ([Number::toString], the
    shortest decimal that reads back as the number) are left to the host. *)
Variable finiteToString : number -> string.

Definition numberToString (x : number) : string :=
  match Prim2SF x with
  | S754_nan => "NaN"
  | S754_zero _ => "0"
  | S754_infinity s => if s then "-Infinity" else "Infinity"
  | S754_finite _ _ _ => finiteToString x
  end.

(** [l + x] for a number [x], and [l + s] for a string [s]: numeric
    addition when both sides are numbers, concatenation as soon as one side
    is a string or an object. *)
Definition plusNumber (l : jsval) (x : number) : jsval :=
  match l with
  | VUndefined => VNumber PrimFloat.nan
  | VNumber a => VNumber (PrimFloat.add a x)
  | VString s => VString (s ++ numberToString x)
  | VNativeText | VObject => VNativeText
  end.

Definition plusString (l : jsval) (s : string) : jsval :=
  match l with
  | VUndefined => VString ("undefined" ++ s)
  | VNumber a => VString (numberToString a ++ s)
  | VString t => VString (t ++ s)
  | VNativeText | VObject => VNativeText
  end.

End NumberToString.

(** ** Plain objects used as records

    An object created by [{}] is the list of its own properties in the
    order [Object.entries] lists them: array-index keys first, in
    ascending numeric order, then the other keys in the order they were
    created.  Its prototype is [Object.prototype]. *)
Definition object := list (string * jsval).

Definition prototypeMembers : list string :=
  [ "constructor"; "__defineGetter__"; "__defineSetter__"; "hasOwnProperty";
    "__lookupGetter__"; "__lookupSetter__"; "isPrototypeOf";
    "propertyIsEnumerable"; "toString"; "valueOf"; "__proto__";
    "toLocaleString" ].

Definition isPrototypeMember (k : string) : bool :=
  existsb (String.eqb k) prototypeMembers.

(** An array index is the canonical decimal form of an integer below
    [2^32 - 1]. *)
Definition arrayIndex (k : string) : option N :=
  let '(v, cnt, rest) := takeDigits k 0%N 0%nat in
  let canonical :=
    match k with
    | String "0" (String _ _) => false
    | _ => true
    end in
  match rest, cnt with
  | EmptyString, S _ =>
      if (canonical && (v <=? 4294967294)%N)%bool then Some v else None
  | _, _ => None
  end.

Fixpoint getOwn (o : object) (k : string) : option jsval :=
  match o with
  | [] => None
  | (k', v) :: r => if String.eqb k' k then Some v else getOwn r k
  end.

(** [o[k]] *)
Definition get (o : object) (k : string) : jsval :=
  match getOwn o k with
  | Some v => v
  | None => if isPrototypeMember k then VObject else VUndefined
  end.

Fixpoint replaceOwn (o : object) (k : string) (v : jsval) : object :=
  match o with
  | [] => []
  | (k', v') :: r =>
      if String.eqb k' k then (k', v) :: r else (k', v') :: replaceOwn r k v
  end.

Fixpoint insertIndex (o : object) (i : N) (k : string) (v : jsval) : object :=
  match o with
  | [] => [(k, v)]
  | (k', v') :: r =>
      match arrayIndex k' with
      | Some j =>
          if (i <? j)%N then (k, v) :: o else (k', v') :: insertIndex r i k v
      | None => (k, v) :: o
      end
  end.

(** [o[k] = v] for a primitive [v].  Assigning to [__proto__] runs the
    setter inherited from [Object.prototype], which ignores a value that is
    not an object: no own property is created. *)
Definition set (o : object) (k : string) (v : jsval) : object :=
  if String.eqb k "__proto__" then o
  else
    match getOwn o k with
    | Some _ => replaceOwn o k v
    | None =>
        match arrayIndex k with
        | Some i => insertIndex o i k v
        | None => (o ++ [(k, v)])%list
        end
    end.

Definition entries (o : object) : list (string * jsval) := o.

Definition keys (o : object) : list string := map fst o.

(** ** [Array.prototype.sort]

    The sort is stable.  [after x y] says that the comparator applied to
    [(x, y)] is positive, that is, [x] goes after [y]; a [NaN] result
    counts as zero.  With a consistent comparator every stable sort
    returns the list computed here, by insertion.  With an inconsistent
    one (a [NaN] difference beside unequal numbers) ECMA-262 leaves the
    order to the implementation: the list computed here is then one
    rearrangement among those an engine may return, and not always the
    one a given engine returns.  The statements below are about lists on
    which the comparator is consistent, or hold of every rearrangement. *)
Section Sort.

Context {A : Type}.
Variable after : A -> A -> bool.

Fixpoint insert (x : A) (l : list A) : list A :=
  match l with
  | [] => [x]
  | y :: r => if after x y then y :: insert x r else x :: l
  end.

Definition sort (l : list A) : list A := fold_right insert [] l.

End Sort.

(** A comparator that returns a number. *)
Definition sortBy {A : Type} (comparefn : A -> A -> number) : list A -> list A :=
  sort (fun x y => greater (comparefn x y) PrimFloat.zero).

(** ** Dates

    The time value of a [Date] is an integral number of milliseconds of
    magnitude at most 8.64e15, or [NaN] for an invalid date; [None] is
    [NaN].  The difference of two time values is taken over the integers:
    the binary64 difference may be rounded, but it has the same sign, and
    a sort reads nothing but the sign of its comparator. *)
Definition timeValue := option Z.

Definition timeSub (a b : timeValue) : timeValue :=
  match a, b with
  | Some x, Some y => Some (x - y)%Z
  | _, _ => None
  end.

Definition timePositive (d : timeValue) : bool :=
  match d with
  | Some z => (0 <? z)%Z
  | None => false
  end.

(** ** [Intl.NumberFormat] (ECMA-402)

    [new Intl.NumberFormat('en-US', { style: 'currency', currency })]
    throws a [RangeError] unless [currency] is a well-formed currency
    code, three ASCII letters in either case; the format it builds works
    with the code in upper case. *)
Definition asciiUppercaseChar (c : ascii) : ascii :=
  let n := N_of_ascii c in
  if ((97 <=? n) && (n <=? 122))%N then ascii_of_N (n - 32) else c.

Fixpoint asciiUppercase (s : string) : string :=
  match s with
  | String c r => String (asciiUppercaseChar c) (asciiUppercase r)
  | EmptyString => EmptyString
  end.

Definition isUpperLetter (c : ascii) : bool :=
  let n := N_of_ascii c in ((65 <=? n) && (n <=? 90))%N.

Fixpoint allUpperLetters (s : string) : bool :=
  match s with
  | String c r => isUpperLetter c && allUpperLetters r
  | EmptyString => true
  end.

Definition isWellFormedCurrencyCode (currency : string) : bool :=
  (String.length currency =? 3)%nat
  && allUpperLetters (asciiUppercase currency).

Section NumberFormat.

(** What the format of a currency, given by its upper-case code, makes of
    a number: the locale data of the host. *)
Variable formatNumber : string -> number -> string.

(** The constructor; the value is the [format] method of the new object. *)
Definition currencyFormat (currency : string)
  : completion (number -> string) :=
  if isWellFormedCurrencyCode currency
  then Normal (formatNumber (asciiUppercase currency))
  else Throw "RangeError".

End NumberFormat.

End JS.

(* ================================================================== *)
(** * The component's derivations *)
(* ================================================================== *)

Module FinTrack.

Import JS.

(** ** Data model

    Rows of [@shared/schema] as the REST layer delivers them: every field
    is a string, decimal columns included. *)
Record Transaction := {
  id : string;
  date : string;
  amount : string;
  type : string;
  category : string
}.

Record Goal := {
  goalId : string;
  name : string;
  current : string;
  target : string
}.

Record FinancialMetrics := {
  income : number;
  expenses : number;
  totalBudget : number;
  usedPercent : number;
  remaining : number;
  savingsRate : number
}.

Record PieSlice := {
  sliceName : string;
  sliceValue : number;
  sliceColor : string
}.

Record GoalProgress := {
  goalName : string;
  progress : number
}.

Record Insight := {
  insightType : string;
  color : string;
  icon : string;
  title : string;
  message : string
}.

Record BreakdownRow := {
  rowCategory : string;
  rowAmount : string;
  rowPercentage : string
}.

(** The row of [/api/user], as far as the component reads it.  A
    currency the server left out is the empty string here: both are
    falsy. *)
Record User := {
  currency : string;
  language : string
}.

(** ** The reference month

    [const currentMonth = new Date().toISOString().slice(0, 7)]: the
    component reads the wall clock at every render.  [nowISO] is what
    [new Date().toISOString()] returned. *)
Definition currentMonth (nowISO : string) : string :=
  String.substring 0 7 nowISO.

(** ** [financialMetrics] *)

Definition inMonth (currentMonth : string) (t : Transaction) : bool :=
  startsWith (date t) currentMonth.

(** [.reduce((s, t) => s + parseFloat(t.amount), 0)] *)
Definition sumAmounts (l : list Transaction) : number :=
  fold_left (fun s t => PrimFloat.add s (parseFloat (amount t))) l
    PrimFloat.zero.

(** The body of [financialMetrics], with the budget it fixes taken as an
    argument so that its guard can be stated for any budget. *)
Definition metricsWithBudget (totalBudget : number)
    (transactions : list Transaction) (currentMonth : string)
  : FinancialMetrics :=
  let monthTx := filter (inMonth currentMonth) transactions in
  let income :=
    sumAmounts (filter (fun t => String.eqb (type t) "income") monthTx) in
  let expenses :=
    sumAmounts (filter (fun t => String.eqb (type t) "expense") monthTx) in
  let usedPercent :=
    if greater totalBudget 0%float then (expenses / totalBudget * 100)%float
    else 0%float in
  let remaining := (totalBudget - expenses)%float in
  let savingsRate :=
    if greater income 0%float then ((income - expenses) / income * 100)%float
    else 0%float in
  {| income := income; expenses := expenses; totalBudget := totalBudget;
     usedPercent := usedPercent; remaining := remaining;
     savingsRate := savingsRate |}.

Definition financialMetrics : list Transaction -> string -> FinancialMetrics :=
  metricsWithBudget 2500%float.

(** ** [pieChartData] *)

Definition pieChartData (financialMetrics : FinancialMetrics) : list PieSlice :=
  let data := [] in
  let data :=
    if greater (income financialMetrics) 0%float
    then (data ++ [ {| sliceName := "Income";
                       sliceValue := income financialMetrics;
                       sliceColor := "hsl(var(--chart-1))" |} ])%list
    else data in
  let data :=
    if greater (expenses financialMetrics) 0%float
    then (data ++ [ {| sliceName := "Expenses";
                       sliceValue := expenses financialMetrics;
                       sliceColor := "hsl(var(--chart-2))" |} ])%list
    else data in
  let savings := (income financialMetrics - expenses financialMetrics)%float in
  let data :=
    if greater savings 0%float
    then (data ++ [ {| sliceName := "Savings";
                       sliceValue := savings;
                       sliceColor := "hsl(var(--primary))" |} ])%list
    else data in
  data.

(** ** The two category breakdowns *)

Definition isMonthExpense (currentMonth : string) (t : Transaction) : bool :=
  String.eqb (type t) "expense" && inMonth currentMonth t.

(** [([,a], [,b]) => b - a] *)
Definition byAmountDesc (x y : string * jsval) : number :=
  (toNumber (snd y) - toNumber (snd x))%float.

(** [g => ({ name: g.name,
            progress: parseFloat(g.current) / parseFloat(g.target) * 100 })] *)
Definition goalProgress (g : Goal) : GoalProgress :=
  {| goalName := name g;
     progress :=
       (parseFloat (current g) / parseFloat (target g) * 100)%float |}.

(** The categories of the month's expenses, in the order met. *)
Definition monthExpenseCategories (transactions : list Transaction)
    (currentMonth : string) : list string :=
  map category (filter (isMonthExpense currentMonth) transactions).

(** ** [recentTransactions] and what needs the host *)

Section Host.

(** [new Date(s).getTime()] *)
Variable getTime : string -> timeValue.

(** [Number::toString] on a finite non-zero number. *)
Variable finiteToString : number -> string.

(** What [Intl.NumberFormat] for ['en-US'] and a currency makes of a
    number. *)
Variable formatNumber : string -> number -> string.

(** [user], the data of the [/api/user] query: [None] is [undefined],
    while the query has not answered. *)
Variable user : option User.

(** [(a, b) => new Date(b.date).getTime() - new Date(a.date).getTime()] *)
Definition byDateDesc (a b : Transaction) : timeValue :=
  timeSub (getTime (date b)) (getTime (date a)).

Definition recentTransactions (transactions : list Transaction)
    (currentMonth : string) : list Transaction :=
  firstn 5
    (sort (fun a b => timePositive (byDateDesc a b))
       (filter (inMonth currentMonth) transactions)).

(** [user?.currency || 'USD'] *)
Definition userCurrency : string :=
  match user with
  | Some u => if truthy (VString (currency u)) then currency u else "USD"
  | None => "USD"
  end.

Definition formatCurrency (amount : jsval) : completion string :=
  let numAmount :=
    match amount with
    | VString s => VNumber (parseFloat s)
    | VNativeText => VNumber PrimFloat.nan
    | _ => amount
    end in
  let currency := userCurrency in
  format <- currencyFormat formatNumber currency ;;
  Normal (format (toNumber (orElse numAmount (VNumber 0%float)))).

(** The breakdown of the insights:
    [acc[t.category] = (acc[t.category] || 0) + parseFloat(t.amount)]. *)
Definition categoryBreakdown (transactions : list Transaction)
    (currentMonth : string) : object :=
  fold_left
    (fun acc t =>
       set acc (category t)
         (plusNumber finiteToString
            (orElse (get acc (category t)) (VNumber 0%float))
            (parseFloat (amount t))))
    (filter (isMonthExpense currentMonth) transactions) [].

Definition topCategory (transactions : list Transaction)
    (currentMonth : string) : option (string * jsval) :=
  hd_error
    (sortBy byAmountDesc (entries (categoryBreakdown transactions currentMonth))).

Definition topGoal (goals : list Goal) : option GoalProgress :=
  hd_error
    (sortBy (fun a b => (progress b - progress a)%float)
       (map goalProgress goals)).

(** Reading a property of [undefined] throws a [TypeError]. *)
Definition member {A B : Type} (x : option A) (f : A -> B) : completion B :=
  match x with
  | Some a => Normal (f a)
  | None => Throw "TypeError"
  end.

Definition isDefined {A : Type} (x : option A) : bool :=
  match x with
  | Some _ => true
  | None => false
  end.

(** ** [insights]

    [insightsFrom] is the array the memo returns, given the two values
    it has computed before. *)

Definition insightsFrom (topCategory : option (string * jsval))
    (topGoal : option GoalProgress) (financialMetrics : FinancialMetrics)
  : completion (list Insight) :=
  savingsMessage <-
    (if greater (savingsRate financialMetrics) 0%float then
       rate <- toFixed finiteToString 1 (savingsRate financialMetrics) ;;
       Normal ("Excellent! You're saving " ++ rate
               ++ "% of your income this month.")
     else Normal "Start tracking your income to see your savings rate.") ;;
  spendingMessage <-
    (if isDefined topCategory then
       key <- member topCategory fst ;;
       value <- member topCategory snd ;;
       shown <- formatCurrency value ;;
       Normal ("Your top spending is " ++ key ++ ": "
               ++ shown ++ " this month.")
     else Normal "No spending data available yet.") ;;
  goalsMessage <-
    (if isDefined topGoal then
       goal <- member topGoal goalName ;;
       value <- member topGoal progress ;;
       percent <- toFixed finiteToString 1 value ;;
       Normal (goal ++ " is " ++ percent ++ "% complete - keep it up!")
     else Normal "Set your first goal to start tracking progress!") ;;
  used <- toFixed finiteToString 1 (usedPercent financialMetrics) ;;
  Normal
    [ {| insightType := "savings"; color := "green"; icon := "TrendingUp";
         title := "Savings Analysis"; message := savingsMessage |};
      {| insightType := "spending"; color := "red"; icon := "ShoppingBag";
         title := "Spending Pattern"; message := spendingMessage |};
      {| insightType := "goals"; color := "purple"; icon := "Target";
         title := "Goal Progress"; message := goalsMessage |};
      {| insightType := "habits"; color := "indigo"; icon := "Calendar";
         title := "Spending Habits";
         message :=
           if less (usedPercent financialMetrics) 80%float
           then "Great spending discipline this month!"
           else "You're approaching your budget limit - watch your spending!" |};
      {| insightType := "budget"; color := "green"; icon := "DollarSign";
         title := "Budget Status";
         message := "Budget looking good: " ++ used ++ "% used" |} ].

Definition insights (transactions : list Transaction) (goals : list Goal)
    (currentMonth : string) (financialMetrics : FinancialMetrics)
  : completion (list Insight) :=
  let topCategory := topCategory transactions currentMonth in
  let topGoal := topGoal goals in
  insightsFrom topCategory topGoal financialMetrics.

(** ** The category breakdown of the Insights screen ([renderScreen], tab 2)

    [acc[t.category] = (acc[t.category] || 0) + t.amount]: the amount is
    not parsed, so [+] concatenates. *)
Definition screenBreakdown (transactions : list Transaction)
    (currentMonth : string) : object :=
  fold_left
    (fun acc t =>
       set acc (category t)
         (plusString finiteToString
            (orElse (get acc (category t)) (VNumber 0%float))
            (amount t)))
    (filter (isMonthExpense currentMonth) transactions) [].

Definition screenEntries (transactions : list Transaction)
    (currentMonth : string) : list (string * jsval) :=
  firstn 4
    (sortBy byAmountDesc (entries (screenBreakdown transactions currentMonth))).

Fixpoint mapM {A B : Type} (f : A -> completion B) (l : list A)
  : completion (list B) :=
  match l with
  | [] => Normal []
  | a :: r => b <- f a ;; bs <- mapM f r ;; Normal (b :: bs)
  end.

(** The row of one entry: [([category, amount]) => ...]. *)
Definition breakdownRow (financialMetrics : FinancialMetrics)
    (entry : string * jsval) : completion BreakdownRow :=
  let '(category, amount) := entry in
  let percentage :=
    if greater (expenses financialMetrics) 0%float
    then (toNumber amount / expenses financialMetrics * 100)%float
    else 0%float in
  shownAmount <- formatCurrency amount ;;
  shown <- toFixed finiteToString 1 percentage ;;
  Normal {| rowCategory := category;
            rowAmount := shownAmount;
            rowPercentage := shown ++ "%" |}.

Definition renderCategoryBreakdown (transactions : list Transaction)
    (currentMonth : string) (financialMetrics : FinancialMetrics)
  : completion (list BreakdownRow) :=
  mapM (breakdownRow financialMetrics)
    (screenEntries transactions currentMonth).

(** ** One render of the component *)

Record ViewModel := {
  vmMetrics : FinancialMetrics;
  vmPie : list PieSlice;
  vmRecent : list Transaction;
  vmInsights : completion (list Insight);
  vmBreakdown : completion (list BreakdownRow)
}.

Definition render (nowISO : string) (transactions : list Transaction)
    (goals : list Goal) : ViewModel :=
  let currentMonth := currentMonth nowISO in
  let financialMetrics := financialMetrics transactions currentMonth in
  {| vmMetrics := financialMetrics;
     vmPie := pieChartData financialMetrics;
     vmRecent := recentTransactions transactions currentMonth;
     vmInsights := insights transactions goals currentMonth financialMetrics;
     vmBreakdown :=
       renderCategoryBreakdown transactions currentMonth financialMetrics |}.

End Host.

End FinTrack.

(* ================================================================== *)
(** * The component on a heap *)
(* ================================================================== *)

(** In the derivations above an array is the list of its elements.  At
    run time an array is an object with an identity: the lists the
    queries deliver are shared with the query cache, [filter], [map],
    [slice], [Object.entries] and an array literal make a new array, and
    [sort] and [push] change the array they are called on.  This module
    follows the component on a heap of arrays, so that what a render
    does to the arrays it is given can be stated. *)
Module Runtime.

Import JS FinTrack.

Section Store.

Context {A : Type}.

(** The arrays of one element type, by address. *)
Definition store := list (list A).

Definition contents (s : store) (a : nat) : list A := nth a s [].

Fixpoint assign (a : nat) (l : list A) (s : store) : store :=
  match s, a with
  | [], _ => []
  | _ :: r, O => l :: r
  | x :: r, S b => x :: assign b l r
  end.

End Store.

Arguments store A : clear implicits.

Record heap := {
  transactionArrays : store Transaction;
  goalArrays : store Goal;
  entryArrays : store (string * jsval);
  progressArrays : store GoalProgress;
  sliceArrays : store PieSlice
}.

(** One of the five stores of a heap. *)
Record field (A : Type) := {
  arrays : heap -> store A;
  withArrays : store A -> heap -> heap
}.
Arguments arrays {A} f h.
Arguments withArrays {A} f s h.

Definition transactionsOf : field Transaction :=
  {| arrays := transactionArrays;
     withArrays s h :=
       {| transactionArrays := s; goalArrays := goalArrays h;
          entryArrays := entryArrays h; progressArrays := progressArrays h;
          sliceArrays := sliceArrays h |} |}.

Definition goalsOf : field Goal :=
  {| arrays := goalArrays;
     withArrays s h :=
       {| transactionArrays := transactionArrays h; goalArrays := s;
          entryArrays := entryArrays h; progressArrays := progressArrays h;
          sliceArrays := sliceArrays h |} |}.

Definition entriesOf : field (string * jsval) :=
  {| arrays := entryArrays;
     withArrays s h :=
       {| transactionArrays := transactionArrays h;
          goalArrays := goalArrays h; entryArrays := s;
          progressArrays := progressArrays h;
          sliceArrays := sliceArrays h |} |}.

Definition progressOf : field GoalProgress :=
  {| arrays := progressArrays;
     withArrays s h :=
       {| transactionArrays := transactionArrays h;
          goalArrays := goalArrays h; entryArrays := entryArrays h;
          progressArrays := s; sliceArrays := sliceArrays h |} |}.

Definition slicesOf : field PieSlice :=
  {| arrays := sliceArrays;
     withArrays s h :=
       {| transactionArrays := transactionArrays h;
          goalArrays := goalArrays h; entryArrays := entryArrays h;
          progressArrays := progressArrays h; sliceArrays := s |} |}.

(** ** Computations that read and change the heap *)

Definition M (R : Type) : Type := heap -> R * heap.

Definition ret {R : Type} (r : R) : M R := fun h => (r, h).

Definition andThen {R S : Type} (m : M R) (k : R -> M S) : M S :=
  fun h => let (r, h') := m h in k r h'.

Notation "x <~ c ;; k" := (andThen c (fun x => k))
  (at level 61, c at next level, right associativity).

Section Arrays.

Context {A : Type}.
Variable F : field A.

(** A new array: its address is the next free one. *)
Definition newArray (l : list A) : M nat :=
  fun h => (List.length (arrays F h), withArrays F (arrays F h ++ [l])%list h).

Definition read (a : nat) : M (list A) :=
  fun h => (contents (arrays F h) a, h).

Definition write (a : nat) (l : list A) : M unit :=
  fun h => (tt, withArrays F (assign a l (arrays F h)) h).

(** [a.filter(p)] *)
Definition arrayFilter (p : A -> bool) (a : nat) : M nat :=
  l <~ read a ;; newArray (filter p l).

(** [a.sort(comparefn)]: the array is sorted in place and returned.
    [after] is the sign test of the comparator, as for [JS.sort]. *)
Definition arraySort (after : A -> A -> bool) (a : nat) : M nat :=
  l <~ read a ;; _ <~ write a (sort after l) ;; ret a.

Definition arraySortBy (comparefn : A -> A -> number) : nat -> M nat :=
  arraySort (fun x y => greater (comparefn x y) PrimFloat.zero).

(** [a.slice(0, n)] *)
Definition arraySlice (n : nat) (a : nat) : M nat :=
  l <~ read a ;; newArray (firstn n l).

(** [a.reduce(f, init)] *)
Definition arrayReduce {B : Type} (f : B -> A -> B) (init : B) (a : nat)
  : M B :=
  l <~ read a ;; ret (fold_left f l init).

(** [a[0]] *)
Definition arrayFirst (a : nat) : M (option A) :=
  l <~ read a ;; ret (hd_error l).

(** [a.push(x)] *)
Definition arrayPush (x : A) (a : nat) : M unit :=
  l <~ read a ;; write a (l ++ [x])%list.

End Arrays.

(** [a.map(f)] *)
Definition arrayMap {A B : Type} (F : field A) (G : field B) (f : A -> B)
    (a : nat) : M nat :=
  l <~ read F a ;; newArray G (map f l).

(** ** The derivations *)

Section Host.

Variable getTime : string -> timeValue.
Variable finiteToString : number -> string.
Variable formatNumber : string -> number -> string.
Variable user : option User.

(** [financialMetrics] (lines 161 to 171); [transactions] is the address
    of the array. *)
Definition financialMetrics (transactions : nat) (currentMonth : string)
  : M FinancialMetrics :=
  monthTx <~ arrayFilter transactionsOf (inMonth currentMonth) transactions ;;
  incomeTx <~
    arrayFilter transactionsOf (fun t => String.eqb (type t) "income")
      monthTx ;;
  income <~
    arrayReduce transactionsOf
      (fun s t => PrimFloat.add s (parseFloat (amount t))) PrimFloat.zero
      incomeTx ;;
  expenseTx <~
    arrayFilter transactionsOf (fun t => String.eqb (type t) "expense")
      monthTx ;;
  expenses <~
    arrayReduce transactionsOf
      (fun s t => PrimFloat.add s (parseFloat (amount t))) PrimFloat.zero
      expenseTx ;;
  let totalBudget := 2500%float in
  let usedPercent :=
    if greater totalBudget 0%float then (expenses / totalBudget * 100)%float
    else 0%float in
  let remaining := (totalBudget - expenses)%float in
  let savingsRate :=
    if greater income 0%float then ((income - expenses) / income * 100)%float
    else 0%float in
  ret {| income := income; expenses := expenses; totalBudget := totalBudget;
         usedPercent := usedPercent; remaining := remaining;
         savingsRate := savingsRate |}.

(** [pieChartData] (lines 174 to 187): the address of [data]. *)
Definition pieChartData (financialMetrics : FinancialMetrics) : M nat :=
  data <~ newArray slicesOf [] ;;
  _ <~ (if greater (income financialMetrics) 0%float
        then arrayPush slicesOf
               {| sliceName := "Income";
                  sliceValue := income financialMetrics;
                  sliceColor := "hsl(var(--chart-1))" |} data
        else ret tt) ;;
  _ <~ (if greater (expenses financialMetrics) 0%float
        then arrayPush slicesOf
               {| sliceName := "Expenses";
                  sliceValue := expenses financialMetrics;
                  sliceColor := "hsl(var(--chart-2))" |} data
        else ret tt) ;;
  let savings := (income financialMetrics - expenses financialMetrics)%float in
  _ <~ (if greater savings 0%float
        then arrayPush slicesOf
               {| sliceName := "Savings"; sliceValue := savings;
                  sliceColor := "hsl(var(--primary))" |} data
        else ret tt) ;;
  ret data.

(** [recentTransactions] (lines 190 to 195) *)
Definition recentTransactions (transactions : nat) (currentMonth : string)
  : M nat :=
  monthTx <~ arrayFilter transactionsOf (inMonth currentMonth) transactions ;;
  sorted <~
    arraySort transactionsOf
      (fun a b => timePositive (byDateDesc getTime a b)) monthTx ;;
  arraySlice transactionsOf 5 sorted.

(** [insights] (lines 198 to 261).  The object the [reduce] fills is
    made by the [{}] it is started with and handed from one step to the
    next; it is a value here. *)
Definition insights (transactions goals : nat) (currentMonth : string)
    (financialMetrics : FinancialMetrics) : M (completion (list Insight)) :=
  monthExpenses <~
    arrayFilter transactionsOf (isMonthExpense currentMonth) transactions ;;
  categoryBreakdown <~
    arrayReduce transactionsOf
      (fun acc t =>
         set acc (category t)
           (plusNumber finiteToString
              (orElse (get acc (category t)) (VNumber 0%float))
              (parseFloat (amount t))))
      [] monthExpenses ;;
  categories <~ newArray entriesOf (entries categoryBreakdown) ;;
  sortedCategories <~ arraySortBy entriesOf byAmountDesc categories ;;
  topCategory <~ arrayFirst entriesOf sortedCategories ;;
  progresses <~ arrayMap goalsOf progressOf goalProgress goals ;;
  sortedProgresses <~
    arraySortBy progressOf (fun a b => (progress b - progress a)%float)
      progresses ;;
  topGoal <~ arrayFirst progressOf sortedProgresses ;;
  ret (insightsFrom finiteToString formatNumber user topCategory topGoal
         financialMetrics).

(** The category breakdown of the Insights screen (lines 607 to 631);
    the rows are the elements React is given. *)
Definition renderCategoryBreakdown (transactions : nat)
    (currentMonth : string) (financialMetrics : FinancialMetrics)
  : M (completion (list BreakdownRow)) :=
  monthExpenses <~
    arrayFilter transactionsOf (isMonthExpense currentMonth) transactions ;;
  breakdown <~
    arrayReduce transactionsOf
      (fun acc t =>
         set acc (category t)
           (plusString finiteToString
              (orElse (get acc (category t)) (VNumber 0%float))
              (amount t)))
      [] monthExpenses ;;
  categories <~ newArray entriesOf (entries breakdown) ;;
  sortedCategories <~ arraySortBy entriesOf byAmountDesc categories ;;
  shownCategories <~ arraySlice entriesOf 4 sortedCategories ;;
  shown <~ read entriesOf shownCategories ;;
  ret (mapM (breakdownRow finiteToString formatNumber user financialMetrics)
         shown).

(** ** One render

    What the component is given: the clock, and the addresses of the
    arrays the two queries deliver. *)
Record View := {
  metrics : FinancialMetrics;
  pie : nat;
  recent : nat;
  insightList : completion (list Insight);
  breakdownRows : completion (list BreakdownRow)
}.

Definition render (nowISO : string) (transactions goals : nat) : M View :=
  let currentMonth := currentMonth nowISO in
  financialMetrics <~ financialMetrics transactions currentMonth ;;
  pieChartData <~ pieChartData financialMetrics ;;
  recentTransactions <~ recentTransactions transactions currentMonth ;;
  insights <~ insights transactions goals currentMonth financialMetrics ;;
  rows <~ renderCategoryBreakdown transactions currentMonth financialMetrics ;;
  ret {| metrics := financialMetrics; pie := pieChartData;
         recent := recentTransactions; insightList := insights;
         breakdownRows := rows |}.

End Host.

(** What a view shows, the arrays read from the heap. *)
Definition shown (h : heap) (v : View) : ViewModel :=
  {| vmMetrics := metrics v;
     vmPie := contents (sliceArrays h) (pie v);
     vmRecent := contents (transactionArrays h) (recent v);
     vmInsights := insightList v;
     vmBreakdown := breakdownRows v |}.

(** Every array of [h] is in [h'], at its address and with its elements;
    [h'] may hold more arrays. *)
Definition grownFrom {A : Type} (s s' : store A) : Prop :=
  exists added, s' = (s ++ added)%list.

Definition keeps (h h' : heap) : Prop :=
  grownFrom (transactionArrays h) (transactionArrays h') /\
  grownFrom (goalArrays h) (goalArrays h') /\
  grownFrom (entryArrays h) (entryArrays h') /\
  grownFrom (progressArrays h) (progressArrays h') /\
  grownFrom (sliceArrays h) (sliceArrays h').

End Runtime.

(* ================================================================== *)
(** * Vocabulary of the statements *)
(* ================================================================== *)

Module Props.

Import JS FinTrack.

(** [0 <= x] on numbers; it fails for [NaN]. *)
Definition nonNegative (x : number) : Prop := PrimFloat.leb 0%float x = true.

(** The non-negative values, read on the mantissa and exponent. *)
Inductive SFnonneg : spec_float -> Prop :=
| nonneg_zero (s : bool) : SFnonneg (S754_zero s)
| nonneg_infinity : SFnonneg (S754_infinity false)
| nonneg_finite (m : positive) (e : Z) : SFnonneg (S754_finite false m e).

(** The string does not parse: [parseFloat] answers [NaN]. *)
Definition unparsable (s : string) : Prop := parseFloat s = PrimFloat.nan.

(** A month's transaction that enters the sum of the given type. *)
Definition counted (currentMonth ty : string) (t : Transaction) : Prop :=
  inMonth currentMonth t = true /\ type t = ty.

(** The date of the transaction starts with the month: it is the month
    followed by some text. *)
Definition datedIn (currentMonth : string) (t : Transaction) : Prop :=
  exists rest, date t = currentMonth ++ rest.

(** [considered currentMonth ty transactions l]: [l] holds the
    transactions dated in the month and of type [ty], all of them and no
    other, in the order of the list. *)
Inductive considered (currentMonth ty : string)
  : list Transaction -> list Transaction -> Prop :=
| considered_nil : considered currentMonth ty [] []
| considered_take (t : Transaction) (transactions l : list Transaction) :
    datedIn currentMonth t -> type t = ty ->
    considered currentMonth ty transactions l ->
    considered currentMonth ty (t :: transactions) (t :: l)
| considered_skip (t : Transaction) (transactions l : list Transaction) :
    ~ (datedIn currentMonth t /\ type t = ty) ->
    considered currentMonth ty transactions l ->
    considered currentMonth ty (t :: transactions) l.

(** The sum of the parsed amounts, from the left, starting at [+0]. *)
Definition total (l : list Transaction) : number :=
  fold_left PrimFloat.add (map (fun t => parseFloat (amount t)) l) 0%float.

(** [a] is dated no earlier than [b], both dates being valid. *)
Definition notEarlier (getTime : string -> timeValue) (a b : Transaction)
  : Prop :=
  exists x y, getTime (date a) = Some x /\ getTime (date b) = Some y /\
              (y <= x)%Z.

(** The time value of a transaction's date, 0 for an invalid date. *)
Definition timeOrZero (getTime : string -> timeValue) (t : Transaction) : Z :=
  match getTime (date t) with
  | Some x => x
  | None => 0%Z
  end.

(** The transaction is dated at time [d]. *)
Definition datedAt (getTime : string -> timeValue) (d : Z) (t : Transaction)
  : bool :=
  match getTime (date t) with
  | Some x => (x =? d)%Z
  | None => false
  end.

(** The three slices a pie chart can show, in the order it shows them. *)
Definition candidateSlices (m : FinancialMetrics) : list PieSlice :=
  [ {| sliceName := "Income"; sliceValue := income m;
       sliceColor := "hsl(var(--chart-1))" |};
    {| sliceName := "Expenses"; sliceValue := expenses m;
       sliceColor := "hsl(var(--chart-2))" |};
    {| sliceName := "Savings";
       sliceValue := (income m - expenses m)%float;
       sliceColor := "hsl(var(--primary))" |} ].

(** The distinct keys an object can hold for the given categories:
    [__proto__] is never one of them. *)
Definition distinctKeys (categories : list string) : list string :=
  nodup string_dec
    (filter (fun c => negb (String.eqb c "__proto__")) categories).

(** The entries of an object under keys that are not members of
    [Object.prototype] hold numbers. *)
Definition numericAt (o : object) : Prop :=
  forall k v, In (k, v) o -> isPrototypeMember k = false ->
              exists a, v = VNumber a.

End Props.

(* ================================================================== *)
(** * Sample inputs *)
(* ================================================================== *)

Module Examples.

Import JS FinTrack.

(** The first example scenario of the specification. *)
Definition salary : Transaction :=
  {| id := "t1"; date := "2024-03-01"; amount := "3000"; type := "income";
     category := "salary" |}.

Definition rent : Transaction :=
  {| id := "t2"; date := "2024-03-05"; amount := "800"; type := "expense";
     category := "rent" |}.

Definition march : list Transaction := [salary; rent].

Definition emergencyFund : Goal :=
  {| goalId := "g1"; name := "Emergency Fund"; current := "500";
     target := "1000" |}.

(** An expense of March 2024. *)
Definition spend (day amount category : string) : Transaction :=
  {| id := ""; date := "2024-03-" ++ day; amount := amount;
     type := "expense"; category := category |}.

Definition garbledSalary : Transaction :=
  {| id := "t3"; date := "2024-03-01"; amount := "abc"; type := "income";
     category := "salary" |}.

Definition zeroSalary : Transaction :=
  {| id := "t3"; date := "2024-03-01"; amount := "0"; type := "income";
     category := "salary" |}.

Definition refund : Transaction :=
  {| id := "t4"; date := "2024-03-02"; amount := "-100"; type := "income";
     category := "refund" |}.

Definition garbledGoal : Goal :=
  {| goalId := "g2"; name := "Car"; current := "abc"; target := "1000" |}.

Definition zeroTargetGoal : Goal :=
  {| goalId := "g3"; name := "Trip"; current := "500"; target := "0" |}.

(** Two expenses of one category. *)
Definition groceries : list Transaction :=
  [ spend "01" "10" "food"; spend "02" "20" "food" ].

(** Five categories; the last one has two small expenses. *)
Definition fiveCategories : list Transaction :=
  [ spend "01" "9" "rent"; spend "02" "8" "food"; spend "03" "7" "fuel";
    spend "04" "6" "books"; spend "05" "1" "snacks"; spend "06" "1" "snacks" ].

(** Three transactions of March, two of them on the same day, and one of
    April. *)
Definition mixedDates : list Transaction :=
  [ {| id := "a"; date := "2024-03-05"; amount := "1"; type := "expense";
       category := "x" |};
    {| id := "b"; date := "2024-04-01"; amount := "2"; type := "expense";
       category := "x" |};
    {| id := "c"; date := "2024-03-09"; amount := "3"; type := "income";
       category := "y" |};
    {| id := "d"; date := "2024-03-05"; amount := "4"; type := "expense";
       category := "z" |} ].

(** A host for the examples.  [isoDate] understands the date-only form
    [YYYY-MM-DD], which [Date] reads as midnight UTC, and nothing else. *)
Definition twoDigits (s : string) : option Z :=
  match s with
  | String a (String b EmptyString) =>
      match digitVal a, digitVal b with
      | Some x, Some y => Some (Z.of_N (x * 10 + y))
      | _, _ => None
      end
  | _ => None
  end.

Definition fourDigits (s : string) : option Z :=
  match twoDigits (String.substring 0 2 s), twoDigits (String.substring 2 2 s) with
  | Some x, Some y =>
      if (String.length s =? 4)%nat then Some (x * 100 + y)%Z else None
  | _, _ => None
  end.

Definition isLeap (y : Z) : bool :=
  ((y mod 4 =? 0) && negb (y mod 100 =? 0) || (y mod 400 =? 0))%Z.

Definition daysInMonth (y m : Z) : Z :=
  if (m =? 2)%Z then (if isLeap y then 29 else 28)%Z
  else if ((m =? 4) || (m =? 6) || (m =? 9) || (m =? 11))%Z then 30%Z
  else 31%Z.

(** Days from 1970-01-01 to the given civil date. *)
Definition daysFromCivil (y m d : Z) : Z :=
  let y' := (if m <=? 2 then y - 1 else y)%Z in
  let era := (y' / 400)%Z in
  let yoe := (y' - era * 400)%Z in
  let doy := ((153 * (if 2 <? m then m - 3 else m + 9) + 2) / 5 + d - 1)%Z in
  let doe := (yoe * 365 + yoe / 4 - yoe / 100 + doy)%Z in
  (era * 146097 + doe - 719468)%Z.

Definition isoDate (s : string) : timeValue :=
  match fourDigits (String.substring 0 4 s),
        twoDigits (String.substring 5 2 s),
        twoDigits (String.substring 8 2 s) with
  | Some y, Some m, Some d =>
      if ((String.length s =? 10)%nat
          && String.eqb (String.substring 4 1 s) "-"
          && String.eqb (String.substring 7 1 s) "-"
          && (1 <=? m)%Z && (m <=? 12)%Z
          && (1 <=? d)%Z && (d <=? daysInMonth y m)%Z)%bool
      then Some (daysFromCivil y m d * 86400000)%Z
      else None
  | _, _, _ => None
  end.

(** No number of the examples reaches the branch that needs the host's
    digits. *)
Definition noDigits (x : number) : string := "".

(** Two decimals after the dollar sign, or after the code of another
    currency, without the grouping [Intl] adds. *)
Definition dollars (currency : string) (x : number) : string :=
  match toFixed noDigits 2 x with
  | Normal s =>
      (if String.eqb currency "USD" then "$" else currency ++ " ") ++ s
  | Throw _ => ""
  end.

(** Users: one with a currency of the settings screen, one with a code
    that is not well formed. *)
Definition euroUser : User := {| currency := "EUR"; language := "en" |}.

Definition strayUser : User := {| currency := "US"; language := "en" |}.

(** Three transactions of March, the second with a day that does not
    exist. *)
Definition strayDay : list Transaction :=
  [ {| id := "a"; date := "2024-03-10"; amount := "1"; type := "expense";
       category := "x" |};
    {| id := "c"; date := "2024-03-32"; amount := "2"; type := "expense";
       category := "x" |};
    {| id := "b"; date := "2024-03-20"; amount := "3"; type := "expense";
       category := "x" |} ].

(** Two heaps.  The first holds the arrays of the two queries and
    nothing else; in the second the same transactions are at another
    address, among other arrays. *)
Definition marchHeap : Runtime.heap :=
  {| Runtime.transactionArrays := [march];
     Runtime.goalArrays := [[emergencyFund]];
     Runtime.entryArrays := [];
     Runtime.progressArrays := [];
     Runtime.sliceArrays := [] |}.

Definition busyHeap : Runtime.heap :=
  {| Runtime.transactionArrays := [groceries; march; fiveCategories];
     Runtime.goalArrays := [[emergencyFund]; [zeroTargetGoal]];
     Runtime.entryArrays := [[("food", VNumber 30%float)]];
     Runtime.progressArrays := [];
     Runtime.sliceArrays := [[]] |}.

End Examples.

(* ================================================================== *)
(** * The handlers and the navigation of the component *)
(* ================================================================== *)

Module Component.

Import JS FinTrack.

(** ** The bottom navigation ([BottomNavigation.tsx]) *)

Record Tab := {
  tabId : Z;
  tabIcon : string;
  label : string
}.

Definition tabs : list Tab :=
  [ {| tabId := 0; tabIcon := "Home"; label := "Dashboard" |};
    {| tabId := 1; tabIcon := "Target"; label := "Goals" |};
    {| tabId := 2; tabIcon := "BarChart3"; label := "Insights" |};
    {| tabId := 3; tabIcon := "Bot"; label := "AI Advisor" |};
    {| tabId := 4; tabIcon := "Settings"; label := "Settings" |} ].

(** [activeTab === tab.id ? "text-primary" : "text-muted-foreground"] *)
Definition tabColor (activeTab : Z) (tab : Tab) : string :=
  if (activeTab =? tabId tab)%Z then "text-primary"
  else "text-muted-foreground".

(** ** [renderScreen]: the screen of each tab, [None] for [null] *)

Inductive Screen := Dashboard | Goals | Insights | AIAdvisor | Settings.

(** The title each screen hands to its [TopBar]. *)
Definition screenTitle (s : Screen) : string :=
  match s with
  | Dashboard => "Dashboard"
  | Goals => "Goals"
  | Insights => "Insights"
  | AIAdvisor => "AI Advisor"
  | Settings => "Settings"
  end.

Definition renderScreen (activeTab : Z) : option Screen :=
  match activeTab with
  | 0%Z => Some Dashboard
  | 1%Z => Some Goals
  | 2%Z => Some Insights
  | 3%Z => Some AIAdvisor
  | 4%Z => Some Settings
  | _ => None
  end.

(** ** The state the component keeps ([useState])

    Tab and insight indices are small non-negative integers, on which
    the arithmetic of numbers is exact; they are integers here, and [%]
    is [Z.rem] (the sign of the dividend). *)
Record State := {
  activeTab : Z;
  showTransactionModal : bool;
  showGoalModal : bool;
  editingTransaction : option Transaction;
  editingGoal : option Goal;
  currentInsightIndex : Z
}.

Definition initialState : State :=
  {| activeTab := 0; showTransactionModal := false; showGoalModal := false;
     editingTransaction := None; editingGoal := None;
     currentInsightIndex := 0 |}.

(** What a handler asks of the REST layer ([mutate]). *)
Inductive request :=
| CreateTransaction (data : object)
| UpdateTransaction (id : string) (data : object)
| DeleteTransaction (id : string)
| CreateGoal (data : object)
| UpdateGoal (id : string) (data : object)
| DeleteGoal (id : string)
| SendAiMessage (message : string)
| ClearAiMessages.

(** What a mutation does once the server has answered. *)
Inductive effect :=
| Invalidate (queryKey : string)
| Toast (title : string) (destructive : bool).

Definition onSuccess (r : request) : list effect :=
  match r with
  | CreateTransaction _ =>
      [Invalidate "/api/transactions";
       Toast "Transaction added successfully" false]
  | UpdateTransaction _ _ =>
      [Invalidate "/api/transactions";
       Toast "Transaction updated successfully" false]
  | DeleteTransaction _ =>
      [Invalidate "/api/transactions";
       Toast "Transaction deleted successfully" false]
  | CreateGoal _ =>
      [Invalidate "/api/goals"; Toast "Goal created successfully" false]
  | UpdateGoal _ _ =>
      [Invalidate "/api/goals"; Toast "Goal updated successfully" false]
  | DeleteGoal _ =>
      [Invalidate "/api/goals"; Toast "Goal deleted successfully" false]
  | SendAiMessage _ => [Invalidate "/api/ai/messages"]
  | ClearAiMessages =>
      [Invalidate "/api/ai/messages";
       Toast "Conversation reset successfully" false]
  end.

Definition onError (r : request) : list effect :=
  match r with
  | CreateTransaction _ => [Toast "Failed to add transaction" true]
  | UpdateTransaction _ _ => [Toast "Failed to update transaction" true]
  | DeleteTransaction _ => [Toast "Failed to delete transaction" true]
  | CreateGoal _ => [Toast "Failed to create goal" true]
  | UpdateGoal _ _ => [Toast "Failed to update goal" true]
  | DeleteGoal _ => [Toast "Failed to delete goal" true]
  | SendAiMessage _ => [Toast "Failed to send message" true]
  | ClearAiMessages => [Toast "Failed to reset conversation" true]
  end.

(** ** The modals *)

(** [{ ...data, [k]: data[k] }]: the own properties of [data] copied in
    order, then [k] defined.  For a key other than [__proto__] defining a
    property in a literal and assigning it are the same. *)
Definition spreadWithOwn (data : object) (k : string) : object :=
  set data k (get data k).

Definition handleOpenTransaction (transaction : option Transaction)
    (s : State) : State :=
  {| activeTab := activeTab s;
     showTransactionModal := true;
     showGoalModal := showGoalModal s;
     editingTransaction := transaction;
     editingGoal := editingGoal s;
     currentInsightIndex := currentInsightIndex s |}.

Definition handleSaveTransaction (transactionData : object) (s : State)
  : State * list request :=
  ({| activeTab := activeTab s;
      showTransactionModal := showTransactionModal s;
      showGoalModal := showGoalModal s;
      editingTransaction := None;
      editingGoal := editingGoal s;
      currentInsightIndex := currentInsightIndex s |},
   match editingTransaction s with
   | Some t =>
       [UpdateTransaction (FinTrack.id t)
          (spreadWithOwn transactionData "amount")]
   | None => [CreateTransaction transactionData]
   end).

Definition handleDeleteTransaction (id : string) : list request :=
  [DeleteTransaction id].

(** [onClose] of the transaction modal. *)
Definition closeTransactionModal (s : State) : State :=
  {| activeTab := activeTab s;
     showTransactionModal := false;
     showGoalModal := showGoalModal s;
     editingTransaction := None;
     editingGoal := editingGoal s;
     currentInsightIndex := currentInsightIndex s |}.

(** [title] of the transaction modal. *)
Definition transactionModalTitle (s : State) : string :=
  match editingTransaction s with
  | Some _ => "Edit Transaction"
  | None => "Add Transaction"
  end.

Definition handleOpenGoal (goal : option Goal) (s : State) : State :=
  {| activeTab := activeTab s;
     showTransactionModal := showTransactionModal s;
     showGoalModal := true;
     editingTransaction := editingTransaction s;
     editingGoal := goal;
     currentInsightIndex := currentInsightIndex s |}.

Definition handleSaveGoal (goalData : object) (s : State)
  : State * list request :=
  ({| activeTab := activeTab s;
      showTransactionModal := showTransactionModal s;
      showGoalModal := showGoalModal s;
      editingTransaction := editingTransaction s;
      editingGoal := None;
      currentInsightIndex := currentInsightIndex s |},
   match editingGoal s with
   | Some g => [UpdateGoal (goalId g) (spreadWithOwn goalData "target")]
   | None => [CreateGoal goalData]
   end).

Definition handleDeleteGoal (id : string) : list request := [DeleteGoal id].

(** [onClose] of the goal modal. *)
Definition closeGoalModal (s : State) : State :=
  {| activeTab := activeTab s;
     showTransactionModal := showTransactionModal s;
     showGoalModal := false;
     editingTransaction := editingTransaction s;
     editingGoal := None;
     currentInsightIndex := currentInsightIndex s |}.

Definition goalModalTitle (s : State) : string :=
  match editingGoal s with
  | Some _ => "Edit Goal"
  | None => "Add Goal"
  end.

Definition handleAIMessage (message : string) : list request :=
  [SendAiMessage message].

(** ** [handleFundGoal]

    [answer] is what [prompt] returned: [None] when the dialog was
    cancelled. *)
Section FundGoal.

Variable finiteToString : number -> string.

Definition handleFundGoal (goal : Goal) (answer : option string)
  : list request :=
  match answer with
  | Some amount =>
      if (truthy (VString amount)
          && negb (PrimFloat.is_nan (parseFloat amount)))%bool
      then
        let newCurrent :=
          (parseFloat (current goal) + parseFloat amount)%float in
        [UpdateGoal (goalId goal)
           [("current", VString (numberToString finiteToString newCurrent))]]
      else []
  | None => []
  end.

End FundGoal.

(** ** The rotation of the insights *)

(** [prev => (prev + 1) % insights.length] *)
Definition nextInsight (length prev : Z) : Z := Z.rem (prev + 1) length.

(** [prev => prev === 0 ? insights.length - 1 : prev - 1] *)
Definition previousInsight (length prev : Z) : Z :=
  if (prev =? 0)%Z then (length - 1)%Z else (prev - 1)%Z.

(** The indices the component can reach: it starts at 0; the timer and
    the next button apply [nextInsight], the previous button
    [previousInsight]. *)
Inductive rotated (length : Z) : Z -> Prop :=
| rotated_start : rotated length 0
| rotated_next (i : Z) : rotated length i -> rotated length (nextInsight length i)
| rotated_previous (i : Z) :
    rotated length i -> rotated length (previousInsight length i).

(** ** The tabs the component can show

    It starts on tab 0; a button of the bottom navigation sets the tab to
    its [id], and the three "ask the AI" buttons set it to 3. *)
Inductive tabReached : Z -> Prop :=
| tab_start : tabReached 0
| tab_clicked (tab : Tab) (from : Z) :
    In tab tabs -> tabReached from -> tabReached (tabId tab)
| tab_askAI (from : Z) : tabReached from -> tabReached 3.

(** ** The quick insight of the dashboard *)

Definition quickInsight (financialMetrics : FinancialMetrics) : string :=
  if greater (savingsRate financialMetrics) 20%float then
    "Great financial discipline! You're saving well above average. Consider increasing your emergency fund goal."
  else if greater (savingsRate financialMetrics) 10%float then
    "You're staying within budget. Consider setting up automatic transfers to boost your savings rate."
  else
    "Your expenses are high this month. I can help you find areas to optimize - just ask!".

(** ** Vocabulary *)

(** The amounts of the transactions of one category, in order. *)
Definition amountsOf (c : string) (l : list Transaction) : list string :=
  map amount (filter (fun t => String.eqb (category t) c) l).

(** The sum of parsed amounts, from the left, starting at [+0]. *)
Definition sumParsed (amounts : list string) : number :=
  fold_left (fun s a => PrimFloat.add s (parseFloat a)) amounts
    PrimFloat.zero.

(** The queries a list of effects invalidates. *)
Definition invalidated (l : list effect) : list string :=
  flat_map (fun e => match e with
                     | Invalidate k => [k]
                     | Toast _ _ => []
                     end) l.

(** The non-negative values other than [-0]. *)
Definition SFplus (x : spec_float) : Prop :=
  Props.SFnonneg x /\ x <> S754_zero true.

Definition plusZero (x : number) : Prop := SFplus (Prim2SF x).

(** The query that holds the collection a request writes. *)
Definition collectionOf (r : request) : string :=
  match r with
  | CreateTransaction _ | UpdateTransaction _ _ | DeleteTransaction _ =>
      "/api/transactions"
  | CreateGoal _ | UpdateGoal _ _ | DeleteGoal _ => "/api/goals"
  | SendAiMessage _ | ClearAiMessages => "/api/ai/messages"
  end.

End Component.

(* ================================================================== *)
(** * Facts about numbers *)
(* ================================================================== *)

Module NumberFacts.

Import JS Props.

Lemma add_nan_r (x : number) : (x + nan)%float = nan.
Proof.
  apply Prim2SF_inj. rewrite add_spec.
  change (Prim2SF nan) with S754_nan.
  destruct (Prim2SF x); reflexivity.
Qed.

Lemma add_nan_l (x : number) : (nan + x)%float = nan.
Proof.
  apply Prim2SF_inj. rewrite add_spec.
  change (Prim2SF nan) with S754_nan. reflexivity.
Qed.

Lemma nan_not_zero : nan <> 0%float.
Proof.
  intros H. apply (f_equal PrimFloat.is_nan) in H. discriminate H.
Qed.

Lemma nonNegative_spec (x : number) : nonNegative x <-> SFnonneg (Prim2SF x).
Proof.
  unfold nonNegative. rewrite leb_spec.
  change (Prim2SF 0) with (S754_zero false).
  destruct (Prim2SF x) as [s|s| |s m e]; split; intros H.
  all: try (destruct s); try constructor; try reflexivity.
  all: try discriminate H; inversion H.
Qed.

Lemma shr_1_nonneg (mrs : shr_record) :
  (0 <= shr_m mrs)%Z -> (0 <= shr_m (shr_1 mrs))%Z.
Proof.
  destruct mrs as [m r s]. destruct m as [|p|p]; cbn; intros H; try lia.
  destruct p; cbn; lia.
Qed.

Lemma iter_pos_invariant {A : Type} (P : A -> Prop) (f : A -> A) :
  (forall x, P x -> P (f x)) ->
  forall p x, P x -> P (iter_pos f p x).
Proof.
  intros Hf p. induction p; intros x Hx; cbn; auto.
Qed.

Lemma shr_nonneg (mrs : shr_record) (e n : Z) :
  (0 <= shr_m mrs)%Z -> (0 <= shr_m (fst (shr mrs e n)))%Z.
Proof.
  intros H. destruct n; cbn; auto.
  apply (iter_pos_invariant (fun r => 0 <= shr_m r)%Z);
    auto using shr_1_nonneg.
Qed.

Lemma shr_record_of_loc_m (m : Z) (l : location) :
  shr_m (shr_record_of_loc m l) = m.
Proof. destruct l as [|[]]; reflexivity. Qed.

Lemma shr_fexp_nonneg (m e : Z) (l : location) :
  (0 <= m)%Z -> (0 <= shr_m (fst (shr_fexp prec emax m e l)))%Z.
Proof.
  intros H. unfold shr_fexp. apply shr_nonneg.
  now rewrite shr_record_of_loc_m.
Qed.

Lemma round_nearest_even_nonneg (m : Z) (l : location) :
  (0 <= m)%Z -> (0 <= round_nearest_even m l)%Z.
Proof.
  intros H. destruct l as [|[]]; cbn; try lia. destruct (Z.even m); lia.
Qed.

(** Rounding a non-negative mantissa never produces a negative number,
    nor [NaN]. *)
Lemma binary_round_aux_nonneg (m e : Z) (l : location) :
  (0 <= m)%Z -> SFnonneg (binary_round_aux prec emax false m e l).
Proof.
  intros H. unfold binary_round_aux.
  pose proof (shr_fexp_nonneg m e l H) as H1.
  destruct (shr_fexp prec emax m e l) as [mrs' e'].
  cbn [fst] in H1.
  pose proof (shr_fexp_nonneg _ e' loc_Exact
                (round_nearest_even_nonneg _ (loc_of_shr_record mrs') H1))
    as H2.
  destruct (shr_fexp prec emax _ e' loc_Exact) as [mrs'' e''].
  cbn [fst] in H2.
  destruct (shr_m mrs''); try lia; try constructor.
  destruct (Z.leb e'' (emax - prec)); constructor.
Qed.

Lemma binary_round_nonneg (m : positive) (e : Z) :
  SFnonneg (binary_round prec emax false m e).
Proof.
  unfold binary_round. destruct (shl_align _ _ _) as [mz ez].
  apply binary_round_aux_nonneg. lia.
Qed.

Lemma SFadd_nonneg (x y : spec_float) :
  SFnonneg x -> SFnonneg y -> SFnonneg (SFadd prec emax x y).
Proof.
  intros Hx Hy. destruct Hx, Hy; cbn; try constructor.
  - destruct s, s0; constructor.
  - unfold binary_normalize.
    destruct (shl_align m e (Z.min e e0)) as [a ?],
             (shl_align m0 e0 (Z.min e e0)) as [b ?].
    cbn [fst cond_Zopp]. change (Z.pos a + Z.pos b)%Z with (Z.pos (a + b)).
    apply binary_round_nonneg.
Qed.

(** The sum of two non-negative numbers is non-negative, whatever the
    rounding (it may be [+Infinity]). *)
Lemma add_nonNegative (x y : number) :
  nonNegative x -> nonNegative y -> nonNegative (x + y)%float.
Proof.
  rewrite !nonNegative_spec, add_spec. apply SFadd_nonneg.
Qed.

Lemma zero_nonNegative : nonNegative 0%float.
Proof. reflexivity. Qed.

Lemma greater_zero_not_leb (x : number) :
  greater x 0%float = true -> PrimFloat.leb x 0%float = false.
Proof.
  unfold greater. rewrite ltb_spec, leb_spec.
  change (Prim2SF 0) with (S754_zero false).
  destruct (Prim2SF x) as [s|s| |s m e]; cbn; try discriminate;
    destruct s; cbn; try discriminate; reflexivity.
Qed.

Lemma eqb_zero_spec (x : number) :
  PrimFloat.eqb x 0%float = true <-> exists s, Prim2SF x = S754_zero s.
Proof.
  rewrite FloatAxioms.eqb_spec. change (Prim2SF 0) with (S754_zero false).
  destruct (Prim2SF x) as [s|s| |s m e]; split.
  all: try (intros [? H]; discriminate H).
  all: intros H; try (destruct s; discriminate H).
  all: try discriminate H; eauto.
Qed.

Lemma zero_not_greater (x : number) :
  PrimFloat.eqb x 0%float = true -> greater x 0%float = false.
Proof.
  intros [s H]%eqb_zero_spec. unfold greater. rewrite ltb_spec, H.
  reflexivity.
Qed.

Lemma is_finite_spec (x : number) :
  PrimFloat.is_finite x =
  match Prim2SF x with
  | S754_nan | S754_infinity _ => false
  | _ => true
  end.
Proof.
  unfold is_finite, is_nan, is_infinity.
  rewrite !FloatAxioms.eqb_spec, abs_spec.
  change (Prim2SF infinity) with (S754_infinity false).
  destruct (Prim2SF x) as [s|s| |s m e]; try (destruct s; reflexivity);
    try reflexivity.
  unfold SFabs, SFeqb, SFcompare.
  rewrite Z.compare_refl, Pos.compare_cont_refl.
  destruct s; reflexivity.
Qed.

(** [x / y * 100] with [y] a zero: [NaN] or an infinity. *)
Lemma div_zero_times_100 (x y : number) :
  PrimFloat.eqb y 0%float = true ->
  PrimFloat.is_finite (x / y * 100)%float = false.
Proof.
  intros [s Hy]%eqb_zero_spec.
  rewrite is_finite_spec, mul_spec, div_spec, Hy.
  change (Prim2SF 100) with (S754_finite false 7036874417766400 (-46)).
  destruct (Prim2SF x) as [sx|sx| |sx mx ex]; reflexivity.
Qed.

(** What is not finite is not zero. *)
Lemma not_finite_not_zero (x : number) :
  PrimFloat.is_finite x = false -> PrimFloat.eqb x 0%float = false.
Proof.
  rewrite is_finite_spec, FloatAxioms.eqb_spec.
  destruct (Prim2SF x) as [s|s| |s m e]; try discriminate;
    try (destruct s); reflexivity.
Qed.

(** [toFixed] throws only for a number of digits out of range. *)
Lemma toFixed_1_normal (host : number -> string) (x : number) :
  exists s, toFixed host 1 x = Normal s.
Proof.
  unfold toFixed.
  change ((1 <? 0)%Z || (100 <? 1)%Z)%bool with false. cbv iota. eauto.
Qed.

End NumberFacts.

(* ================================================================== *)
(** * Facts about the stable sort *)
(* ================================================================== *)

Module SortFacts.

Import JS.

Section Sort.

Context {A : Type}.
Variable after : A -> A -> bool.

Lemma insert_perm (x : A) (l : list A) :
  Permutation (insert after x l) (x :: l).
Proof.
  induction l as [|y r IH]; cbn; [reflexivity|].
  destruct (after x y); [|reflexivity].
  rewrite IH. apply perm_swap.
Qed.

Lemma sort_perm (l : list A) : Permutation (sort after l) l.
Proof.
  induction l as [|x r IH]; cbn; [reflexivity|].
  rewrite insert_perm. now constructor.
Qed.

Lemma sort_length (l : list A) :
  List.length (sort after l) = List.length l.
Proof. apply Permutation_length, sort_perm. Qed.

Lemma sort_In (l : list A) (x : A) : In x (sort after l) <-> In x l.
Proof.
  split; apply Permutation_in; [|symmetry]; apply sort_perm.
Qed.

(** Elements of one class, none of which goes after another, keep their
    places relative to one another. *)
Lemma insert_filter (p : A -> bool) (x : A) (l : list A) :
  (forall y, In y l -> p x = true -> p y = true -> after x y = false) ->
  filter p (insert after x l) = filter p (x :: l).
Proof.
  induction l as [|y r IH]; intros H; [reflexivity|].
  cbn [insert]. destruct (after x y) eqn:E; [|reflexivity].
  cbn [filter]. rewrite IH by (intros; apply H; cbn; auto).
  cbn [filter]. destruct (p x) eqn:Px; [|reflexivity].
  destruct (p y) eqn:Py; [|reflexivity].
  rewrite (H y) in E by (cbn; auto). discriminate E.
Qed.

Lemma sort_stable (p : A -> bool) (l : list A) :
  (forall x y, In x l -> In y l ->
               p x = true -> p y = true -> after x y = false) ->
  filter p (sort after l) = filter p l.
Proof.
  induction l as [|x r IH]; intros H; [reflexivity|].
  cbn [sort fold_right]. fold (sort after r).
  rewrite insert_filter.
  - cbn [filter]. rewrite IH by (intros; apply H; cbn; auto). reflexivity.
  - intros y Hy. apply (proj1 (sort_In r y)) in Hy.
    apply H; [left|right]; auto.
Qed.

(** With a comparator that follows a rank, the result is in descending
    order of rank. *)
Variable rank : A -> Z.

Lemma insert_sorted (x : A) (l : list A) :
  (forall y, In y l -> after x y = (rank x <? rank y)%Z) ->
  StronglySorted (fun a b => (rank b <= rank a)%Z) l ->
  StronglySorted (fun a b => (rank b <= rank a)%Z) (insert after x l).
Proof.
  induction l as [|y r IH]; intros H S; cbn.
  - repeat constructor.
  - inversion S as [|? ? Sr Fy]; subst.
    rewrite (H y) by (cbn; auto).
    destruct (rank x <? rank y)%Z eqn:E.
    + apply Z.ltb_lt in E. constructor.
      * apply IH; [intros; apply H; cbn; auto | exact Sr].
      * rewrite Forall_forall in *. intros z Hz.
        apply (Permutation_in _ (insert_perm x r)) in Hz.
        destruct Hz as [<-|Hz]; [lia | auto].
    + apply Z.ltb_ge in E. constructor; [exact S|].
      constructor; [exact E|].
      rewrite Forall_forall in *. intros z Hz. specialize (Fy z Hz). lia.
Qed.

Lemma sort_sorted (l : list A) :
  (forall x y, In x l -> In y l -> after x y = (rank x <? rank y)%Z) ->
  StronglySorted (fun a b => (rank b <= rank a)%Z) (sort after l).
Proof.
  induction l as [|x r IH]; intros H.
  - constructor.
  - cbn [sort fold_right]. fold (sort after r). apply insert_sorted.
    + intros y Hy. apply (proj1 (sort_In r y)) in Hy.
      apply H; [left|right]; auto.
    + apply IH. intros; apply H; right; auto.
Qed.

End Sort.

Lemma firstn_length_min {A : Type} (n : nat) (l : list A) :
  List.length (firstn n l) = Nat.min n (List.length l).
Proof. apply length_firstn. Qed.

Lemma firstn_In {A : Type} (n : nat) (l : list A) (x : A) :
  In x (firstn n l) -> In x l.
Proof.
  revert l; induction n as [|n IH]; intros [|y l]; cbn; try tauto.
  intros [H|H]; auto.
Qed.

End SortFacts.

(* ================================================================== *)
(** * Facts about plain objects *)
(* ================================================================== *)

Module ObjectFacts.

Import JS Props.

Lemma getOwn_None (o : object) (k : string) :
  getOwn o k = None <-> ~ In k (keys o).
Proof.
  induction o as [|[k' v] r IH]; cbn; [tauto|].
  destruct (String.eqb_spec k' k) as [->|Hne].
  - split; [discriminate | intros H; exfalso; apply H; now left].
  - rewrite IH. tauto.
Qed.

Lemma replaceOwn_keys (o : object) (k : string) (v : jsval) :
  keys (replaceOwn o k v) = keys o.
Proof.
  induction o as [|[k' v'] r IH]; cbn; [reflexivity|].
  destruct (String.eqb k' k); cbn; [reflexivity|].
  unfold keys in IH. now rewrite IH.
Qed.

Lemma insertIndex_perm (o : object) (i : N) (k : string) (v : jsval) :
  Permutation (insertIndex o i k v) ((k, v) :: o).
Proof.
  induction o as [|[k' v'] r IH]; cbn; [reflexivity|].
  destruct (arrayIndex k') as [j|]; [|reflexivity].
  destruct (i <? j)%N; [reflexivity|].
  rewrite IH. apply perm_swap.
Qed.

Lemma set_proto (o : object) (v : jsval) : set o "__proto__" v = o.
Proof. reflexivity. Qed.

Lemma set_keys_old (o : object) (k : string) (v : jsval) :
  In k (keys o) -> keys (set o k v) = keys o.
Proof.
  intros H. unfold set. destruct (String.eqb k "__proto__"); [reflexivity|].
  destruct (getOwn o k) eqn:E.
  - apply replaceOwn_keys.
  - apply getOwn_None in E. contradiction.
Qed.

Lemma set_keys_new (o : object) (k : string) (v : jsval) :
  ~ In k (keys o) -> k <> "__proto__" ->
  Permutation (keys (set o k v)) (k :: keys o).
Proof.
  intros H Hk. unfold set.
  destruct (String.eqb_spec k "__proto__") as [->|_]; [contradiction|].
  apply getOwn_None in H. rewrite H.
  destruct (arrayIndex k) as [i|].
  - unfold keys. rewrite (insertIndex_perm o i k v). reflexivity.
  - unfold keys. rewrite map_app. cbn.
    symmetry. apply Permutation_cons_append.
Qed.

(** An object filled by one assignment per element of a list. *)
Section Build.

Context {T : Type}.
Variable key : T -> string.
Variable val : object -> T -> jsval.

Local Abbreviation build l o :=
  (fold_left (fun acc t => set acc (key t) (val acc t)) l o).

Lemma set_NoDup (o : object) (k : string) (v : jsval) :
  NoDup (keys o) -> NoDup (keys (set o k v)).
Proof.
  intros H.
  destruct (in_dec string_dec k (keys o)) as [Hin|Hout].
  - now rewrite set_keys_old.
  - destruct (string_dec k "__proto__") as [->|Hk]; [exact H|].
    apply (Permutation_NoDup (l := k :: keys o)).
    + symmetry. now apply set_keys_new.
    + now constructor.
Qed.

Lemma set_In (o : object) (k : string) (v : jsval) (x : string) :
  In x (keys (set o k v)) <->
  In x (keys o) \/ (x = k /\ k <> "__proto__").
Proof.
  destruct (in_dec string_dec k (keys o)) as [Hin|Hout].
  - rewrite set_keys_old by assumption. split; [tauto|].
    intros [H|[-> _]]; assumption.
  - destruct (string_dec k "__proto__") as [->|Hk].
    + rewrite set_proto. tauto.
    + split.
      * intros H. apply (Permutation_in _ (set_keys_new o k v Hout Hk)) in H.
        destruct H as [<-|H]; auto.
      * intros H.
        apply (Permutation_in _ (Permutation_sym (set_keys_new o k v Hout Hk))).
        destruct H as [H|[-> _]]; [now right | now left].
Qed.

Lemma build_NoDup (l : list T) (o : object) :
  NoDup (keys o) -> NoDup (keys (build l o)).
Proof.
  revert o. induction l as [|t r IH]; intros o H; cbn; [exact H|].
  apply IH, set_NoDup, H.
Qed.

Lemma build_In (l : list T) (o : object) (x : string) :
  In x (keys (build l o)) <->
  In x (keys o) \/ (In x (map key l) /\ x <> "__proto__").
Proof.
  revert o. induction l as [|t r IH]; intros o; cbn.
  - tauto.
  - rewrite IH, set_In. split.
    + intros [[H|[-> H]]|[H1 H2]]; auto.
    + intros [H|[[<-|H1] H2]]; auto.
Qed.

(** The object holds one entry per distinct key other than [__proto__]. *)
Lemma build_length (l : list T) :
  List.length (build l []) = List.length (distinctKeys (map key l)).
Proof.
  rewrite <- (length_map fst (build l [])). fold (keys (build l [])).
  apply Permutation_length, NoDup_Permutation.
  - apply build_NoDup. constructor.
  - apply NoDup_nodup.
  - intros x. rewrite build_In. unfold distinctKeys.
    rewrite nodup_In, filter_In. cbn.
    destruct (String.eqb_spec x "__proto__"); cbn; intuition congruence.
Qed.

End Build.

End ObjectFacts.

(* ================================================================== *)
(** * Facts about the sums *)
(* ================================================================== *)

Module SumFacts.

Import JS FinTrack Props NumberFacts.

Lemma filter_and {A : Type} (f g : A -> bool) (l : list A) :
  filter g (filter f l) = filter (fun x => f x && g x) l.
Proof.
  induction l as [|x r IH]; cbn; [reflexivity|].
  destruct (f x); cbn; [destruct (g x)|]; now rewrite IH.
Qed.

Lemma filter_idem {A : Type} (f : A -> bool) (l : list A) :
  filter f (filter f l) = filter f l.
Proof.
  rewrite filter_and. apply filter_ext. intros x. now destruct (f x).
Qed.

Lemma sumAmounts_map (l : list Transaction) :
  sumAmounts l =
  fold_left PrimFloat.add (map (fun t => parseFloat (amount t)) l) 0%float.
Proof.
  unfold sumAmounts. change 0%float with PrimFloat.zero.
  generalize PrimFloat.zero.
  induction l as [|t r IH]; intros a; cbn; [reflexivity | apply IH].
Qed.

Lemma sumAmounts_app (l : list Transaction) (t : Transaction) :
  sumAmounts (l ++ [t])%list
  = (sumAmounts l + parseFloat (amount t))%float.
Proof. unfold sumAmounts. now rewrite fold_left_app. Qed.

Lemma fold_add_nan (l : list Transaction) :
  fold_left (fun s t => (s + parseFloat (amount t))%float) l nan = nan.
Proof.
  induction l as [|t r IH]; cbn; [reflexivity|]. now rewrite add_nan_l.
Qed.

(** One unparsable amount makes the whole sum [NaN]. *)
Lemma sumAmounts_nan (l : list Transaction) (t : Transaction) :
  In t l -> unparsable (amount t) -> sumAmounts l = nan.
Proof.
  unfold sumAmounts, unparsable. generalize PrimFloat.zero.
  induction l as [|u r IH]; intros a Hin Hnan; [destruct Hin|].
  cbn. destruct Hin as [->|Hin].
  - rewrite Hnan, add_nan_r. apply fold_add_nan.
  - now apply IH.
Qed.

Lemma fold_add_nonNegative (l : list Transaction) (a : number) :
  nonNegative a ->
  (forall t, In t l -> nonNegative (parseFloat (amount t))) ->
  nonNegative
    (fold_left (fun s t => (s + parseFloat (amount t))%float) l a).
Proof.
  revert a. induction l as [|t r IH]; intros a Ha H; cbn; [exact Ha|].
  apply IH.
  - apply add_nonNegative; [exact Ha | apply H; now left].
  - intros u Hu. apply H. now right.
Qed.

Lemma sumAmounts_nonNegative (l : list Transaction) :
  (forall t, In t l -> nonNegative (parseFloat (amount t))) ->
  nonNegative (sumAmounts l).
Proof. apply fold_add_nonNegative, zero_nonNegative. Qed.

(** The transactions a sum runs over. *)
Lemma counted_filter (currentMonth ty : string)
    (transactions : list Transaction) (t : Transaction) :
  In t (filter (fun t => String.eqb (type t) ty)
          (filter (inMonth currentMonth) transactions)) <->
  In t transactions /\ counted currentMonth ty t.
Proof.
  rewrite !filter_In. unfold counted.
  destruct (String.eqb_spec (type t) ty); intuition congruence.
Qed.

(** [startsWith]: the string is the prefix followed by some text. *)
Lemma startsWith_spec (s p : string) :
  startsWith s p = true <-> exists rest, s = p ++ rest.
Proof.
  unfold startsWith. revert s. induction p as [|a p IH]; intros s.
  - destruct s; cbn; split; eauto.
  - destruct s as [|b s]; cbn.
    + split; [discriminate | intros [rest H]; discriminate H].
    + destruct (Ascii.ascii_dec a b) as [->|N].
      * rewrite IH. split; intros [rest H]; exists rest.
        -- now rewrite H.
        -- now injection H.
      * split; [discriminate|]. intros [rest H]. injection H as E _.
        congruence.
Qed.

Lemma inMonth_datedIn (currentMonth : string) (t : Transaction) :
  inMonth currentMonth t = true <-> datedIn currentMonth t.
Proof. apply startsWith_spec. Qed.

(** The transactions the specification considers are the ones the two
    [filter]s keep. *)
Lemma considered_filter (currentMonth ty : string)
    (transactions l : list Transaction) :
  considered currentMonth ty transactions l <->
  l = filter (fun t => inMonth currentMonth t && String.eqb (type t) ty)
        transactions.
Proof.
  split.
  - intros H. induction H as [|t ts l Hd Ht _ IH|t ts l Hn _ IH]; cbn.
    + reflexivity.
    + apply inMonth_datedIn in Hd. rewrite Hd, Ht, String.eqb_refl.
      cbn. now rewrite IH.
    + destruct (inMonth currentMonth t) eqn:Em; [|exact IH].
      destruct (String.eqb_spec (type t) ty) as [Et|]; [|exact IH].
      exfalso. apply Hn. split; [now apply inMonth_datedIn | exact Et].
  - intros ->. induction transactions as [|t ts IH]; cbn.
    + constructor.
    + destruct (inMonth currentMonth t) eqn:Em.
      * destruct (String.eqb_spec (type t) ty) as [Et|Et]; cbn.
        -- apply considered_take;
             [now apply inMonth_datedIn | exact Et | exact IH].
        -- apply considered_skip; [|exact IH]. intros [_ H]. contradiction.
      * cbn. apply considered_skip; [|exact IH].
        intros [H%inMonth_datedIn _]. congruence.
Qed.

Lemma income_eq (B : number) (transactions : list Transaction)
    (currentMonth : string) :
  income (metricsWithBudget B transactions currentMonth) =
  sumAmounts (filter (fun t => String.eqb (type t) "income")
                (filter (inMonth currentMonth) transactions)).
Proof. reflexivity. Qed.

Lemma expenses_eq (B : number) (transactions : list Transaction)
    (currentMonth : string) :
  expenses (metricsWithBudget B transactions currentMonth) =
  sumAmounts (filter (fun t => String.eqb (type t) "expense")
                (filter (inMonth currentMonth) transactions)).
Proof. reflexivity. Qed.

End SumFacts.

(* ================================================================== *)
(** * The monthly metrics and the pie chart *)
(* ================================================================== *)

Module MetricsClaims.

Import JS FinTrack Props Examples NumberFacts SumFacts.

(** C4.  [financialMetrics] considers exactly the transactions whose
    date starts with the reference month: [income] and [expenses] are
    the sums, in list order, of the parsed amounts of these transactions
    of each type, and a transaction whose date does not start with the
    month changes nothing.  The budget is the constant 2500;
    [usedPercent = expenses / 2500 * 100], [remaining = 2500 - expenses]
    and [savingsRate = (income - expenses) / income * 100] when
    [income > 0], else [0].  On the example of the specification the
    metrics are 3000, 800, 32, 1700 and 73.33...; an expense of 3000
    leaves a remainder of -500; the same example for April, and a list
    with a transaction of April for March, count only the month's
    transactions. *)
Theorem financialMetrics_spec
    (transactions : list Transaction) (currentMonth : string) :
  let m := financialMetrics transactions currentMonth in
  (forall l, considered currentMonth "income" transactions l ->
             income m = total l) /\
  (forall l, considered currentMonth "expense" transactions l ->
             expenses m = total l) /\
  (exists incomes expenses,
     considered currentMonth "income" transactions incomes /\
     considered currentMonth "expense" transactions expenses) /\
  (forall before t after,
     transactions = (before ++ t :: after)%list -> ~ datedIn currentMonth t ->
     m = financialMetrics (before ++ after)%list currentMonth) /\
  totalBudget m = 2500%float /\
  usedPercent m = (expenses m / 2500 * 100)%float /\
  remaining m = (2500 - expenses m)%float /\
  savingsRate m =
    (if greater (income m) 0%float
     then ((income m - expenses m) / income m * 100)%float
     else 0%float) /\
  financialMetrics march "2024-03" =
    {| income := 3000%float; expenses := 800%float;
       totalBudget := 2500%float; usedPercent := 32%float;
       remaining := 1700%float;
       savingsRate := (2200 / 3000 * 100)%float |} /\
  PrimFloat.ltb (7333 / 100)%float (2200 / 3000 * 100)%float = true /\
  PrimFloat.ltb (2200 / 3000 * 100)%float (7334 / 100)%float = true /\
  remaining (financialMetrics [spend "01" "3000" "rent"] "2024-03")
  = (-500)%float /\
  financialMetrics march "2024-04" =
    {| income := 0%float; expenses := 0%float;
       totalBudget := 2500%float; usedPercent := 0%float;
       remaining := 2500%float; savingsRate := 0%float |} /\
  financialMetrics mixedDates "2024-03" =
    {| income := 3%float; expenses := 5%float;
       totalBudget := 2500%float; usedPercent := (5 / 2500 * 100)%float;
       remaining := 2495%float;
       savingsRate := ((3 - 5) / 3 * 100)%float |}.
Proof.
  cbv zeta. repeat split; try reflexivity.
  - intros l H%considered_filter. subst l.
    unfold financialMetrics. rewrite income_eq, sumAmounts_map, filter_and.
    reflexivity.
  - intros l H%considered_filter. subst l.
    unfold financialMetrics. rewrite expenses_eq, sumAmounts_map, filter_and.
    reflexivity.
  - do 2 eexists. split; apply considered_filter; reflexivity.
  - intros before t after -> H.
    assert (E : inMonth currentMonth t = false).
    { destruct (inMonth currentMonth t) eqn:E; [|reflexivity].
      apply inMonth_datedIn in E. contradiction. }
    unfold financialMetrics, metricsWithBudget.
    rewrite !filter_app. cbn [filter]. now rewrite E.
Qed.

Lemma financialMetrics_spec_witness :
  income (financialMetrics mixedDates "2024-03") = (0 + 3)%float /\
  expenses (financialMetrics mixedDates "2024-03") = (0 + 1 + 4)%float /\
  financialMetrics mixedDates "2024-03"
  = financialMetrics
      [nth 0 mixedDates salary; nth 2 mixedDates salary;
       nth 3 mixedDates salary] "2024-03".
Proof.
  destruct (financialMetrics_spec mixedDates "2024-03")
    as (Hi & He & _ & Hd & _).
  assert (april : ~ datedIn "2024-03" (nth 1 mixedDates salary)).
  { intros [rest H]. discriminate H. }
  split; [|split].
  - apply (Hi [nth 2 mixedDates salary]).
    apply considered_skip; [intros [_ H]; discriminate H|].
    apply considered_skip; [intros [H _]; exact (april H)|].
    apply considered_take; [exists "-09"; reflexivity | reflexivity |].
    apply considered_skip; [intros [_ H]; discriminate H|].
    apply considered_nil.
  - apply (He [nth 0 mixedDates salary; nth 3 mixedDates salary]).
    apply considered_take; [exists "-05"; reflexivity | reflexivity |].
    apply considered_skip; [intros [H _]; exact (april H)|].
    apply considered_skip; [intros [_ H]; discriminate H|].
    apply considered_take; [exists "-05"; reflexivity | reflexivity |].
    apply considered_nil.
  - apply (Hd [nth 0 mixedDates salary] (nth 1 mixedDates salary)
             [nth 2 mixedDates salary; nth 3 mixedDates salary]);
      [reflexivity | exact april].
Defined.

(** C6.  [pieChartData] is the list Income, Expenses, Savings
    (Savings = income - expenses) with every slice whose value is not
    strictly positive left out: at most three slices, in that order, none
    of value [<= 0]; with no transaction the list is empty. *)
Theorem pieChartData_spec (m : FinancialMetrics) :
  pieChartData m
  = filter (fun s => greater (sliceValue s) 0%float) (candidateSlices m) /\
  List.length (pieChartData m) <= 3 /\
  (forall s, In s (pieChartData m) ->
             greater (sliceValue s) 0%float = true /\
             PrimFloat.leb (sliceValue s) 0%float = false) /\
  (forall currentMonth, pieChartData (financialMetrics [] currentMonth) = []).
Proof.
  assert (E : pieChartData m
              = filter (fun s => greater (sliceValue s) 0%float)
                  (candidateSlices m)).
  { unfold pieChartData, candidateSlices, greater. cbn.
    destruct (PrimFloat.ltb 0 (income m)), (PrimFloat.ltb 0 (expenses m)),
      (PrimFloat.ltb 0 (income m - expenses m)); reflexivity. }
  split; [exact E|]. split; [|split].
  - rewrite E. etransitivity; [apply filter_length_le | reflexivity].
  - intros s Hs. rewrite E in Hs. apply filter_In in Hs as [_ Hs].
    split; [exact Hs | now apply greater_zero_not_leb].
  - reflexivity.
Qed.

Lemma pieChartData_spec_witness :
  In {| sliceName := "Savings"; sliceValue := 2200%float;
        sliceColor := "hsl(var(--primary))" |}
     (pieChartData (financialMetrics march "2024-03")) /\
  greater 2200%float 0%float = true /\
  PrimFloat.leb 2200%float 0%float = false.
Proof.
  assert (H : In {| sliceName := "Savings"; sliceValue := 2200%float;
                    sliceColor := "hsl(var(--primary))" |}
                 (pieChartData (financialMetrics march "2024-03"))).
  { right. right. left. reflexivity. }
  split; [exact H|].
  exact (proj1 (proj2 (proj2 (pieChartData_spec
                                (financialMetrics march "2024-03")))) _ H).
Defined.

End MetricsClaims.

(* ================================================================== *)
(** * Facts about the insights and the rendered breakdown *)
(* ================================================================== *)

Module InsightFacts.

Import JS FinTrack Props NumberFacts SortFacts ObjectFacts.

Section Host.

Variable getTime : string -> timeValue.
Variable finiteToString : number -> string.
Variable formatNumber : string -> number -> string.
Variable user : option User.

Local Abbreviation wellFormed :=
  (isWellFormedCurrencyCode (userCurrency user)).

(** [formatCurrency] ends normally exactly when the currency of the user
    is well formed; the only error it throws is the [RangeError] of the
    constructor. *)
Lemma formatCurrency_normal (v : jsval) :
  wellFormed = true ->
  exists s, formatCurrency formatNumber user v = Normal s.
Proof.
  intros H. unfold formatCurrency, currencyFormat. rewrite H.
  cbn [bind]. eauto.
Qed.

Lemma formatCurrency_throw (v : jsval) :
  wellFormed = false ->
  formatCurrency formatNumber user v = Throw "RangeError".
Proof.
  intros H. unfold formatCurrency, currencyFormat. now rewrite H.
Qed.

(** The array of insights, when nothing has to be formatted or the
    amount to format can be: five insights whose type, colour, icon and
    title are fixed; each message that depends on data has a fixed text
    for the case where the data is missing. *)
Lemma insightsFrom_shape (topCategory : option (string * jsval))
    (topGoal : option GoalProgress) (m : FinancialMetrics) :
  wellFormed = true \/ topCategory = None ->
  exists s1 s2 s3 s4 s5,
    insightsFrom finiteToString formatNumber user topCategory topGoal m
    = Normal
        [ {| insightType := "savings"; color := "green";
             icon := "TrendingUp"; title := "Savings Analysis";
             message := s1 |};
          {| insightType := "spending"; color := "red";
             icon := "ShoppingBag"; title := "Spending Pattern";
             message := s2 |};
          {| insightType := "goals"; color := "purple"; icon := "Target";
             title := "Goal Progress"; message := s3 |};
          {| insightType := "habits"; color := "indigo";
             icon := "Calendar"; title := "Spending Habits";
             message := s4 |};
          {| insightType := "budget"; color := "green";
             icon := "DollarSign"; title := "Budget Status";
             message := s5 |} ] /\
    (greater (savingsRate m) 0%float = false ->
     s1 = "Start tracking your income to see your savings rate.") /\
    (topCategory = None -> s2 = "No spending data available yet.") /\
    (topGoal = None ->
     s3 = "Set your first goal to start tracking progress!").
Proof.
  intros Hw. unfold insightsFrom.
  destruct (toFixed_1_normal finiteToString (usedPercent m)) as [u Eu].
  rewrite Eu.
  assert (S1 : exists s1,
             (if greater (savingsRate m) 0%float
              then rate <- toFixed finiteToString 1 (savingsRate m) ;;
                   Normal ("Excellent! You're saving " ++ rate
                           ++ "% of your income this month.")
              else Normal "Start tracking your income to see your savings rate.")
             = Normal s1 /\
             (greater (savingsRate m) 0%float = false ->
              s1 = "Start tracking your income to see your savings rate.")).
  { destruct (greater (savingsRate m) 0%float).
    - destruct (toFixed_1_normal finiteToString (savingsRate m)) as [r Er].
      rewrite Er. cbn [bind]. eexists. split; [reflexivity | discriminate].
    - eexists. split; reflexivity. }
  destruct S1 as (s1 & E1 & F1). rewrite E1. cbn [bind].
  assert (S3 : exists s3,
             (if isDefined topGoal
              then goal <- member topGoal goalName ;;
                   value <- member topGoal progress ;;
                   percent <- toFixed finiteToString 1 value ;;
                   Normal (goal ++ " is " ++ percent
                           ++ "% complete - keep it up!")
              else Normal "Set your first goal to start tracking progress!")
             = Normal s3 /\
             (topGoal = None ->
              s3 = "Set your first goal to start tracking progress!")).
  { destruct topGoal as [g|]; cbn [isDefined member bind].
    - destruct (toFixed_1_normal finiteToString (progress g)) as [p Ep].
      rewrite Ep. cbn [bind]. eexists. split; [reflexivity | discriminate].
    - eexists. split; reflexivity. }
  destruct S3 as (s3 & E3 & F3).
  destruct topCategory as [[k v]|]; cbn [isDefined member bind fst snd].
  - destruct Hw as [Hw|Hw]; [|discriminate Hw].
    destruct (formatCurrency_normal v Hw) as [c Ec]. rewrite Ec.
    cbn [bind]. rewrite E3. cbn [bind].
    do 5 eexists. split; [reflexivity|].
    repeat split; try assumption; intros; discriminate.
  - rewrite E3. cbn [bind].
    do 5 eexists. split; [reflexivity|].
    repeat split; try assumption; reflexivity.
Qed.

(** With a currency that is not well formed the array is not built as
    soon as there is a top category to show. *)
Lemma insightsFrom_throw (entry : string * jsval)
    (topGoal : option GoalProgress) (m : FinancialMetrics) :
  wellFormed = false ->
  insightsFrom finiteToString formatNumber user (Some entry) topGoal m
  = Throw "RangeError".
Proof.
  intros Hw. unfold insightsFrom. destruct entry as [k v].
  destruct (greater (savingsRate m) 0%float).
  - destruct (toFixed_1_normal finiteToString (savingsRate m)) as [r Er].
    rewrite Er. cbn [isDefined member bind fst snd].
    now rewrite (formatCurrency_throw v Hw).
  - cbn [isDefined member bind fst snd].
    now rewrite (formatCurrency_throw v Hw).
Qed.

Lemma topGoal_nil : topGoal [] = None.
Proof. reflexivity. Qed.

Lemma topCategory_none (transactions : list Transaction)
    (currentMonth : string) :
  filter (isMonthExpense currentMonth) transactions = [] ->
  topCategory finiteToString transactions currentMonth = None.
Proof.
  intros H. unfold topCategory, categoryBreakdown. rewrite H. reflexivity.
Qed.

Lemma mapM_normal {A B : Type} (f : A -> completion B) (l : list A) :
  (forall a, In a l -> exists b, f a = Normal b) ->
  exists bs, mapM f l = Normal bs /\ List.length bs = List.length l.
Proof.
  induction l as [|a r IH]; intros H; cbn.
  - exists []. auto.
  - destruct (H a) as [b Eb]; [now left|].
    destruct IH as [bs [E L]]; [intros x Hx; apply H; now right|].
    rewrite Eb, E. cbn. exists (b :: bs). cbn. auto.
Qed.

Lemma mapM_length {A B : Type} (f : A -> completion B) (l : list A)
    (bs : list B) :
  mapM f l = Normal bs -> List.length bs = List.length l.
Proof.
  revert bs. induction l as [|a r IH]; intros bs H; cbn in H.
  - injection H as <-. reflexivity.
  - destruct (f a) as [b|e]; [|discriminate H]. cbn [bind] in H.
    destruct (mapM f r) as [cs|e]; [|discriminate H]. cbn [bind] in H.
    injection H as <-. cbn. f_equal. now apply IH.
Qed.

Lemma breakdownRow_normal (m : FinancialMetrics) (entry : string * jsval) :
  wellFormed = true ->
  exists row,
    breakdownRow finiteToString formatNumber user m entry = Normal row.
Proof.
  intros Hw. destruct entry as [c a]. unfold breakdownRow.
  destruct (formatCurrency_normal a Hw) as [s Es]. rewrite Es. cbn [bind].
  match goal with
  | |- context [toFixed ?h 1 ?x] =>
      destruct (toFixed_1_normal h x) as [p E]; rewrite E
  end.
  cbn [bind]. eauto.
Qed.

Lemma breakdownRow_throw (m : FinancialMetrics) (entry : string * jsval) :
  wellFormed = false ->
  breakdownRow finiteToString formatNumber user m entry = Throw "RangeError".
Proof.
  intros Hw. destruct entry as [c a]. unfold breakdownRow.
  now rewrite (formatCurrency_throw a Hw).
Qed.

(** Rendering the breakdown ends normally, with one row per entry, when
    the currency is well formed or there is no entry; otherwise the
    first row throws. *)
Lemma renderCategoryBreakdown_normal (transactions : list Transaction)
    (currentMonth : string) (m : FinancialMetrics) :
  wellFormed = true \/
  screenEntries finiteToString transactions currentMonth = [] ->
  exists rows,
    renderCategoryBreakdown finiteToString formatNumber user transactions
      currentMonth m = Normal rows /\
    List.length rows
    = List.length (screenEntries finiteToString transactions currentMonth).
Proof.
  intros H. unfold renderCategoryBreakdown. apply mapM_normal.
  intros entry Hin. destruct H as [H|H].
  - now apply breakdownRow_normal.
  - rewrite H in Hin. destruct Hin.
Qed.

Lemma renderCategoryBreakdown_throw (transactions : list Transaction)
    (currentMonth : string) (m : FinancialMetrics) :
  wellFormed = false ->
  screenEntries finiteToString transactions currentMonth <> [] ->
  renderCategoryBreakdown finiteToString formatNumber user transactions
    currentMonth m = Throw "RangeError".
Proof.
  intros Hw Hne. unfold renderCategoryBreakdown.
  destruct (screenEntries finiteToString transactions currentMonth)
    as [|entry r]; [contradiction|].
  cbn [mapM]. now rewrite (breakdownRow_throw m entry Hw).
Qed.

(** The screen lists one row per distinct category other than
    [__proto__], four at most. *)
Lemma screenEntries_length (transactions : list Transaction)
    (currentMonth : string) :
  List.length (screenEntries finiteToString transactions currentMonth)
  = Nat.min 4
      (List.length
         (distinctKeys (monthExpenseCategories transactions currentMonth))).
Proof.
  unfold screenEntries, sortBy, entries, screenBreakdown.
  rewrite firstn_length_min, sort_length.
  unfold monthExpenseCategories.
  now rewrite (build_length category).
Qed.

End Host.

End InsightFacts.

(* ================================================================== *)
(** * The insights *)
(* ================================================================== *)

Module InsightClaims.

Import JS FinTrack Props Examples NumberFacts InsightFacts.

(** C5, on an input.  The specification has [insights] return its five
    entries on every input.  The spending insight formats the amount of
    the top category with [formatCurrency]; for a user whose currency is
    ["US"], which is not a well-formed code, and a month with an expense,
    [insights] throws a [RangeError] and returns nothing. *)
Lemma insights_throws_on_stray_currency :
  isWellFormedCurrencyCode (currency strayUser) = false /\
  insights noDigits dollars (Some strayUser) groceries [] "2024-03"
    (financialMetrics groceries "2024-03")
  = Throw "RangeError" /\
  option_map (map message)
    (match insights noDigits dollars None groceries [] "2024-03"
             (financialMetrics groceries "2024-03") with
     | Normal l => Some l
     | Throw _ => None
     end)
  = Some [ "Start tracking your income to see your savings rate.";
           "Your top spending is food: $30.00 this month.";
           "Set your first goal to start tracking progress!";
           "Great spending discipline this month!";
           "Budget looking good: 1.2% used" ].
Proof. repeat split. Qed.

(** C5, as the code has it.  When the currency of the user is a
    well-formed code (["USD"] stands in for a missing one), or the month
    has no top category to show, [insights] returns five insights, of
    types savings, spending, goals, habits and budget in that order.  An
    insight whose data is missing is still there, with a fixed text:
    without goals the third message is the "set your first goal" text,
    without expenses in the month the second one is the "no spending
    data" text.  With no transaction and no goal at all the five
    messages are the ones listed, whoever the user is.  When the
    currency is not well formed and there is a top category, [insights]
    throws a [RangeError]. *)
Theorem insights_five
    (finiteToString : number -> string)
    (formatNumber : string -> number -> string) (user : option User)
    (transactions : list Transaction) (goals : list Goal)
    (currentMonth : string) (m : FinancialMetrics) :
  let result :=
    insights finiteToString formatNumber user transactions goals
      currentMonth m in
  let top := topCategory finiteToString transactions currentMonth in
  (isWellFormedCurrencyCode (userCurrency user) = true \/ top = None ->
   exists l,
     result = Normal l /\
     List.length l = 5 /\
     map insightType l = ["savings"; "spending"; "goals"; "habits"; "budget"] /\
     (goals = [] ->
      option_map message (nth_error l 2)
      = Some "Set your first goal to start tracking progress!") /\
     (top = None ->
      option_map message (nth_error l 1)
      = Some "No spending data available yet.")) /\
  (isWellFormedCurrencyCode (userCurrency user) = false -> top <> None ->
   result = Throw "RangeError") /\
  (filter (isMonthExpense currentMonth) transactions = [] -> top = None) /\
  insights finiteToString formatNumber user [] [] currentMonth
    (financialMetrics [] currentMonth)
  = Normal
      (map (fun '(ty, c, i, ti, msg) =>
              {| insightType := ty; color := c; icon := i; title := ti;
                 message := msg |})
         [ ("savings", "green", "TrendingUp", "Savings Analysis",
            "Start tracking your income to see your savings rate.");
           ("spending", "red", "ShoppingBag", "Spending Pattern",
            "No spending data available yet.");
           ("goals", "purple", "Target", "Goal Progress",
            "Set your first goal to start tracking progress!");
           ("habits", "indigo", "Calendar", "Spending Habits",
            "Great spending discipline this month!");
           ("budget", "green", "DollarSign", "Budget Status",
            "Budget looking good: 0.0% used") ]).
Proof.
  cbv zeta. split; [|split; [|split]].
  - intros H.
    destruct (insightsFrom_shape finiteToString formatNumber user
                (topCategory finiteToString transactions currentMonth)
                (topGoal goals) m H)
      as (s1 & s2 & s3 & s4 & s5 & E & _ & H2 & H3).
    eexists. split; [exact E|]. repeat split.
    + intros ->. cbn. f_equal. apply H3. reflexivity.
    + intros Hn. cbn. f_equal. now apply H2.
  - intros Hw Hn. unfold insights.
    destruct (topCategory finiteToString transactions currentMonth)
      as [entry|]; [|contradiction].
    now apply insightsFrom_throw.
  - apply topCategory_none.
  - reflexivity.
Qed.

Lemma insights_five_witness :
  (exists l,
     insights noDigits dollars (Some euroUser) groceries [] "2024-03"
       (financialMetrics groceries "2024-03")
     = Normal l /\
     option_map message (nth_error l 2)
     = Some "Set your first goal to start tracking progress!") /\
  (exists l,
     insights noDigits dollars (Some strayUser) march [] "2024-04"
       (financialMetrics march "2024-04")
     = Normal l /\
     option_map message (nth_error l 1)
     = Some "No spending data available yet.") /\
  insights noDigits dollars (Some strayUser) groceries [emergencyFund]
    "2024-03" (financialMetrics groceries "2024-03")
  = Throw "RangeError".
Proof.
  destruct (insights_five noDigits dollars (Some euroUser) groceries []
              "2024-03" (financialMetrics groceries "2024-03"))
    as (H1 & _).
  destruct (insights_five noDigits dollars (Some strayUser) march []
              "2024-04" (financialMetrics march "2024-04"))
    as (H2 & _).
  destruct (insights_five noDigits dollars (Some strayUser) groceries
              [emergencyFund] "2024-03"
              (financialMetrics groceries "2024-03"))
    as (_ & H3 & _).
  split; [|split].
  - destruct H1 as (l & E & _ & _ & Hg & _); [left; reflexivity|].
    exists l. split; [exact E | apply Hg; reflexivity].
  - destruct H2 as (l & E & _ & _ & _ & Hc); [right; reflexivity|].
    exists l. split; [exact E | apply Hc; reflexivity].
  - apply H3; [reflexivity | discriminate].
Defined.

(** The second example of the specification: a goal at 500 of 1000 is
    reported as 50.0% complete. *)
Example emergencyFund_message :
  option_map (map message)
    (match insights noDigits dollars None [] [emergencyFund] "2024-03"
             (financialMetrics [] "2024-03") with
     | Normal l => Some l
     | Throw _ => None
     end)
  = Some [ "Start tracking your income to see your savings rate.";
           "No spending data available yet.";
           "Emergency Fund is 50.0% complete - keep it up!";
           "Great spending discipline this month!";
           "Budget looking good: 0.0% used" ].
Proof. reflexivity. Qed.

End InsightClaims.

(* ================================================================== *)
(** * Facts about the breakdown of the insights *)
(* ================================================================== *)

Module BreakdownFacts.

Import JS FinTrack Props NumberFacts ObjectFacts.

Lemma getOwn_In (o : object) (k : string) (v : jsval) :
  getOwn o k = Some v -> In (k, v) o.
Proof.
  induction o as [|[k' v'] r IH]; cbn; [discriminate|].
  destruct (String.eqb_spec k' k) as [->|_].
  - intros [= ->]. now left.
  - auto.
Qed.

Lemma getOwn_replaceOwn (o : object) (k : string) (v w : jsval) :
  getOwn o k = Some w -> getOwn (replaceOwn o k v) k = Some v.
Proof.
  induction o as [|[k' v'] r IH]; cbn; [discriminate|].
  destruct (String.eqb k' k) eqn:E; cbn; rewrite E; auto.
Qed.

Lemma getOwn_insertIndex (o : object) (i : N) (k : string) (v : jsval) :
  getOwn o k = None -> getOwn (insertIndex o i k v) k = Some v.
Proof.
  induction o as [|[k' v'] r IH]; cbn.
  - now rewrite String.eqb_refl.
  - destruct (String.eqb k' k) eqn:E; [discriminate|]. intros H.
    destruct (arrayIndex k') as [j|]; [destruct (i <? j)%N|]; cbn;
      rewrite ?String.eqb_refl, ?E; auto.
Qed.

Lemma getOwn_append (o : object) (k : string) (v : jsval) :
  getOwn o k = None -> getOwn (o ++ [(k, v)])%list k = Some v.
Proof.
  induction o as [|[k' v'] r IH]; cbn.
  - now rewrite String.eqb_refl.
  - destruct (String.eqb k' k); [discriminate | auto].
Qed.

(** What was assigned is what is read back, except under [__proto__]. *)
Lemma get_set_same (o : object) (k : string) (v : jsval) :
  k <> "__proto__" -> get (set o k v) k = v.
Proof.
  intros Hk. unfold get, set.
  destruct (String.eqb_spec k "__proto__") as [->|_]; [contradiction|].
  destruct (getOwn o k) as [w|] eqn:E.
  - now rewrite (getOwn_replaceOwn o k v w E).
  - destruct (arrayIndex k).
    + now rewrite getOwn_insertIndex.
    + now rewrite getOwn_append.
Qed.

Lemma replaceOwn_In (o : object) (k : string) (v : jsval)
    (e : string * jsval) :
  In e (replaceOwn o k v) -> e = (k, v) \/ In e o.
Proof.
  induction o as [|[k' v'] r IH]; cbn; [tauto|].
  destruct (String.eqb_spec k' k) as [->|_]; cbn; intuition.
Qed.

Lemma set_In_entry (o : object) (k : string) (v : jsval)
    (e : string * jsval) :
  In e (set o k v) -> e = (k, v) \/ In e o.
Proof.
  unfold set. destruct (String.eqb k "__proto__"); [auto|].
  destruct (getOwn o k).
  - apply replaceOwn_In.
  - destruct (arrayIndex k) as [i|].
    + intros H. apply (Permutation_in _ (insertIndex_perm o i k v)) in H.
      destruct H; auto.
    + intros [H|[<-|[]]]%in_app_or; auto.
Qed.

Lemma member_not_proto (k : string) :
  isPrototypeMember k = false -> k <> "__proto__".
Proof. intros H ->. discriminate H. Qed.

Section Host.

Variable finiteToString : number -> string.

Local Abbreviation addAmount :=
  (fun (acc : object) (t : Transaction) =>
     set acc (category t)
       (plusNumber finiteToString
          (orElse (get acc (category t)) (VNumber 0%float))
          (parseFloat (amount t)))).

Lemma get_plain (o : object) (k : string) :
  numericAt o -> isPrototypeMember k = false ->
  get o k = VUndefined \/ exists a, get o k = VNumber a.
Proof.
  intros Ho Hk. unfold get. destruct (getOwn o k) eqn:E.
  - right. apply getOwn_In in E. now apply (Ho k).
  - rewrite Hk. now left.
Qed.

(** Under an ordinary key the new entry is a number: the amount, added
    to the entry that was there when it is a truthy number and to 0
    otherwise. *)
Lemma step_plain (o : object) (k : string) (x : number) :
  numericAt o -> isPrototypeMember k = false ->
  exists a,
    plusNumber finiteToString (orElse (get o k) (VNumber 0%float)) x
    = VNumber (a + x)%float.
Proof.
  intros Ho Hk. destruct (get_plain o k Ho Hk) as [->|[a ->]].
  - exists 0%float. reflexivity.
  - unfold orElse. cbn [truthy]. destruct (truthyNumber a).
    + exists a. reflexivity.
    + exists 0%float. reflexivity.
Qed.

Lemma addAmount_numericAt (o : object) (t : Transaction) :
  numericAt o -> numericAt (addAmount o t).
Proof.
  intros Ho k v H Hk. apply set_In_entry in H as [[= -> ->]|H].
  - destruct (step_plain o (category t) (parseFloat (amount t)) Ho Hk)
      as (a & ->).
    eauto.
  - now apply (Ho k).
Qed.

Lemma fold_numericAt (l : list Transaction) (o : object) :
  numericAt o -> numericAt (fold_left addAmount l o).
Proof.
  revert o. induction l as [|t r IH]; intros o Ho; cbn;
    auto using addAmount_numericAt.
Qed.

Lemma categoryBreakdown_numericAt (transactions : list Transaction)
    (currentMonth : string) :
  numericAt (categoryBreakdown finiteToString transactions currentMonth).
Proof. apply fold_numericAt. intros k v []. Qed.

Lemma categoryBreakdown_app (transactions : list Transaction)
    (currentMonth : string) (t : Transaction) :
  isMonthExpense currentMonth t = true ->
  categoryBreakdown finiteToString (transactions ++ [t])%list currentMonth
  = addAmount (categoryBreakdown finiteToString transactions currentMonth) t.
Proof.
  intros Ht. unfold categoryBreakdown.
  rewrite filter_app, fold_left_app. cbn [filter]. rewrite Ht. reflexivity.
Qed.

(** An amount that does not parse leaves [NaN] under its category. *)
Lemma categoryBreakdown_unparsable_last (transactions : list Transaction)
    (currentMonth : string) (t : Transaction) :
  isMonthExpense currentMonth t = true ->
  isPrototypeMember (category t) = false ->
  unparsable (amount t) ->
  get (categoryBreakdown finiteToString (transactions ++ [t])%list
         currentMonth) (category t)
  = VNumber nan.
Proof.
  intros Ht Hk Hu. rewrite categoryBreakdown_app by exact Ht.
  rewrite get_set_same by now apply member_not_proto.
  destruct (step_plain _ (category t) (parseFloat (amount t))
              (categoryBreakdown_numericAt transactions currentMonth) Hk)
    as (a & ->).
  now rewrite Hu, add_nan_r.
Qed.

(** The next amount of the category starts again from 0: [NaN || 0]. *)
Lemma categoryBreakdown_unparsable_then (transactions : list Transaction)
    (currentMonth : string) (t u : Transaction) :
  isMonthExpense currentMonth t = true ->
  isMonthExpense currentMonth u = true ->
  isPrototypeMember (category t) = false ->
  category u = category t ->
  unparsable (amount t) ->
  get (categoryBreakdown finiteToString ((transactions ++ [t]) ++ [u])%list
         currentMonth) (category t)
  = VNumber (0 + parseFloat (amount u))%float.
Proof.
  intros Ht Hu Hk Hc Hn.
  rewrite (categoryBreakdown_app (transactions ++ [t])%list _ u Hu).
  rewrite Hc. rewrite get_set_same by now apply member_not_proto.
  now rewrite (categoryBreakdown_unparsable_last _ _ t Ht Hk Hn).
Qed.

End Host.

End BreakdownFacts.

(* ================================================================== *)
(** * Unparsable strings, zero divisors, signs *)
(* ================================================================== *)

Module DegradeClaims.

Import JS FinTrack Props Examples NumberFacts SumFacts InsightFacts.
Import BreakdownFacts.

Lemma div_nan_l (y : number) : (nan / y)%float = nan.
Proof.
  apply Prim2SF_inj. rewrite div_spec.
  change (Prim2SF nan) with S754_nan. reflexivity.
Qed.

Lemma div_nan_r (x : number) : (x / nan)%float = nan.
Proof.
  apply Prim2SF_inj. rewrite div_spec.
  change (Prim2SF nan) with S754_nan. destruct (Prim2SF x); reflexivity.
Qed.

Lemma mul_nan_l (y : number) : (nan * y)%float = nan.
Proof.
  apply Prim2SF_inj. rewrite mul_spec.
  change (Prim2SF nan) with S754_nan. reflexivity.
Qed.

(** A sum is [NaN] as soon as one of the amounts it runs over does not
    parse. *)
Lemma metrics_sum_nan (ty : string) (transactions : list Transaction)
    (currentMonth : string) (t : Transaction) :
  In t transactions -> counted currentMonth ty t -> unparsable (amount t) ->
  sumAmounts (filter (fun t => String.eqb (type t) ty)
                (filter (inMonth currentMonth) transactions)) = nan.
Proof.
  intros Hin Hc Hu. apply (sumAmounts_nan _ t); [|exact Hu].
  apply counted_filter. auto.
Qed.

(** C1, on an input.  The specification has an amount that does not
    parse count as 0, and no derivation throw.  With the salary of 3000
    and a second income whose amount is ["abc"], the income is [NaN],
    where an amount of ["0"] gives 3000; a goal whose [current] is
    ["abc"] has progress [NaN]; and a category with amounts 10, ["abc"]
    and 20 ends at 20, where 10, 0 and 20 end at 30.  For a user whose
    currency is ["US"] the rendering of the breakdown throws. *)
Lemma unparsable_amount_is_not_zero :
  renderCategoryBreakdown noDigits dollars (Some strayUser) groceries
    "2024-03" (financialMetrics groceries "2024-03")
  = Throw "RangeError" /\
  unparsable (amount garbledSalary) /\
  income (financialMetrics [salary; garbledSalary] "2024-03") = nan /\
  income (financialMetrics [salary; zeroSalary] "2024-03") = 3000%float /\
  income (financialMetrics [salary; garbledSalary] "2024-03")
    <> income (financialMetrics [salary; zeroSalary] "2024-03") /\
  progress (goalProgress garbledGoal) = nan /\
  categoryBreakdown noDigits
    [spend "01" "10" "food"; spend "02" "abc" "food"; spend "03" "20" "food"]
    "2024-03"
  = [("food", VNumber 20%float)] /\
  categoryBreakdown noDigits
    [spend "01" "10" "food"; spend "02" "0" "food"; spend "03" "20" "food"]
    "2024-03"
  = [("food", VNumber 30%float)].
Proof.
  repeat split.
  intros H. apply (f_equal PrimFloat.is_nan) in H. discriminate H.
Qed.

(** C1, as the code has it.  One error can surface: [insights] and the
    rendering of the breakdown throw the [RangeError] of
    [Intl.NumberFormat] when the currency of the user is not a
    well-formed code and there is an amount to format (a top category, a
    row); in every other case they end normally, and the other
    derivations are total functions.  A numeric string that does not
    parse is not replaced by 0 and throws nothing: [parseFloat] gives
    [NaN], and one such amount among the month's transactions of a type
    makes the sum of that type [NaN]; a goal whose [current] or [target]
    does not parse has progress [NaN]; in the breakdown of the insights
    such an amount leaves [NaN] under its category (a category that is
    not the name of a member of [Object.prototype]), and the next amount
    of the category starts the entry again from 0. *)
Theorem unparsable_gives_nan
    (finiteToString : number -> string)
    (formatNumber : string -> number -> string) (user : option User)
    (transactions : list Transaction) (goals : list Goal)
    (currentMonth : string) :
  let m := financialMetrics transactions currentMonth in
  let wellFormed := isWellFormedCurrencyCode (userCurrency user) in
  let top := topCategory finiteToString transactions currentMonth in
  let listed := screenEntries finiteToString transactions currentMonth in
  (wellFormed = true \/ top = None ->
   exists l,
     insights finiteToString formatNumber user transactions goals
       currentMonth m = Normal l) /\
  (wellFormed = false -> top <> None ->
   insights finiteToString formatNumber user transactions goals
     currentMonth m = Throw "RangeError") /\
  (wellFormed = true \/ listed = [] ->
   exists rows,
     renderCategoryBreakdown finiteToString formatNumber user transactions
       currentMonth m = Normal rows) /\
  (wellFormed = false -> listed <> [] ->
   renderCategoryBreakdown finiteToString formatNumber user transactions
     currentMonth m = Throw "RangeError") /\
  (forall t, In t transactions -> counted currentMonth "income" t ->
             unparsable (amount t) -> income m = nan) /\
  (forall t, In t transactions -> counted currentMonth "expense" t ->
             unparsable (amount t) -> expenses m = nan) /\
  (forall g, unparsable (current g) \/ unparsable (target g) ->
             progress (goalProgress g) = nan) /\
  (forall t, isMonthExpense currentMonth t = true ->
             isPrototypeMember (category t) = false ->
             unparsable (amount t) ->
     get (categoryBreakdown finiteToString (transactions ++ [t])%list
            currentMonth) (category t)
     = VNumber nan /\
     forall u, isMonthExpense currentMonth u = true ->
               category u = category t ->
       get (categoryBreakdown finiteToString
              ((transactions ++ [t]) ++ [u])%list currentMonth) (category t)
       = VNumber (0 + parseFloat (amount u))%float).
Proof.
  cbv zeta.
  split; [|split; [|split; [|split; [|split; [|split; [|split]]]]]].
  8: { intros t Ht Hk Hu. split.
       - now apply categoryBreakdown_unparsable_last.
       - intros u Hu' Hc. now apply categoryBreakdown_unparsable_then. }
  - intros H.
    destruct (insightsFrom_shape finiteToString formatNumber user
                (topCategory finiteToString transactions currentMonth)
                (topGoal goals)
                (financialMetrics transactions currentMonth) H)
      as (s1 & s2 & s3 & s4 & s5 & E & _).
    eauto.
  - intros Hw Hn. unfold insights.
    destruct (topCategory finiteToString transactions currentMonth)
      as [entry|]; [|contradiction].
    now apply insightsFrom_throw.
  - intros H.
    destruct (renderCategoryBreakdown_normal finiteToString formatNumber
                user transactions currentMonth
                (financialMetrics transactions currentMonth) H)
      as (rows & E & _).
    eauto.
  - intros Hw Hn. now apply renderCategoryBreakdown_throw.
  - intros t Hin Hc Hu. unfold financialMetrics. rewrite income_eq.
    now apply (metrics_sum_nan "income" _ _ t).
  - intros t Hin Hc Hu. unfold financialMetrics. rewrite expenses_eq.
    now apply (metrics_sum_nan "expense" _ _ t).
  - intros g [H|H]; unfold goalProgress, unparsable in *; cbn [progress];
      rewrite H.
    + now rewrite div_nan_l, mul_nan_l.
    + now rewrite div_nan_r, mul_nan_l.
Qed.

Lemma unparsable_gives_nan_witness :
  income (financialMetrics [salary; garbledSalary] "2024-03") = nan /\
  progress (goalProgress garbledGoal) = nan /\
  get (categoryBreakdown noDigits
         ([salary; garbledSalary] ++ [spend "07" "abc" "food"])%list "2024-03")
      "food"
  = VNumber nan /\
  (exists l,
     insights noDigits dollars None [salary; garbledSalary] [garbledGoal]
       "2024-03" (financialMetrics [salary; garbledSalary] "2024-03")
     = Normal l) /\
  renderCategoryBreakdown noDigits dollars (Some strayUser)
    [spend "07" "abc" "food"] "2024-03"
    (financialMetrics [spend "07" "abc" "food"] "2024-03")
  = Throw "RangeError".
Proof.
  destruct (unparsable_gives_nan noDigits dollars None
              [salary; garbledSalary] [garbledGoal] "2024-03")
    as (Hn & _ & _ & _ & Hi & _ & Hg & Hc).
  destruct (unparsable_gives_nan noDigits dollars (Some strayUser)
              [spend "07" "abc" "food"] [] "2024-03")
    as (_ & _ & _ & Ht & _).
  split; [|split; [|split; [|split]]].
  - apply (Hi garbledSalary).
    + right. left. reflexivity.
    + split; reflexivity.
    + reflexivity.
  - apply Hg. left. reflexivity.
  - apply (Hc (spend "07" "abc" "food")); reflexivity.
  - apply Hn. left. reflexivity.
  - apply Ht; [reflexivity | discriminate].
Defined.

(** C2, on an input.  The specification has a goal whose target is 0
    show 0%.  The progress of such a goal with 500 saved is [+Infinity], and the
    insight says so. *)
Lemma zero_target_is_not_zero_percent :
  PrimFloat.eqb (parseFloat (target zeroTargetGoal)) 0%float = true /\
  progress (goalProgress zeroTargetGoal) = infinity /\
  PrimFloat.eqb (progress (goalProgress zeroTargetGoal)) 0%float = false /\
  option_map (map message)
    (match insights noDigits dollars None [] [zeroTargetGoal] "2024-03"
             (financialMetrics [] "2024-03") with
     | Normal l => Some l
     | Throw _ => None
     end)
  = Some [ "Start tracking your income to see your savings rate.";
           "No spending data available yet.";
           "Trip is Infinity% complete - keep it up!";
           "Great spending discipline this month!";
           "Budget looking good: 0.0% used" ].
Proof. repeat split. Qed.

(** C2, as the code has it.  The two percentages of the metrics are
    guarded by a test: [usedPercent] is 0 when the budget is zero (the
    budget of [financialMetrics] is 2500, so that its [usedPercent] is
    always the quotient), and [savingsRate] is 0 when the income is zero.
    The progress of a goal is not guarded: with a zero target it is [NaN]
    or an infinity, never 0. *)
Theorem zero_divisors
    (budget : number) (transactions : list Transaction)
    (currentMonth : string) (g : Goal) :
  let m := metricsWithBudget budget transactions currentMonth in
  (PrimFloat.eqb budget 0%float = true -> usedPercent m = 0%float) /\
  (PrimFloat.eqb (income m) 0%float = true -> savingsRate m = 0%float) /\
  usedPercent (financialMetrics transactions currentMonth)
  = (expenses (financialMetrics transactions currentMonth) / 2500 * 100)%float /\
  (PrimFloat.eqb (parseFloat (target g)) 0%float = true ->
   PrimFloat.is_finite (progress (goalProgress g)) = false /\
   PrimFloat.eqb (progress (goalProgress g)) 0%float = false).
Proof.
  cbv zeta. repeat split.
  - intros H. unfold metricsWithBudget. cbn [usedPercent].
    now rewrite (zero_not_greater budget H).
  - intros H. unfold metricsWithBudget in *. cbn [savingsRate income] in *.
    now rewrite (zero_not_greater _ H).
  - now apply div_zero_times_100.
  - now apply not_finite_not_zero, div_zero_times_100.
Qed.

Lemma zero_divisors_witness :
  usedPercent (metricsWithBudget 0%float march "2024-03") = 0%float /\
  savingsRate (metricsWithBudget 0%float [rent] "2024-03") = 0%float /\
  PrimFloat.is_finite (progress (goalProgress zeroTargetGoal)) = false.
Proof.
  split; [|split].
  - apply (zero_divisors 0%float march "2024-03" zeroTargetGoal).
    reflexivity.
  - apply (zero_divisors 0%float [rent] "2024-03" zeroTargetGoal).
    reflexivity.
  - apply (zero_divisors 0%float march "2024-03" zeroTargetGoal).
    reflexivity.
Defined.

(** C3, on an input.  The specification has the income non-negative
    whatever the amounts.  An income whose amount is written ["-100"] gives an
    income of -100. *)
Lemma negative_amount_negative_income :
  type refund = "income" /\
  income (financialMetrics [refund] "2024-03") = (-100)%float /\
  PrimFloat.leb 0%float (income (financialMetrics [refund] "2024-03"))
  = false.
Proof. repeat split. Qed.

(** C3, as the code has it.  No absolute value is taken: the type of a
    transaction selects the sum it enters, and it enters it as parsed,
    with the sign written in the amount.  Income and expenses are
    non-negative when every amount they run over parses to a
    non-negative number. *)
Theorem sums_keep_sign
    (transactions : list Transaction) (currentMonth : string) :
  (forall t, counted currentMonth "income" t ->
     income (financialMetrics (transactions ++ [t])%list currentMonth)
     = (income (financialMetrics transactions currentMonth)
        + parseFloat (amount t))%float) /\
  (forall t, counted currentMonth "expense" t ->
     expenses (financialMetrics (transactions ++ [t])%list currentMonth)
     = (expenses (financialMetrics transactions currentMonth)
        + parseFloat (amount t))%float) /\
  ((forall t, In t transactions -> counted currentMonth "income" t ->
              nonNegative (parseFloat (amount t))) ->
   nonNegative (income (financialMetrics transactions currentMonth))) /\
  ((forall t, In t transactions -> counted currentMonth "expense" t ->
              nonNegative (parseFloat (amount t))) ->
   nonNegative (expenses (financialMetrics transactions currentMonth))).
Proof.
  unfold financialMetrics. repeat split.
  - intros t [Hm Ht]. rewrite !income_eq, !filter_app. cbn [filter].
    rewrite Hm. cbn [filter]. rewrite Ht. cbn [String.eqb filter].
    apply sumAmounts_app.
  - intros t [Hm Ht]. rewrite !expenses_eq, !filter_app. cbn [filter].
    rewrite Hm. cbn [filter]. rewrite Ht. cbn [String.eqb filter].
    apply sumAmounts_app.
  - intros H. rewrite income_eq. apply sumAmounts_nonNegative.
    intros t Ht%counted_filter. now apply H.
  - intros H. rewrite expenses_eq. apply sumAmounts_nonNegative.
    intros t Ht%counted_filter. now apply H.
Qed.

Lemma sums_keep_sign_witness :
  income (financialMetrics (march ++ [refund])%list "2024-03")
  = (income (financialMetrics march "2024-03") + (-100))%float /\
  nonNegative (income (financialMetrics march "2024-03")) /\
  nonNegative (expenses (financialMetrics march "2024-03")).
Proof.
  destruct (sums_keep_sign march "2024-03") as (Ha & _ & Hi & He).
  split; [|split].
  - apply (Ha refund). split; reflexivity.
  - apply Hi. intros t [<-|[<-|[]]] _; reflexivity.
  - apply He. intros t [<-|[<-|[]]] _; reflexivity.
Defined.

End DegradeClaims.

(* ================================================================== *)
(** * The recent transactions *)
(* ================================================================== *)

Module RecentClaims.

Import JS FinTrack Props Examples SortFacts SumFacts.

Lemma StronglySorted_weaken {A : Type} (R R' : A -> A -> Prop) (l : list A) :
  (forall a b, In a l -> In b l -> R a b -> R' a b) ->
  StronglySorted R l -> StronglySorted R' l.
Proof.
  induction l as [|x r IH]; intros H S; [constructor|].
  inversion S as [|? ? Sr Fx]; subst. constructor.
  - apply IH; [|exact Sr]. intros a b Ha Hb. apply H; now right.
  - rewrite Forall_forall in *. intros y Hy.
    apply H; [now left | now right | now apply Fx].
Qed.

Lemma StronglySorted_firstn {A : Type} (R : A -> A -> Prop) (n : nat)
    (l : list A) :
  StronglySorted R l -> StronglySorted R (firstn n l).
Proof.
  revert l. induction n as [|n IH]; intros l S; [constructor|].
  destruct l as [|x r]; [constructor|].
  inversion S as [|? ? Sr Fx]; subst. cbn. constructor; [now apply IH|].
  rewrite Forall_forall in *. intros y Hy. apply Fx.
  now apply firstn_In in Hy.
Qed.

Section Host.

Variable getTime : string -> timeValue.

Local Abbreviation after :=
  (fun a b : Transaction => timePositive (byDateDesc getTime a b)).

(** Two transactions dated at the same time: neither goes after the
    other. *)
Lemma same_date_not_after (d : Z) (a b : Transaction) :
  datedAt getTime d a = true -> datedAt getTime d b = true ->
  after a b = false.
Proof.
  unfold datedAt, byDateDesc.
  destruct (getTime (date a)) as [x|]; [|discriminate].
  destruct (getTime (date b)) as [y|]; [|discriminate].
  intros ->%Z.eqb_eq ->%Z.eqb_eq. cbn. apply Z.ltb_ge. lia.
Qed.

Local Abbreviation rankOf := (timeOrZero getTime).

Lemma after_rank (a b : Transaction) :
  getTime (date a) <> None -> getTime (date b) <> None ->
  after a b = (rankOf a <? rankOf b)%Z.
Proof.
  unfold byDateDesc, timeOrZero.
  destruct (getTime (date a)) as [x|]; [|congruence].
  destruct (getTime (date b)) as [y|]; [|congruence].
  intros _ _. cbn.
  destruct (Z.ltb_spec 0 (y - x)), (Z.ltb_spec x y); lia || reflexivity.
Qed.

(** C8, as the code has it.  [recentTransactions] returns at most five
    transactions, all of them transactions of the input whose date
    starts with the reference month: the first five of a rearrangement
    of the month's transactions.  When the dates of the month's
    transactions are valid, that rearrangement is in descending order of
    date, so is the result, and transactions of one date keep the order
    they have in the input (the sort is stable).  With a date that is
    not valid among them the comparator is not consistent, and nothing
    is said of the order. *)
Theorem recentTransactions_spec
    (transactions : list Transaction) (currentMonth : string) :
  let monthTx := filter (inMonth currentMonth) transactions in
  let recent := recentTransactions getTime transactions currentMonth in
  List.length recent <= 5 /\
  Forall (fun t => In t transactions /\ datedIn currentMonth t) recent /\
  (forall t, In t monthTx <-> In t transactions /\ datedIn currentMonth t) /\
  exists sorted,
    recent = firstn 5 sorted /\
    Permutation sorted monthTx /\
    ((forall t, In t monthTx -> getTime (date t) <> None) ->
     StronglySorted (notEarlier getTime) sorted /\
     StronglySorted (notEarlier getTime) recent /\
     forall d, filter (datedAt getTime d) sorted
               = filter (datedAt getTime d) monthTx).
Proof.
  cbv zeta. unfold recentTransactions.
  set (monthTx := filter (inMonth currentMonth) transactions).
  split; [|split; [|split]].
  - rewrite firstn_length_min. apply Nat.le_min_l.
  - apply Forall_forall. intros t Ht%firstn_In.
    apply (proj1 (sort_In _ _ _)) in Ht. apply filter_In in Ht.
    now rewrite <- inMonth_datedIn.
  - intros t. unfold monthTx. now rewrite filter_In, inMonth_datedIn.
  - exists (sort after monthTx). split; [reflexivity|].
    split; [apply sort_perm|].
    intros Hvalid. rewrite <- and_assoc. split.
    2: { intros d. apply sort_stable.
         intros x y _ _. apply same_date_not_after. }
    { assert (S : StronglySorted (notEarlier getTime) (sort after monthTx)).
      { apply (StronglySorted_weaken
                 (fun a b => (rankOf b <= rankOf a)%Z)).
        - intros a b Ha Hb Hr.
          apply (proj1 (sort_In _ _ _)), Hvalid in Ha.
          apply (proj1 (sort_In _ _ _)), Hvalid in Hb.
          unfold notEarlier, timeOrZero in *.
          destruct (getTime (date a)) as [x|]; [|congruence].
          destruct (getTime (date b)) as [y|]; [|congruence].
          eauto.
        - apply sort_sorted. intros x y Hx Hy.
          apply after_rank; now apply Hvalid. }
      split; [exact S | now apply StronglySorted_firstn]. }
Qed.

End Host.

Lemma recentTransactions_spec_witness :
  map id (recentTransactions isoDate mixedDates "2024-03") = ["c"; "a"; "d"] /\
  StronglySorted (notEarlier isoDate)
    (recentTransactions isoDate mixedDates "2024-03").
Proof.
  split; [reflexivity|].
  destruct (recentTransactions_spec isoDate mixedDates "2024-03")
    as (_ & _ & _ & sorted & _ & _ & H).
  apply H. intros t [<-|[<-|[<-|[]]]]; discriminate.
Defined.

(** A list in descending order of date that holds a transaction without
    a valid date holds nothing else. *)
Lemma sorted_with_invalid_date (getTime : string -> timeValue)
    (l : list Transaction) (c : Transaction) :
  StronglySorted (notEarlier getTime) l -> In c l ->
  getTime (date c) = None -> l = [c].
Proof.
  intros S Hin Hc.
  assert (L : forall y, ~ notEarlier getTime c y).
  { intros y (x & z & E & _). congruence. }
  assert (R : forall x, ~ notEarlier getTime x c).
  { intros x (u & z & _ & E & _). congruence. }
  induction S as [|x r S IH F]; [destruct Hin|].
  destruct Hin as [->|Hin].
  - destruct r as [|y r]; [reflexivity|].
    inversion F as [|? ? N _]; subst. now apply L in N.
  - rewrite Forall_forall in F. apply F in Hin. now apply R in Hin.
Qed.

(** C8, on an input.  The specification has the result in descending
    order of date for every list.  Three transactions of March, the
    second dated 2024-03-32: its date starts with the month and is not a
    date.  The comparator answers [NaN] for the two pairs it is in,
    which counts as equal, and the three come back in the order they
    were given, the 10th before the 20th.  Whatever order a sort gives
    them, the three are not in descending order of date, one of them
    having none. *)
Lemma stray_day_breaks_the_order :
  Forall (fun t => inMonth "2024-03" t = true) strayDay /\
  map (fun t => (id t, date t)) (recentTransactions isoDate strayDay "2024-03")
  = [("a", "2024-03-10"); ("c", "2024-03-32"); ("b", "2024-03-20")] /\
  isoDate "2024-03-32" = None /\
  (exists x y, isoDate "2024-03-10" = Some x /\ isoDate "2024-03-20" = Some y /\
               (x < y)%Z) /\
  ~ StronglySorted (notEarlier isoDate)
      (recentTransactions isoDate strayDay "2024-03") /\
  (forall rearranged, Permutation rearranged strayDay ->
     ~ StronglySorted (notEarlier isoDate) (firstn 5 rearranged)).
Proof.
  assert (P : forall rearranged, Permutation rearranged strayDay ->
                ~ StronglySorted (notEarlier isoDate) (firstn 5 rearranged)).
  { intros r Hp S.
    pose proof (Permutation_length Hp) as L. cbn in L.
    rewrite firstn_all2 in S by lia.
    assert (Hin : In (nth 1 strayDay salary) r).
    { apply (Permutation_in _ (Permutation_sym Hp)). right. left.
      reflexivity. }
    rewrite (sorted_with_invalid_date isoDate r _ S Hin eq_refl) in L.
    discriminate L. }
  split; [repeat constructor|]. split; [reflexivity|].
  split; [reflexivity|]. split; [|split; [|exact P]].
  - do 2 eexists. repeat split.
  - apply (P (recentTransactions isoDate strayDay "2024-03")
             (Permutation_refl _)).
Qed.

End RecentClaims.

(* ================================================================== *)
(** * The two category breakdowns *)
(* ================================================================== *)

Module BreakdownClaims.

Import JS FinTrack Props Examples InsightFacts.

(** C7, on an input.  Two expenses of 10 and 20 under "food": the
    breakdown of the insights holds their sum, 30; the breakdown of the
    Insights screen adds the amounts without parsing them, holds the
    string "01020", and shows it as 1020, that is 3400% of the month's
    expenses.  The two breakdowns do not agree. *)
Lemma breakdowns_disagree (finiteToString : number -> string) :
  categoryBreakdown finiteToString groceries "2024-03"
  = [("food", VNumber 30%float)] /\
  screenBreakdown finiteToString groceries "2024-03"
  = [("food", VString "01020")] /\
  toNumber (VString "01020") = 1020%float /\
  renderCategoryBreakdown finiteToString dollars None groceries "2024-03"
    (financialMetrics groceries "2024-03")
  = Normal [ {| rowCategory := "food"; rowAmount := "$1020.00";
                rowPercentage := "3400.0%" |} ].
Proof. repeat split. Qed.

(** The order differs as well: by summed amount "rent" (9) comes first
    and "snacks" (1 + 1) last; the screen puts "snacks" ("011") first. *)
Lemma breakdown_orders_disagree (finiteToString : number -> string) :
  map fst (sortBy byAmountDesc
             (entries (categoryBreakdown finiteToString fiveCategories
                         "2024-03")))
  = ["rent"; "food"; "fuel"; "books"; "snacks"] /\
  map fst (sortBy byAmountDesc
             (entries (screenBreakdown finiteToString fiveCategories
                         "2024-03")))
  = ["snacks"; "rent"; "food"; "fuel"; "books"].
Proof. split; reflexivity. Qed.

(** C10, on an input.  Of five categories the screen shows four, but not
    the four largest by summed amount: "books" (6) is left out and
    "snacks" (1 + 1 = 2, held as "011") is shown first. *)
Lemma screen_shows_not_the_largest (finiteToString : number -> string) :
  screenEntries finiteToString fiveCategories "2024-03"
  = [ ("snacks", VString "011"); ("rent", VString "09");
      ("food", VString "08"); ("fuel", VString "07") ] /\
  firstn 4
    (sortBy byAmountDesc
       (entries (categoryBreakdown finiteToString fiveCategories "2024-03")))
  = [ ("rent", VNumber 9%float); ("food", VNumber 8%float);
      ("fuel", VNumber 7%float); ("books", VNumber 6%float) ].
Proof. split; reflexivity. Qed.

(** A category named [__proto__] is never listed. *)
Lemma proto_category_not_listed (finiteToString : number -> string) :
  screenEntries finiteToString [spend "01" "10" "__proto__"] "2024-03" = [] /\
  categoryBreakdown finiteToString [spend "01" "10" "__proto__"] "2024-03"
  = [].
Proof. split; reflexivity. Qed.

(** The size of what the screen lists: one row per distinct category of
    the month's expenses other than [__proto__], and four rows at most.
    The rows are rendered when the currency of the user is well formed
    or there is no row; with another currency and a row to show, the
    rendering throws a [RangeError]. *)
Lemma screen_rows_count (finiteToString : number -> string)
    (formatNumber : string -> number -> string) (user : option User)
    (transactions : list Transaction) (currentMonth : string)
    (m : FinancialMetrics) :
  let n :=
    List.length
      (distinctKeys (monthExpenseCategories transactions currentMonth)) in
  let rendered :=
    renderCategoryBreakdown finiteToString formatNumber user transactions
      currentMonth m in
  (forall rows, rendered = Normal rows -> List.length rows = Nat.min 4 n) /\
  (isWellFormedCurrencyCode (userCurrency user) = true \/ n = 0 ->
   exists rows, rendered = Normal rows /\ List.length rows = Nat.min 4 n) /\
  (isWellFormedCurrencyCode (userCurrency user) = false -> n <> 0 ->
   rendered = Throw "RangeError").
Proof.
  cbv zeta.
  pose proof (screenEntries_length finiteToString transactions currentMonth)
    as L.
  split; [|split].
  - intros rows H%mapM_length. now rewrite H.
  - intros H.
    destruct (renderCategoryBreakdown_normal finiteToString formatNumber
                user transactions currentMonth m) as (rows & E & Lr).
    + destruct H as [H|H]; [now left | right].
      rewrite H in L.
      destruct (screenEntries finiteToString transactions currentMonth);
        [reflexivity | discriminate L].
    + exists rows. split; [exact E | now rewrite Lr].
  - intros Hw Hn. apply renderCategoryBreakdown_throw; [exact Hw|].
    intros E. rewrite E in L. cbn [List.length] in L.
    destruct (List.length
                (distinctKeys (monthExpenseCategories transactions
                                 currentMonth)));
      [contradiction | discriminate L].
Qed.

Lemma screen_rows_count_witness :
  (exists rows,
     renderCategoryBreakdown noDigits dollars (Some euroUser) fiveCategories
       "2024-03" (financialMetrics fiveCategories "2024-03") = Normal rows /\
     List.length rows = 4) /\
  renderCategoryBreakdown noDigits dollars (Some strayUser) fiveCategories
    "2024-03" (financialMetrics fiveCategories "2024-03")
  = Throw "RangeError".
Proof.
  destruct (screen_rows_count noDigits dollars (Some euroUser) fiveCategories
              "2024-03" (financialMetrics fiveCategories "2024-03"))
    as (_ & H & _).
  destruct (screen_rows_count noDigits dollars (Some strayUser)
              fiveCategories "2024-03"
              (financialMetrics fiveCategories "2024-03"))
    as (_ & _ & T).
  split.
  - apply H. left. reflexivity.
  - apply T; [reflexivity | discriminate].
Defined.

End BreakdownClaims.

(* ================================================================== *)
(** * The arrays a render is given *)
(* ================================================================== *)

Module HeapFacts.

Import JS Runtime FinTrack Props.

Section Store.

Context {A : Type}.

Lemma contents_new (s : store A) (l : list A) :
  contents (s ++ [l])%list (List.length s) = l.
Proof. unfold contents. apply nth_middle. Qed.

Lemma contents_old (s added : store A) (a : nat) :
  a < List.length s -> contents (s ++ added)%list a = contents s a.
Proof. intros H. unfold contents. now apply app_nth1. Qed.

Lemma assign_new (s : store A) (l l' : list A) :
  assign (List.length s) l' (s ++ [l])%list = (s ++ [l'])%list.
Proof. induction s as [|x r IH]; cbn; [reflexivity | now rewrite IH]. Qed.

Lemma assign_old (s : store A) (a : nat) (l : list A) :
  a < List.length s ->
  contents (assign a l s) a = l /\
  forall b, b <> a -> contents (assign a l s) b = contents s b.
Proof.
  revert a. induction s as [|x r IH]; intros a H; [cbn in H; lia|].
  destruct a as [|a]; cbn.
  - split; [reflexivity|]. intros [|b] Hb; [contradiction | reflexivity].
  - destruct (IH a) as [E O]; [cbn in H; lia|]. split; [exact E|].
    intros [|b] Hb; [reflexivity|]. apply O. lia.
Qed.

Lemma grownFrom_refl (s : store A) : grownFrom s s.
Proof. exists []. now rewrite app_nil_r. Qed.

Lemma grownFrom_app (s added : store A) : grownFrom s (s ++ added)%list.
Proof. now exists added. Qed.

Lemma grownFrom_trans (s1 s2 s3 : store A) :
  grownFrom s1 s2 -> grownFrom s2 s3 -> grownFrom s1 s3.
Proof.
  intros [a ->] [b ->]. exists (a ++ b)%list. now rewrite app_assoc.
Qed.

Lemma grownFrom_contents (s s' : store A) (a : nat) :
  grownFrom s s' -> a < List.length s ->
  contents s' a = contents s a /\ a < List.length s'.
Proof.
  intros [added ->] H. split; [now apply contents_old|].
  rewrite length_app. lia.
Qed.

End Store.

Lemma keeps_refl (h : heap) : keeps h h.
Proof. repeat split; apply grownFrom_refl. Qed.

Lemma keeps_trans (h1 h2 h3 : heap) : keeps h1 h2 -> keeps h2 h3 -> keeps h1 h3.
Proof.
  intros (A1 & A2 & A3 & A4 & A5) (B1 & B2 & B3 & B4 & B5).
  repeat split; eapply grownFrom_trans; eassumption.
Qed.

Ltac run :=
  unfold arrayFilter, arraySortBy, arraySort, arraySlice, arrayReduce,
    arrayFirst, arrayPush, arrayMap, newArray, read, write, andThen, ret;
  cbn [arrays withArrays transactionsOf goalsOf entriesOf progressOf slicesOf
       transactionArrays goalArrays entryArrays progressArrays sliceArrays
       fst snd].

Ltac settle :=
  repeat (rewrite contents_new || rewrite assign_new
          || rewrite contents_old
               by (rewrite ?length_app; cbn [List.length]; lia)).

Ltac grown :=
  cbn [transactionArrays goalArrays entryArrays progressArrays sliceArrays];
  repeat split;
  first [ apply grownFrom_refl
        | rewrite <- ?app_assoc; apply grownFrom_app ].

(** [sort] works in place: the array at the address is the sorted one
    afterwards, and no other array has changed. *)
Lemma arraySort_in_place (after : Transaction -> Transaction -> bool)
    (a : nat) (h : heap) :
  a < List.length (transactionArrays h) ->
  let '(a', h') := arraySort transactionsOf after a h in
  a' = a /\
  contents (transactionArrays h') a
  = sort after (contents (transactionArrays h) a) /\
  forall b, b <> a ->
    contents (transactionArrays h') b = contents (transactionArrays h) b.
Proof.
  intros H. destruct h as [T G E P S]. run. cbn [transactionArrays] in *.
  split; [reflexivity|]. now apply assign_old.
Qed.

Section Host.

Variable getTime : string -> timeValue.
Variable finiteToString : number -> string.
Variable formatNumber : string -> number -> string.
Variable user : option User.

Lemma financialMetrics_run (h : heap) (transactions : nat)
    (currentMonth : string) :
  transactions < List.length (transactionArrays h) ->
  exists h',
    Runtime.financialMetrics transactions currentMonth h
    = (financialMetrics (contents (transactionArrays h) transactions)
         currentMonth, h') /\
    keeps h h'.
Proof.
  intros H. destruct h as [T G E P S]. cbn [transactionArrays] in *.
  unfold Runtime.financialMetrics. run. settle.
  eexists. split; [reflexivity | grown].
Qed.

Lemma pieChartData_run (h : heap) (m : FinancialMetrics) :
  exists data h',
    Runtime.pieChartData m h = (data, h') /\
    keeps h h' /\
    data < List.length (sliceArrays h') /\
    contents (sliceArrays h') data = pieChartData m.
Proof.
  destruct h as [T G E P S].
  unfold Runtime.pieChartData, pieChartData. run.
  destruct (greater (income m) 0%float), (greater (expenses m) 0%float),
    (greater (income m - expenses m)%float 0%float);
    run; settle; do 2 eexists;
    (split; [reflexivity|]); (split; [grown|]);
    cbn [sliceArrays]; rewrite contents_new, length_app; cbn; split;
    (lia || reflexivity).
Qed.

Lemma recentTransactions_run (h : heap) (transactions : nat)
    (currentMonth : string) :
  transactions < List.length (transactionArrays h) ->
  exists recent h',
    Runtime.recentTransactions getTime transactions currentMonth h
    = (recent, h') /\
    keeps h h' /\
    recent < List.length (transactionArrays h') /\
    contents (transactionArrays h') recent
    = recentTransactions getTime (contents (transactionArrays h) transactions)
        currentMonth.
Proof.
  intros H. destruct h as [T G E P S]. cbn [transactionArrays] in *.
  unfold Runtime.recentTransactions. run. settle.
  do 2 eexists. split; [reflexivity|]. split; [grown|].
  cbn [transactionArrays]. rewrite contents_new, !length_app. cbn.
  split; [lia | reflexivity].
Qed.

Lemma insights_run (h : heap) (transactions goals : nat)
    (currentMonth : string) (m : FinancialMetrics) :
  transactions < List.length (transactionArrays h) ->
  goals < List.length (goalArrays h) ->
  exists h',
    Runtime.insights finiteToString formatNumber user transactions goals
      currentMonth m h
    = (insights finiteToString formatNumber user
         (contents (transactionArrays h) transactions)
         (contents (goalArrays h) goals) currentMonth m, h') /\
    keeps h h'.
Proof.
  intros Ht Hg. destruct h as [T G E P S].
  cbn [transactionArrays goalArrays] in *.
  unfold Runtime.insights. run. settle.
  eexists. split; [reflexivity | grown].
Qed.

Lemma renderCategoryBreakdown_run (h : heap) (transactions : nat)
    (currentMonth : string) (m : FinancialMetrics) :
  transactions < List.length (transactionArrays h) ->
  exists h',
    Runtime.renderCategoryBreakdown finiteToString formatNumber user
      transactions currentMonth m h
    = (renderCategoryBreakdown finiteToString formatNumber user
         (contents (transactionArrays h) transactions) currentMonth m, h') /\
    keeps h h'.
Proof.
  intros Ht. destruct h as [T G E P S]. cbn [transactionArrays] in *.
  unfold Runtime.renderCategoryBreakdown. run. settle.
  eexists. split; [reflexivity | grown].
Qed.

(** A render on a heap leaves every array it finds there as it is, the
    two it is given included, and shows what the derivations compute
    from the elements of these two. *)
Lemma render_run (h : heap) (nowISO : string) (transactions goals : nat) :
  transactions < List.length (transactionArrays h) ->
  goals < List.length (goalArrays h) ->
  exists v h',
    Runtime.render getTime finiteToString formatNumber user nowISO
      transactions goals h = (v, h') /\
    keeps h h' /\
    shown h' v
    = render getTime finiteToString formatNumber user nowISO
        (contents (transactionArrays h) transactions)
        (contents (goalArrays h) goals).
Proof.
  intros Ht Hg. unfold Runtime.render, andThen.
  destruct (financialMetrics_run h transactions (currentMonth nowISO) Ht)
    as (h1 & E1 & K1).
  rewrite E1.
  set (m := financialMetrics (contents (transactionArrays h) transactions)
              (currentMonth nowISO)).
  destruct (pieChartData_run h1 m) as (pa & h2 & E2 & K2 & Vp & Cp).
  rewrite E2.
  pose proof (keeps_trans _ _ _ K1 K2) as K12.
  destruct (grownFrom_contents _ _ transactions (proj1 K12) Ht) as [Ct2 Vt2].
  destruct (recentTransactions_run h2 transactions (currentMonth nowISO) Vt2)
    as (ra & h3 & E3 & K3 & Vr & Cr).
  rewrite E3.
  pose proof (keeps_trans _ _ _ K12 K3) as K13.
  destruct (grownFrom_contents _ _ transactions (proj1 K13) Ht) as [Ct3 Vt3].
  destruct (grownFrom_contents _ _ goals (proj1 (proj2 K13)) Hg)
    as [Cg3 Vg3].
  destruct (insights_run h3 transactions goals (currentMonth nowISO) m
              Vt3 Vg3) as (h4 & E4 & K4).
  rewrite E4.
  pose proof (keeps_trans _ _ _ K13 K4) as K14.
  destruct (grownFrom_contents _ _ transactions (proj1 K14) Ht) as [Ct4 Vt4].
  destruct (renderCategoryBreakdown_run h4 transactions
              (currentMonth nowISO) m Vt4) as (h5 & E5 & K5).
  rewrite E5.
  pose proof (keeps_trans _ _ _ K14 K5) as K15.
  do 2 eexists. split; [reflexivity|]. split; [exact K15|].
  unfold shown, ret, render.
  cbn [metrics Runtime.pie Runtime.recent insightList breakdownRows].
  fold m.
  pose proof (keeps_trans _ _ _ K3 (keeps_trans _ _ _ K4 K5)) as K35.
  pose proof (keeps_trans _ _ _ K4 K5) as K45.
  destruct (grownFrom_contents _ _ pa
              (proj2 (proj2 (proj2 (proj2 K35)))) Vp) as [Cp5 _].
  destruct (grownFrom_contents _ _ ra (proj1 K45) Vr) as [Cr5 _].
  rewrite Cp5, Cp, Cr5, Cr, Ct2, Ct3, Cg3, Ct4.
  reflexivity.
Qed.

End Host.

(** ** What a render reads of the user *)

Lemma asciiUppercase_length (s : string) :
  String.length (asciiUppercase s) = String.length s.
Proof. induction s as [|c r IH]; cbn; [reflexivity | now rewrite IH]. Qed.

Lemma currencyFormat_uppercase (formatNumber : string -> number -> string)
    (c1 c2 : string) :
  asciiUppercase c1 = asciiUppercase c2 ->
  currencyFormat formatNumber c1 = currencyFormat formatNumber c2.
Proof.
  intros H. unfold currencyFormat, isWellFormedCurrencyCode.
  rewrite <- (asciiUppercase_length c1), <- (asciiUppercase_length c2), H.
  reflexivity.
Qed.

Lemma mapM_ext {A B : Type} (f g : A -> completion B) (l : list A) :
  (forall a, f a = g a) -> mapM f l = mapM g l.
Proof.
  intros H. induction l as [|a r IH]; cbn; [reflexivity|].
  now rewrite H, IH.
Qed.

Section Users.

Variable getTime : string -> timeValue.
Variable finiteToString : number -> string.
Variable formatNumber : string -> number -> string.
Variables user1 user2 : option User.

Hypothesis sameCurrency :
  asciiUppercase (userCurrency user1) = asciiUppercase (userCurrency user2).

Lemma formatCurrency_same (v : jsval) :
  formatCurrency formatNumber user1 v = formatCurrency formatNumber user2 v.
Proof.
  unfold formatCurrency.
  now rewrite (currencyFormat_uppercase formatNumber _ _ sameCurrency).
Qed.

Lemma insightsFrom_same (topCategory : option (string * jsval))
    (topGoal : option GoalProgress) (m : FinancialMetrics) :
  insightsFrom finiteToString formatNumber user1 topCategory topGoal m
  = insightsFrom finiteToString formatNumber user2 topCategory topGoal m.
Proof.
  unfold insightsFrom.
  destruct topCategory as [[k v]|]; cbn [isDefined member bind fst snd];
    [|reflexivity].
  now rewrite formatCurrency_same.
Qed.

Lemma breakdownRow_same (m : FinancialMetrics) (entry : string * jsval) :
  breakdownRow finiteToString formatNumber user1 m entry
  = breakdownRow finiteToString formatNumber user2 m entry.
Proof.
  destruct entry as [c a]. unfold breakdownRow.
  now rewrite formatCurrency_same.
Qed.

Lemma render_same (now1 now2 : string) (transactions : list Transaction)
    (goals : list Goal) :
  currentMonth now1 = currentMonth now2 ->
  render getTime finiteToString formatNumber user1 now1 transactions goals
  = render getTime finiteToString formatNumber user2 now2 transactions goals.
Proof.
  intros H. unfold render, insights, renderCategoryBreakdown.
  rewrite H, insightsFrom_same.
  now rewrite (mapM_ext _ _ _ (breakdownRow_same _)).
Qed.

End Users.

End HeapFacts.

(* ================================================================== *)
(** * The clock, the user and the arrays of a render *)
(* ================================================================== *)

Module ClockClaims.

Import JS Runtime FinTrack Props Examples HeapFacts.

(** C9, on an input.  The specification has the reference month handed
    to the derivations by their caller and never read from the clock,
    and the outputs determined by the transactions, the goals and the
    month.  The component reads the clock: the same transactions
    rendered on 15 March and on 15 April 2024 give an income of 3000 and
    of 0.  And with the transactions, the goals and the month the same,
    the insights change with the currency of the user: a user without
    one reads of $30.00, one with the euro of EUR 30.00, and for one
    whose currency is not a code there are no insights. *)
Lemma render_reads_the_clock :
  income (vmMetrics (render isoDate noDigits dollars None
                       "2024-03-15T12:00:00.000Z" march []))
  = 3000%float /\
  income (vmMetrics (render isoDate noDigits dollars None
                       "2024-04-15T12:00:00.000Z" march []))
  = 0%float /\
  render isoDate noDigits dollars None "2024-03-15T12:00:00.000Z" march []
  <> render isoDate noDigits dollars None "2024-04-15T12:00:00.000Z" march [] /\
  option_map (fun l => option_map message (nth_error l 1))
    (match insights noDigits dollars None groceries [] "2024-03"
             (financialMetrics groceries "2024-03") with
     | Normal l => Some l
     | Throw _ => None
     end)
  = Some (Some "Your top spending is food: $30.00 this month.") /\
  option_map (fun l => option_map message (nth_error l 1))
    (match insights noDigits dollars (Some euroUser) groceries [] "2024-03"
             (financialMetrics groceries "2024-03") with
     | Normal l => Some l
     | Throw _ => None
     end)
  = Some (Some "Your top spending is food: EUR 30.00 this month.") /\
  insights noDigits dollars (Some strayUser) groceries [] "2024-03"
    (financialMetrics groceries "2024-03")
  = Throw "RangeError".
Proof.
  repeat split.
  intros H.
  apply (f_equal (fun v => PrimFloat.eqb (income (vmMetrics v)) 0%float)) in H.
  discriminate H.
Qed.

(** C9, as the code has it.  A render changes none of the arrays it
    finds on the heap, the two it is given included: every [sort] works
    on an array the derivation has made itself.  What it shows is what
    the derivations compute from the elements of the two arrays, from
    the month, which the component takes from the clock as the first
    seven characters of the ISO form of the current time, and from the
    currency of the user.  Two renders show the same when the arrays
    they are given have the same elements, their clock readings are of
    the same month, and their users have the same currency, whatever
    else the two heaps hold. *)
Theorem render_deterministic
    (getTime : string -> timeValue) (finiteToString : number -> string)
    (formatNumber : string -> number -> string)
    (user1 user2 : option User) (now1 now2 : string) (h1 h2 : heap)
    (transactions1 goals1 transactions2 goals2 : nat) :
  transactions1 < List.length (transactionArrays h1) ->
  goals1 < List.length (goalArrays h1) ->
  transactions2 < List.length (transactionArrays h2) ->
  goals2 < List.length (goalArrays h2) ->
  exists v1 h1' v2 h2',
    Runtime.render getTime finiteToString formatNumber user1 now1
      transactions1 goals1 h1 = (v1, h1') /\
    Runtime.render getTime finiteToString formatNumber user2 now2
      transactions2 goals2 h2 = (v2, h2') /\
    keeps h1 h1' /\ keeps h2 h2' /\
    shown h1' v1
    = render getTime finiteToString formatNumber user1 now1
        (contents (transactionArrays h1) transactions1)
        (contents (goalArrays h1) goals1) /\
    (contents (transactionArrays h1) transactions1
     = contents (transactionArrays h2) transactions2 ->
     contents (goalArrays h1) goals1 = contents (goalArrays h2) goals2 ->
     currentMonth now1 = currentMonth now2 ->
     asciiUppercase (userCurrency user1) = asciiUppercase (userCurrency user2) ->
     shown h1' v1 = shown h2' v2).
Proof.
  intros Ht1 Hg1 Ht2 Hg2.
  destruct (render_run getTime finiteToString formatNumber user1 h1 now1
              transactions1 goals1 Ht1 Hg1) as (v1 & h1' & E1 & K1 & S1).
  destruct (render_run getTime finiteToString formatNumber user2 h2 now2
              transactions2 goals2 Ht2 Hg2) as (v2 & h2' & E2 & K2 & S2).
  exists v1, h1', v2, h2'.
  split; [exact E1|]. split; [exact E2|]. split; [exact K1|].
  split; [exact K2|]. split; [exact S1|].
  intros Et Eg Em Eu. rewrite S1, S2, Et, Eg. now apply render_same.
Qed.

Lemma render_deterministic_witness :
  exists v1 h1' v2 h2',
    Runtime.render isoDate noDigits dollars None "2024-03-15T12:00:00.000Z"
      0 0 marchHeap = (v1, h1') /\
    Runtime.render isoDate noDigits dollars
      (Some {| currency := "usd"; language := "en" |})
      "2024-03-31T23:59:59.999Z" 1 0 busyHeap = (v2, h2') /\
    keeps marchHeap h1' /\ keeps busyHeap h2' /\
    shown h1' v1 = shown h2' v2.
Proof.
  destruct (render_deterministic isoDate noDigits dollars None
              (Some {| currency := "usd"; language := "en" |})
              "2024-03-15T12:00:00.000Z" "2024-03-31T23:59:59.999Z"
              marchHeap busyHeap 0 0 1 0)
    as (v1 & h1' & v2 & h2' & E1 & E2 & K1 & K2 & _ & S);
    [cbn; lia | cbn; lia | cbn; lia | cbn; lia |].
  exists v1, h1', v2, h2'.
  split; [exact E1|]. split; [exact E2|]. split; [exact K1|].
  split; [exact K2|]. apply S; reflexivity.
Defined.

End ClockClaims.

(* ================================================================== *)
(** * The rotation of the insights and the tabs *)
(* ================================================================== *)

Module NavigationFacts.

Import JS FinTrack Props Examples Component NumberFacts InsightFacts.

Lemma nextInsight_range (n i : Z) :
  (0 <= i < n)%Z -> (0 <= nextInsight n i < n)%Z.
Proof.
  intros H. unfold nextInsight. rewrite Z.rem_mod_nonneg by lia.
  apply Z.mod_pos_bound. lia.
Qed.

Lemma previousInsight_range (n i : Z) :
  (0 <= i < n)%Z -> (0 <= previousInsight n i < n)%Z.
Proof.
  intros H. unfold previousInsight. destruct (Z.eqb_spec i 0); lia.
Qed.

Lemma rotated_range (n i : Z) :
  (0 < n)%Z -> rotated n i -> (0 <= i < n)%Z.
Proof.
  intros Hn H. induction H.
  - lia.
  - now apply nextInsight_range.
  - now apply previousInsight_range.
Qed.

Lemma insights_normal_length (finiteToString : number -> string)
    (formatNumber : string -> number -> string) (user : option User)
    (transactions : list Transaction) (goals : list Goal)
    (currentMonth : string) (m : FinancialMetrics) (l : list Insight) :
  insights finiteToString formatNumber user transactions goals currentMonth m
  = Normal l ->
  List.length l = 5.
Proof.
  intros E. unfold insights in E.
  destruct (isWellFormedCurrencyCode (userCurrency user)) eqn:Hw.
  - destruct (insightsFrom_shape finiteToString formatNumber user
                (topCategory finiteToString transactions currentMonth)
                (topGoal goals) m (or_introl Hw))
      as (s1 & s2 & s3 & s4 & s5 & E' & _).
    rewrite E' in E. injection E as <-. reflexivity.
  - destruct (topCategory finiteToString transactions currentMonth)
      as [entry|] eqn:Et.
    + rewrite (insightsFrom_throw finiteToString formatNumber user entry
                 (topGoal goals) m Hw) in E.
      discriminate E.
    + destruct (insightsFrom_shape finiteToString formatNumber user None
                  (topGoal goals) m (or_intror eq_refl))
        as (s1 & s2 & s3 & s4 & s5 & E' & _).
      rewrite E' in E. injection E as <-. reflexivity.
Qed.

(** Whenever the insights have been computed, which they are for every
    user whose currency is a well-formed code, and however the user and
    the timer have moved the index, [insights[currentInsightIndex]] is
    one of the five insights: the index never leaves [0 .. 4] and the
    card never gets [undefined]. *)
Theorem displayed_insight_defined
    (finiteToString : number -> string)
    (formatNumber : string -> number -> string) (user : option User)
    (transactions : list Transaction) (goals : list Goal)
    (currentMonth : string) (m : FinancialMetrics) :
  (isWellFormedCurrencyCode (userCurrency user) = true ->
   exists l,
     insights finiteToString formatNumber user transactions goals
       currentMonth m = Normal l) /\
  (forall l,
     insights finiteToString formatNumber user transactions goals
       currentMonth m = Normal l ->
     forall i, rotated (Z.of_nat (List.length l)) i ->
       (0 <= i < 5)%Z /\ exists x, nth_error l (Z.to_nat i) = Some x).
Proof.
  split.
  - intros Hw.
    destruct (insightsFrom_shape finiteToString formatNumber user
                (topCategory finiteToString transactions currentMonth)
                (topGoal goals) m (or_introl Hw))
      as (s1 & s2 & s3 & s4 & s5 & E & _).
    eexists. exact E.
  - intros l E i H.
    pose proof (insights_normal_length _ _ _ _ _ _ _ _ E) as L.
    rewrite L in H. apply rotated_range in H; [|lia].
    split; [exact H|].
    destruct (nth_error l (Z.to_nat i)) as [x|] eqn:N; [eauto|].
    apply nth_error_None in N. lia.
Qed.

Lemma displayed_insight_defined_witness :
  exists l x,
    insights noDigits dollars (Some euroUser) march [emergencyFund] "2024-03"
      (financialMetrics march "2024-03") = Normal l /\
    nth_error l (Z.to_nat (nextInsight (Z.of_nat (List.length l)) 0)) = Some x.
Proof.
  destruct (displayed_insight_defined noDigits dollars (Some euroUser) march
              [emergencyFund] "2024-03" (financialMetrics march "2024-03"))
    as (N & H).
  destruct N as (l & E); [reflexivity|].
  destruct (H l E (nextInsight (Z.of_nat (List.length l)) 0)) as (_ & x & Hx).
  - apply rotated_next, rotated_start.
  - exists l, x. split; [exact E | exact Hx].
Defined.

(** On an index in range the next and the previous button undo each
    other, also across the two ends of the list. *)
Theorem next_previous_inverse (n i : Z) :
  (0 <= i < n)%Z ->
  previousInsight n (nextInsight n i) = i /\
  nextInsight n (previousInsight n i) = i.
Proof.
  intros H. unfold nextInsight, previousInsight. split.
  - rewrite Z.rem_mod_nonneg by lia.
    destruct (Z.eq_dec (i + 1) n) as [E|E].
    + rewrite E, Z.mod_same by lia. cbn. lia.
    + rewrite Z.mod_small by lia. destruct (Z.eqb_spec (i + 1) 0); lia.
  - destruct (Z.eqb_spec i 0) as [->|E].
    + replace (n - 1 + 1)%Z with n by lia.
      rewrite Z.rem_mod_nonneg by lia. apply Z.mod_same. lia.
    + replace (i - 1 + 1)%Z with i by lia.
      rewrite Z.rem_mod_nonneg by lia. apply Z.mod_small. lia.
Qed.

Lemma next_previous_inverse_witness :
  previousInsight 5 (nextInsight 5 4) = 4%Z /\
  nextInsight 5 (previousInsight 5 0) = 0%Z.
Proof.
  split.
  - apply (next_previous_inverse 5 4). lia.
  - apply (next_previous_inverse 5 0). lia.
Defined.

(** After [k] ticks of the timer from the start the insight shown is
    number [k mod length]: the insights come up in turn and the rotation
    is back at the first one every [length] ticks. *)
Theorem rotation_after_ticks (n : Z) (k : nat) :
  (0 < n)%Z -> Nat.iter k (nextInsight n) 0%Z = (Z.of_nat k mod n)%Z.
Proof.
  intros Hn. induction k as [|k IH].
  - now rewrite Zmod_0_l.
  - rewrite Nat.iter_succ, IH. unfold nextInsight.
    rewrite Z.rem_mod_nonneg.
    + rewrite Nat2Z.inj_succ, <- Z.add_1_r.
      now rewrite Zplus_mod_idemp_l.
    + pose proof (Z.mod_pos_bound (Z.of_nat k) n Hn). lia.
    + lia.
Qed.

Lemma rotation_after_ticks_witness :
  Nat.iter 7 (nextInsight 5) 0%Z = (Z.of_nat 7 mod 5)%Z.
Proof. apply rotation_after_ticks. lia. Defined.

(** Every tab the component can be on has a screen ([renderScreen] never
    reaches its [default] branch), the screen is titled as the tab is
    labelled, and that tab alone is highlighted in the bottom
    navigation. *)
Theorem reached_tab_has_screen (t : Z) :
  tabReached t ->
  exists tab screen,
    In tab tabs /\ tabId tab = t /\
    renderScreen t = Some screen /\
    label tab = screenTitle screen /\
    filter (fun tab => String.eqb (tabColor t tab) "text-primary") tabs
    = [tab].
Proof.
  intros H.
  assert (R : In t [0; 1; 2; 3; 4]%Z).
  { induction H as [|tab from Hin _ _|from _ _].
    - now left.
    - cbn in Hin. destruct Hin as [<-|[<-|[<-|[<-|[<-|[]]]]]]; cbn; auto 10.
    - cbn. auto 10. }
  cbn in R. destruct R as [<-|[<-|[<-|[<-|[<-|[]]]]]];
    (eexists; eexists;
     split; [|split; [|split; [reflexivity|split; [|reflexivity]]]]);
    cbn; auto 10.
Qed.

Lemma reached_tab_has_screen_witness :
  exists tab screen,
    In tab tabs /\ tabId tab = 3%Z /\ renderScreen 3 = Some screen /\
    label tab = screenTitle screen /\
    filter (fun tab => String.eqb (tabColor 3 tab) "text-primary") tabs
    = [tab].
Proof.
  apply (reached_tab_has_screen 3). apply (tab_askAI 0), tab_start.
Defined.

End NavigationFacts.

(* ================================================================== *)
(** * The handlers *)
(* ================================================================== *)

Module HandlerFacts.

Import JS FinTrack Props Examples Component NumberFacts.

Lemma is_nan_spec (x : number) : PrimFloat.is_nan x = true <-> x = nan.
Proof.
  split.
  - intros H. apply Prim2SF_inj. change (Prim2SF nan) with S754_nan.
    unfold is_nan in H. rewrite FloatAxioms.eqb_spec in H.
    destruct (Prim2SF x) as [s|s| |s m e]; try reflexivity; exfalso.
    + destruct s; discriminate H.
    + destruct s; discriminate H.
    + unfold SFeqb, SFcompare in H.
      rewrite Z.compare_refl, Pos.compare_cont_refl in H.
      destruct s; discriminate H.
  - intros ->. reflexivity.
Qed.

Section Host.

Variable finiteToString : number -> string.

(** [handleFundGoal] sends nothing when the prompt was cancelled, left
    empty or answered with something [parseFloat] cannot read.  Otherwise
    it sends one update, for the funded goal, whose only field is
    [current]: the text of the sum of the parsed [current] and the parsed
    answer. *)
Theorem handleFundGoal_spec (g : Goal) (answer : option string) :
  (handleFundGoal finiteToString g answer = [] <->
   answer = None \/ answer = Some "" \/
   exists a, answer = Some a /\ unparsable a) /\
  (forall a, answer = Some a -> a <> "" -> ~ unparsable a ->
     handleFundGoal finiteToString g answer
     = [UpdateGoal (goalId g)
          [("current",
            VString (numberToString finiteToString
                       (parseFloat (current g) + parseFloat a)%float))]]).
Proof.
  unfold handleFundGoal, unparsable. split.
  - destruct answer as [a|]; [|intuition].
    cbn [truthy]. destruct (String.eqb_spec a "") as [->|Ha]; cbn [negb andb].
    + intuition.
    + destruct (is_nan (parseFloat a)) eqn:E; cbn [negb].
      * apply is_nan_spec in E. split; [|reflexivity].
        intros _. right. right. eauto.
      * split; [discriminate|].
        intros [H|[H|[b [[= <-] H]]]]; try discriminate.
        -- congruence.
        -- rewrite H in E. discriminate E.
  - intros a -> Ha Hu. cbn [truthy].
    destruct (String.eqb_spec a ""); [contradiction|]. cbn [negb andb].
    destruct (is_nan (parseFloat a)) eqn:E;
      [apply is_nan_spec in E; contradiction|].
    reflexivity.
Qed.

(** The guard of [handleFundGoal] looks at the answer only.  A goal whose
    [current] does not parse gets the text ["NaN"] written by any funding
    that goes through, and ["NaN"] does not parse either: the goal stays
    there. *)
Theorem fund_unparsable_current (g : Goal) (a : string) :
  unparsable (current g) ->
  (handleFundGoal finiteToString g (Some a) = [] \/
   handleFundGoal finiteToString g (Some a)
   = [UpdateGoal (goalId g) [("current", VString "NaN")]]) /\
  unparsable "NaN".
Proof.
  intros H. split; [|reflexivity]. unfold handleFundGoal.
  destruct (truthy (VString a) && negb (is_nan (parseFloat a)))%bool;
    [right|now left].
  rewrite H, add_nan_l. reflexivity.
Qed.

End Host.

Lemma handleFundGoal_spec_witness :
  handleFundGoal noDigits emergencyFund (Some "abc") = [] /\
  handleFundGoal noDigits garbledGoal (Some "0")
  = [UpdateGoal "g2" [("current", VString "NaN")]].
Proof.
  destruct (handleFundGoal_spec noDigits emergencyFund (Some "abc"))
    as [[_ H1] _].
  destruct (handleFundGoal_spec noDigits garbledGoal (Some "0")) as [_ H2].
  split.
  - apply H1. right. right. exists "abc". split; reflexivity.
  - apply (H2 "0"); [reflexivity | discriminate |].
    intros H. apply (f_equal PrimFloat.is_nan) in H. discriminate H.
Defined.

Lemma fund_unparsable_current_witness :
  handleFundGoal noDigits garbledGoal (Some "25") = [] \/
  handleFundGoal noDigits garbledGoal (Some "25")
  = [UpdateGoal (goalId garbledGoal) [("current", VString "NaN")]].
Proof.
  apply (fund_unparsable_current noDigits garbledGoal "25"). reflexivity.
Defined.

Lemma replaceOwn_same (o : object) (k : string) (v : jsval) :
  getOwn o k = Some v -> replaceOwn o k v = o.
Proof.
  induction o as [|[k' v'] r IH]; cbn; [discriminate|].
  destruct (String.eqb_spec k' k) as [->|_].
  - now intros [= ->].
  - intros H. now rewrite IH.
Qed.

(** The data an update carries, [{ ...data, amount: data.amount }] (and
    [target] for a goal), is the form data itself when the form data has
    the field; when it has not, the field is added at the end, holding
    [undefined]. *)
Theorem spread_keeps_data (data : object) (k : string) :
  k <> "__proto__" ->
  (forall v, getOwn data k = Some v -> spreadWithOwn data k = data) /\
  (getOwn data k = None -> isPrototypeMember k = false ->
   arrayIndex k = None ->
   spreadWithOwn data k = (data ++ [(k, VUndefined)])%list).
Proof.
  intros Hk. unfold spreadWithOwn, get, set.
  destruct (String.eqb_spec k "__proto__"); [contradiction|]. split.
  - intros v E. rewrite E. now apply replaceOwn_same.
  - intros E Hm Hi. now rewrite E, Hm, Hi.
Qed.

Lemma spread_keeps_data_witness :
  spreadWithOwn [("date", VString "2024-03-01"); ("amount", VString "12")]
    "amount"
  = [("date", VString "2024-03-01"); ("amount", VString "12")] /\
  spreadWithOwn [("name", VString "Trip")] "target"
  = [("name", VString "Trip"); ("target", VUndefined)].
Proof.
  split.
  - destruct (spread_keeps_data
                [("date", VString "2024-03-01"); ("amount", VString "12")]
                "amount") as [H _]; [discriminate|].
    apply (H (VString "12")). reflexivity.
  - destruct (spread_keeps_data [("name", VString "Trip")] "target")
      as [_ H]; [discriminate|].
    apply H; reflexivity.
Defined.

(** What a save sends follows the title of the modal: an update of the
    edited row when the title says "Edit", a creation with the form data
    when it says "Add".  A save always ends the edit, so that a second
    save without reopening the modal creates a row; the same holds for
    goals. *)
Theorem save_follows_title (d : object) (s : State) :
  (editingTransaction (fst (handleSaveTransaction d s)) = None /\
   (transactionModalTitle s = "Edit Transaction" <->
    exists t, editingTransaction s = Some t /\
              snd (handleSaveTransaction d s)
              = [UpdateTransaction (FinTrack.id t) (spreadWithOwn d "amount")]) /\
   (transactionModalTitle s = "Add Transaction" <->
    snd (handleSaveTransaction d s) = [CreateTransaction d]) /\
   (forall d2,
      snd (handleSaveTransaction d2 (fst (handleSaveTransaction d s)))
      = [CreateTransaction d2])) /\
  (editingGoal (fst (handleSaveGoal d s)) = None /\
   (goalModalTitle s = "Edit Goal" <->
    exists g, editingGoal s = Some g /\
              snd (handleSaveGoal d s)
              = [UpdateGoal (goalId g) (spreadWithOwn d "target")]) /\
   (goalModalTitle s = "Add Goal" <->
    snd (handleSaveGoal d s) = [CreateGoal d]) /\
   (forall d2,
      snd (handleSaveGoal d2 (fst (handleSaveGoal d s))) = [CreateGoal d2])).
Proof.
  unfold handleSaveTransaction, transactionModalTitle, handleSaveGoal,
    goalModalTitle.
  split.
  - destruct (editingTransaction s) as [t|]; cbn; repeat split;
      try discriminate; eauto.
    intros (t & H & _). discriminate H.
  - destruct (editingGoal s) as [g|]; cbn; repeat split;
      try discriminate; eauto.
    intros (g & H & _). discriminate H.
Qed.

(** Opening a modal and closing it again, from a state in which it is
    closed and nothing is being edited, gives that state back, whatever
    was opened; opening a transaction after saving an edit starts from a
    clean edit. *)
Theorem open_close_round_trip (s : State) (t : option Transaction)
    (g : option Goal) :
  (showTransactionModal s = false -> editingTransaction s = None ->
   closeTransactionModal (handleOpenTransaction t s) = s) /\
  (showGoalModal s = false -> editingGoal s = None ->
   closeGoalModal (handleOpenGoal g s) = s).
Proof.
  destruct s as [a st sg et eg ci]; cbn. split; intros -> ->; reflexivity.
Qed.

Lemma open_close_round_trip_witness :
  closeTransactionModal (handleOpenTransaction (Some rent) initialState)
  = initialState /\
  closeGoalModal (handleOpenGoal (Some emergencyFund) initialState)
  = initialState.
Proof.
  split.
  - apply (open_close_round_trip initialState (Some rent) None); reflexivity.
  - apply (open_close_round_trip initialState None (Some emergencyFund));
      reflexivity.
Defined.

(** A mutation that failed invalidates no query and shows one
    destructive toast.  A mutation that succeeded invalidates one query,
    the one of the collection it writes, and shows no destructive toast. *)
Theorem mutation_effects (r : request) :
  invalidated (onError r) = [] /\
  (exists title, onError r = [Toast title true]) /\
  invalidated (onSuccess r) = [collectionOf r] /\
  (forall title d, In (Toast title d) (onSuccess r) -> d = false).
Proof.
  destruct r; cbn; repeat split; eauto;
    intros title d H; repeat (destruct H as [H|H]; try discriminate H);
    try (now injection H); destruct H.
Qed.

Lemma save_follows_title_witness :
  snd (handleSaveTransaction [("amount", VString "12")]
         (handleOpenTransaction (Some rent) initialState))
  = [UpdateTransaction "t2" [("amount", VString "12")]] /\
  snd (handleSaveGoal [("target", VString "900")]
         (handleOpenGoal None initialState))
  = [CreateGoal [("target", VString "900")]].
Proof.
  destruct (save_follows_title [("amount", VString "12")]
              (handleOpenTransaction (Some rent) initialState))
    as [(_ & [H _] & _) _].
  destruct (save_follows_title [("target", VString "900")]
              (handleOpenGoal None initialState))
    as [_ (_ & _ & [H' _] & _)].
  split.
  - destruct (H eq_refl) as (t & [= <-] & E). exact E.
  - apply H'. reflexivity.
Defined.

Lemma mutation_effects_witness :
  invalidated (onSuccess (DeleteGoal "g1")) = ["/api/goals"] /\
  In (Toast "Goal deleted successfully" false) (onSuccess (DeleteGoal "g1")) /\
  false = false.
Proof.
  destruct (mutation_effects (DeleteGoal "g1")) as (_ & _ & E & H).
  assert (I : In (Toast "Goal deleted successfully" false)
                (onSuccess (DeleteGoal "g1"))).
  { right. left. reflexivity. }
  split; [exact E|]. split; [exact I|].
  exact (H "Goal deleted successfully" false I).
Defined.

End HandlerFacts.

(* ================================================================== *)
(** * What the dashboard displays *)
(* ================================================================== *)

Module DisplayFacts.

Import JS FinTrack Props Examples Component NumberFacts SortFacts SumFacts.

Lemma truthyNumber_not_nan (x : number) :
  truthyNumber x = true -> PrimFloat.is_nan x = false.
Proof.
  unfold truthyNumber. destruct (is_nan x); [discriminate | reflexivity].
Qed.

(** [formatCurrency] never hands [NaN] to the number format.  A number
    is formatted as it is and a string as the number it parses to; [NaN],
    a string that does not parse, and both zeros are formatted as [+0].
    The format is the one of the user's currency, and building it is all
    that can throw. *)
Theorem formatCurrency_never_nan (formatNumber : string -> number -> string)
    (user : option User) (amount : jsval) :
  (exists x, amount = VNumber x) \/ (exists s, amount = VString s) ->
  exists y,
    formatCurrency formatNumber user amount
    = (format <- currencyFormat formatNumber (userCurrency user) ;;
       Normal (format y)) /\
    PrimFloat.is_nan y = false /\
    (y = toNumber (match amount with
                   | VString s => VNumber (parseFloat s)
                   | _ => amount
                   end) \/
     y = 0%float /\
     truthyNumber (toNumber (match amount with
                             | VString s => VNumber (parseFloat s)
                             | _ => amount
                             end)) = false).
Proof.
  intros [[x ->]|[s ->]]; unfold formatCurrency, orElse; cbn [truthy toNumber].
  - destruct (truthyNumber x) eqn:E.
    + exists x. cbn. auto using truthyNumber_not_nan.
    + exists 0%float. cbn. auto.
  - destruct (truthyNumber (parseFloat s)) eqn:E.
    + exists (parseFloat s). cbn. auto using truthyNumber_not_nan.
    + exists 0%float. cbn. auto.
Qed.

Lemma formatCurrency_never_nan_witness :
  exists y,
    formatCurrency dollars None (VString "abc") = Normal (dollars "USD" y) /\
    PrimFloat.is_nan y = false.
Proof.
  destruct (formatCurrency_never_nan dollars None (VString "abc"))
    as (y & E & N & _).
  - right. exists "abc". reflexivity.
  - exists y. split; [exact E | exact N].
Defined.

Lemma nonNegative_not_greater (x : number) :
  nonNegative x -> greater x 0%float = false ->
  PrimFloat.eqb x 0%float = true.
Proof.
  rewrite nonNegative_spec. unfold greater.
  rewrite ltb_spec, FloatAxioms.eqb_spec.
  change (Prim2SF 0) with (S754_zero false).
  intros H. destruct H; cbn; try discriminate; reflexivity.
Qed.

Lemma binary_round_aux_negative (m e : Z) (l : location) :
  SFltb (S754_zero false) (binary_round_aux prec emax true m e l) = false.
Proof.
  unfold binary_round_aux.
  destruct (shr_fexp prec emax m e l) as [mrs' e'].
  destruct (shr_fexp prec emax _ e' loc_Exact) as [mrs'' e''].
  destruct (shr_m mrs''); try reflexivity.
  destruct (Z.leb e'' (emax - prec)); reflexivity.
Qed.

(** Taking a non-negative number from a number that is not positive
    does not give a positive number, whatever the rounding. *)
Lemma sub_not_greater (i e : number) :
  greater i 0%float = false -> nonNegative e ->
  greater (i - e)%float 0%float = false.
Proof.
  unfold greater. rewrite nonNegative_spec, !ltb_spec, sub_spec.
  change (Prim2SF 0) with (S754_zero false).
  intros Hi He.
  destruct (Prim2SF i) as [si|si| |si mi ei]; destruct He as [se| |me ee];
    try reflexivity; try (destruct si; try discriminate Hi; reflexivity);
    try (destruct si, se; reflexivity).
  destruct si; [|discriminate Hi].
  unfold SF64sub. cbn [SFsub].
  destruct (shl_align mi ei (Z.min ei ee)) as [a ?],
           (shl_align me ee (Z.min ei ee)) as [b ?].
  cbn [fst cond_Zopp]. change (- Z.pos a - Z.pos b)%Z with (Z.neg (a + b)).
  cbn [binary_normalize]. unfold binary_round.
  destruct (shl_align _ _ _) as [mz ez].
  apply binary_round_aux_negative.
Qed.

Lemma pie_names (m : FinancialMetrics) :
  map sliceName (pieChartData m) =
  ((if greater (income m) 0%float then ["Income"] else []) ++
   (if greater (expenses m) 0%float then ["Expenses"] else []) ++
   (if greater (income m - expenses m)%float 0%float
    then ["Savings"] else []))%list.
Proof.
  unfold pieChartData.
  destruct (greater (income m) 0%float), (greater (expenses m) 0%float),
    (greater (income m - expenses m)%float 0%float); reflexivity.
Qed.

(** With non-negative income and expenses the chart is empty, and the
    dashboard shows "No financial data available yet" in its place,
    exactly when both are zero. *)
Theorem pie_empty_iff (m : FinancialMetrics) :
  nonNegative (income m) -> nonNegative (expenses m) ->
  (pieChartData m = [] <->
   PrimFloat.eqb (income m) 0%float = true /\
   PrimFloat.eqb (expenses m) 0%float = true).
Proof.
  intros Hi He. split.
  - intros H. apply (f_equal (map sliceName)) in H. rewrite pie_names in H.
    destruct (greater (income m) 0%float) eqn:Ei; [discriminate H|].
    destruct (greater (expenses m) 0%float) eqn:Ee; [discriminate H|].
    split; now apply nonNegative_not_greater.
  - intros [Zi Ze].
    pose proof (zero_not_greater _ Zi) as Gi.
    pose proof (zero_not_greater _ Ze) as Ge.
    pose proof (sub_not_greater _ _ Gi He) as Gs.
    unfold pieChartData. now rewrite Gi, Ge, Gs.
Qed.

Lemma pie_empty_iff_witness :
  pieChartData (financialMetrics [zeroSalary] "2024-03") = [].
Proof.
  apply (pie_empty_iff (financialMetrics [zeroSalary] "2024-03"));
    [reflexivity | reflexivity | split; reflexivity].
Defined.

(** With non-negative expenses the chart never shows a Savings slice
    without an Income slice. *)
Theorem savings_needs_income (m : FinancialMetrics) :
  nonNegative (expenses m) ->
  In "Savings" (map sliceName (pieChartData m)) ->
  In "Income" (map sliceName (pieChartData m)).
Proof.
  intros He. rewrite pie_names.
  destruct (greater (income m) 0%float) eqn:Gi; [intros _; now left|].
  rewrite (sub_not_greater _ _ Gi He).
  destruct (greater (expenses m) 0%float); cbn; intuition discriminate.
Qed.

Lemma savings_needs_income_witness :
  In "Income" (map sliceName (pieChartData (financialMetrics march "2024-03"))).
Proof.
  apply (savings_needs_income (financialMetrics march "2024-03")).
  - reflexivity.
  - right. right. left. reflexivity.
Defined.

(** The dashboard lists as many recent transactions as the month has,
    up to five: none, and the "No transactions this month" notice in
    their place, exactly when no transaction is dated in the month, and
    all of the month's transactions when there are at most five. *)
Theorem recent_count (getTime : string -> timeValue)
    (transactions : list Transaction) (currentMonth : string) :
  let monthTx := filter (inMonth currentMonth) transactions in
  let recent := recentTransactions getTime transactions currentMonth in
  List.length recent = Nat.min 5 (List.length monthTx) /\
  (recent = [] <-> monthTx = []) /\
  (List.length monthTx <= 5 -> Permutation recent monthTx).
Proof.
  cbv zeta. unfold recentTransactions.
  set (monthTx := filter (inMonth currentMonth) transactions).
  set (after := fun a b => timePositive (byDateDesc getTime a b)).
  assert (L : List.length (firstn 5 (sort after monthTx))
              = Nat.min 5 (List.length monthTx)).
  { now rewrite firstn_length_min, sort_length. }
  split; [exact L|]. split.
  - split.
    + intros H. rewrite H in L. cbn in L.
      destruct monthTx; [reflexivity | cbn in L; lia].
    + intros H. rewrite H. reflexivity.
  - intros H. rewrite firstn_all2 by (rewrite sort_length; exact H).
    apply sort_perm.
Qed.

Lemma recent_count_witness :
  Permutation (recentTransactions isoDate mixedDates "2024-03")
    (filter (inMonth "2024-03") mixedDates).
Proof.
  apply (recent_count isoDate mixedDates "2024-03"). cbn. lia.
Defined.

(** Without a positive income in the month the quick insight of the
    dashboard says that expenses are high, whatever the expenses are,
    none included: the savings rate is 0 then. *)
Theorem quickInsight_no_income (transactions : list Transaction)
    (currentMonth : string) :
  greater (income (financialMetrics transactions currentMonth)) 0%float
  = false ->
  savingsRate (financialMetrics transactions currentMonth) = 0%float /\
  quickInsight (financialMetrics transactions currentMonth)
  = "Your expenses are high this month. I can help you find areas to optimize - just ask!".
Proof.
  intros H. unfold quickInsight, financialMetrics, metricsWithBudget in *.
  cbn [savingsRate income] in *. rewrite H. split; reflexivity.
Qed.

Lemma quickInsight_no_income_witness :
  quickInsight (financialMetrics [] "2024-03")
  = "Your expenses are high this month. I can help you find areas to optimize - just ask!".
Proof.
  apply (quickInsight_no_income [] "2024-03"). reflexivity.
Defined.

(** A month without transactions: income and expenses are 0, nothing of
    the budget is used and 2500 remain, the chart is empty and no recent
    transaction is listed. *)
Theorem empty_month (getTime : string -> timeValue)
    (transactions : list Transaction) (currentMonth : string) :
  filter (inMonth currentMonth) transactions = [] ->
  financialMetrics transactions currentMonth
  = {| income := 0%float; expenses := 0%float; totalBudget := 2500%float;
       usedPercent := 0%float; remaining := 2500%float;
       savingsRate := 0%float |} /\
  pieChartData (financialMetrics transactions currentMonth) = [] /\
  recentTransactions getTime transactions currentMonth = [].
Proof.
  intros H. unfold recentTransactions, financialMetrics, metricsWithBudget.
  rewrite H. repeat split.
Qed.

Lemma empty_month_witness :
  remaining (financialMetrics march "2024-04") = 2500%float /\
  recentTransactions isoDate march "2024-04" = [].
Proof.
  destruct (empty_month isoDate march "2024-04") as (E & _ & R);
    [reflexivity|].
  rewrite E. split; [reflexivity | exact R].
Defined.

Lemma filter_drop {A : Type} (f : A -> bool) (l1 l2 : list A) (x : A) :
  f x = false -> filter f (l1 ++ x :: l2)%list = filter f (l1 ++ l2)%list.
Proof. intros H. rewrite !filter_app. cbn. now rewrite H. Qed.

(** A transaction dated outside the month, or whose type is neither
    ["income"] nor ["expense"] (the comparison is exact: ["Income"] is
    neither), changes nothing: the metrics and both breakdowns are what
    they are without it. *)
Theorem ignored_transactions (finiteToString : number -> string)
    (before after : list Transaction) (t : Transaction)
    (currentMonth : string) :
  inMonth currentMonth t = false \/
  (type t <> "income" /\ type t <> "expense") ->
  financialMetrics (before ++ t :: after)%list currentMonth
  = financialMetrics (before ++ after)%list currentMonth /\
  categoryBreakdown finiteToString (before ++ t :: after)%list currentMonth
  = categoryBreakdown finiteToString (before ++ after)%list currentMonth /\
  screenBreakdown finiteToString (before ++ t :: after)%list currentMonth
  = screenBreakdown finiteToString (before ++ after)%list currentMonth.
Proof.
  intros H.
  assert (Hi : inMonth currentMonth t && String.eqb (type t) "income"
               = false).
  { destruct H as [->|[H _]]; [reflexivity|].
    destruct (String.eqb_spec (type t) "income"); [contradiction|].
    apply andb_false_r. }
  assert (He : inMonth currentMonth t && String.eqb (type t) "expense"
               = false).
  { destruct H as [->|[_ H]]; [reflexivity|].
    destruct (String.eqb_spec (type t) "expense"); [contradiction|].
    apply andb_false_r. }
  assert (Hx : isMonthExpense currentMonth t = false).
  { unfold isMonthExpense. now rewrite andb_comm. }
  split; [|split].
  - unfold financialMetrics, metricsWithBudget.
    rewrite !filter_and.
    rewrite (filter_drop _ before after t Hi),
      (filter_drop _ before after t He).
    reflexivity.
  - unfold categoryBreakdown. now rewrite (filter_drop _ before after t Hx).
  - unfold screenBreakdown. now rewrite (filter_drop _ before after t Hx).
Qed.

Lemma ignored_transactions_witness :
  financialMetrics
    ([salary] ++ {| id := "t9"; date := "2024-03-02"; amount := "50";
                    type := "Income"; category := "gift" |} :: [rent])%list
    "2024-03"
  = financialMetrics ([salary] ++ [rent])%list "2024-03".
Proof.
  apply (ignored_transactions noDigits [salary] [rent]
           {| id := "t9"; date := "2024-03-02"; amount := "50";
              type := "Income"; category := "gift" |} "2024-03").
  right. split; discriminate.
Defined.

End DisplayFacts.

(* ================================================================== *)
(** * What the two breakdowns hold *)
(* ================================================================== *)

Module BreakdownDetails.

Import JS FinTrack Props Examples Component NumberFacts SortFacts ObjectFacts.
Import InsightFacts BreakdownFacts.

Lemma getOwn_replaceOwn_other (o : object) (k c : string) (v : jsval) :
  k <> c -> getOwn (replaceOwn o k v) c = getOwn o c.
Proof.
  intros H. induction o as [|[k' v'] r IH]; cbn; [reflexivity|].
  destruct (String.eqb_spec k' k) as [->|Hk]; cbn.
  - destruct (String.eqb_spec k c); [contradiction | reflexivity].
  - now rewrite IH.
Qed.

Lemma getOwn_insertIndex_other (o : object) (i : N) (k c : string)
    (v : jsval) :
  k <> c -> getOwn (insertIndex o i k v) c = getOwn o c.
Proof.
  intros H. induction o as [|[k' v'] r IH]; cbn.
  - destruct (String.eqb_spec k c); [contradiction | reflexivity].
  - destruct (arrayIndex k') as [j|]; [destruct (i <? j)%N|]; cbn;
      destruct (String.eqb_spec k c); try contradiction; try reflexivity.
    now rewrite IH.
Qed.

Lemma getOwn_append_other (o : object) (k c : string) (v : jsval) :
  k <> c -> getOwn (o ++ [(k, v)])%list c = getOwn o c.
Proof.
  intros H. induction o as [|[k' v'] r IH]; cbn.
  - destruct (String.eqb_spec k c); [contradiction | reflexivity].
  - now rewrite IH.
Qed.

(** Assigning under one key leaves what is read under another. *)
Lemma get_set_other (o : object) (k c : string) (v : jsval) :
  k <> c -> get (set o k v) c = get o c.
Proof.
  intros H. unfold get, set.
  destruct (String.eqb k "__proto__"); [reflexivity|].
  destruct (getOwn o k).
  - now rewrite getOwn_replaceOwn_other.
  - destruct (arrayIndex k).
    + now rewrite getOwn_insertIndex_other.
    + now rewrite getOwn_append_other.
Qed.

(** When each assignment computes the new entry from the entry under the
    same key, what a key holds at the end depends on the elements of that
    key alone. *)
Lemma fold_get {T : Type} (key : T -> string) (f : jsval -> T -> jsval)
    (l : list T) (o : object) (c : string) :
  c <> "__proto__" ->
  get (fold_left (fun acc t => set acc (key t) (f (get acc (key t)) t)) l o) c
  = fold_left f (filter (fun t => String.eqb (key t) c) l) (get o c).
Proof.
  intros Hc. revert o.
  induction l as [|t r IH]; intros o; cbn; [reflexivity|].
  rewrite IH. destruct (String.eqb_spec (key t) c) as [E|E]; cbn.
  - rewrite E. now rewrite get_set_same.
  - now rewrite get_set_other.
Qed.

Lemma binary_round_aux_plus (m e : Z) (l : location) :
  (0 <= m)%Z -> SFplus (binary_round_aux prec emax false m e l).
Proof.
  intros H. split; [now apply binary_round_aux_nonneg|].
  unfold binary_round_aux.
  destruct (shr_fexp prec emax m e l) as [mrs' e'].
  destruct (shr_fexp prec emax _ e' loc_Exact) as [mrs'' e''].
  destruct (shr_m mrs''); try discriminate.
  destruct (Z.leb e'' (emax - prec)); discriminate.
Qed.

Lemma SFadd_plus (x y : spec_float) :
  SFplus x -> SFnonneg y -> SFplus (SFadd prec emax x y).
Proof.
  intros [Hx Nx] Hy.
  destruct Hx as [sx| |mx ex], Hy as [sy| |my ey]; cbn;
    try (split; [constructor | discriminate]).
  - destruct sx; [congruence|].
    destruct sy; split; try constructor; discriminate.
  - unfold binary_normalize.
    destruct (shl_align mx ex (Z.min ex ey)) as [a ?],
             (shl_align my ey (Z.min ex ey)) as [b ?].
    cbn [fst cond_Zopp]. change (Z.pos a + Z.pos b)%Z with (Z.pos (a + b)).
    unfold binary_round. destruct (shl_align _ _ _) as [mz ez].
    apply binary_round_aux_plus. lia.
Qed.

(** [a || 0] is [a] for a non-negative [a] that is not [-0]. *)
Lemma plusZero_or (a : number) :
  plusZero a -> (if truthyNumber a then a else 0%float) = a.
Proof.
  intros [Ha Na]. unfold truthyNumber, is_nan, is_zero.
  rewrite !FloatAxioms.eqb_spec. change (Prim2SF zero) with (S754_zero false).
  destruct (Prim2SF a) as [s|s| |s m e] eqn:E; inversion Ha; subst.
  - destruct s; [congruence|]. cbn. apply Prim2SF_inj. now rewrite E.
  - reflexivity.
  - unfold SFeqb at 1. unfold SFcompare.
    rewrite Z.compare_refl, Pos.compare_cont_refl. reflexivity.
Qed.

Lemma plusZero_add (a x : number) :
  plusZero a -> nonNegative x -> plusZero (a + x)%float.
Proof.
  unfold plusZero. rewrite nonNegative_spec, add_spec. apply SFadd_plus.
Qed.

Lemma zero_plusZero : plusZero 0%float.
Proof. split; [constructor | discriminate]. Qed.

Lemma append_assoc (a b c : string) : (a ++ b) ++ c = a ++ (b ++ c).
Proof. induction a; cbn; congruence. Qed.

Lemma hd_error_None {A : Type} (l : list A) : hd_error l = None <-> l = [].
Proof. destruct l; cbn; split; congruence. Qed.

Lemma length_zero_nil {A : Type} (l : list A) :
  List.length l = 0 <-> l = [].
Proof. destruct l; cbn; split; congruence. Qed.

Lemma sort_nil_iff {A : Type} (after : A -> A -> bool) (l : list A) :
  sort after l = [] <-> l = [].
Proof.
  split; [|intros ->; reflexivity].
  intros H. apply (f_equal (@List.length A)) in H. rewrite sort_length in H.
  destruct l; [reflexivity | discriminate].
Qed.

Lemma hd_sort_In {A : Type} (after : A -> A -> bool) (l : list A) (x : A) :
  hd_error (sort after l) = Some x -> In x l.
Proof.
  intros H. apply (proj1 (sort_In after l x)).
  destruct (sort after l) as [|y r]; [discriminate|].
  injection H as ->. now left.
Qed.

Lemma getOwn_of_In (o : object) (k : string) (v : jsval) :
  NoDup (keys o) -> In (k, v) o -> getOwn o k = Some v.
Proof.
  induction o as [|[k' v'] r IH]; intros N H; [destruct H|].
  cbn in N. inversion N as [|? ? Hk Nr]; subst. cbn.
  destruct H as [[= -> ->]|H].
  - now rewrite String.eqb_refl.
  - destruct (String.eqb_spec k' k) as [->|_]; [|now apply IH].
    exfalso. apply Hk. change k with (fst (k, v)). now apply in_map.
Qed.

Lemma mapM_Forall2 {A B : Type} (f : A -> completion B) (l : list A)
    (bs : list B) :
  mapM f l = Normal bs -> Forall2 (fun a b => f a = Normal b) l bs.
Proof.
  revert bs. induction l as [|a r IH]; cbn; intros bs H.
  - injection H as <-. constructor.
  - destruct (f a) as [b|] eqn:E; [|discriminate]. cbn in H.
    destruct (mapM f r) as [bs'|]; [|discriminate]. cbn in H.
    injection H as <-. constructor; auto.
Qed.

Lemma NoDup_firstn_prefix {A : Type} (n : nat) (l : list A) :
  NoDup l -> NoDup (firstn n l).
Proof.
  revert l. induction n as [|n IH]; intros [|x r] H; cbn; try constructor.
  - inversion H; subst. intros Hx%firstn_In. contradiction.
  - inversion H; subst. now apply IH.
Qed.

Section Host.

Variable finiteToString : number -> string.
Variable formatNumber : string -> number -> string.
Variable user : option User.

Local Abbreviation stepN :=
  (fun (v : jsval) (t : Transaction) =>
     plusNumber finiteToString (orElse v (VNumber 0%float))
       (parseFloat (amount t))).

Local Abbreviation stepS :=
  (fun (v : jsval) (t : Transaction) =>
     plusString finiteToString (orElse v (VNumber 0%float)) (amount t)).

Lemma step_number (a x : number) :
  plusZero a ->
  plusNumber finiteToString (orElse (VNumber a) (VNumber 0%float)) x
  = VNumber (a + x)%float.
Proof.
  intros Ha. unfold orElse. cbn [truthy].
  pose proof (plusZero_or a Ha) as E.
  destruct (truthyNumber a); cbn [plusNumber]; now rewrite ?E.
Qed.

Lemma chain_number (l : list Transaction) (a : number) :
  plusZero a ->
  (forall t, In t l -> nonNegative (parseFloat (amount t))) ->
  fold_left stepN l (VNumber a)
  = VNumber (fold_left (fun s x => PrimFloat.add s (parseFloat x))
               (map amount l) a).
Proof.
  revert a. induction l as [|t r IH]; intros a Ha H; [reflexivity|].
  cbn [fold_left map]. rewrite step_number by exact Ha.
  apply IH.
  - apply plusZero_add; [exact Ha | apply H; now left].
  - intros u Hu. apply H. now right.
Qed.

(** In the breakdown of the insights a category whose name is not the
    name of a member of [Object.prototype], and whose amounts all parse
    to non-negative numbers, holds the sum of these amounts, added from
    the left in the order of the list; a category without an expense in
    the month holds nothing. *)
Theorem categoryBreakdown_sums (transactions : list Transaction)
    (currentMonth c : string) :
  isPrototypeMember c = false ->
  (forall t, In t transactions -> isMonthExpense currentMonth t = true ->
             category t = c -> nonNegative (parseFloat (amount t))) ->
  get (categoryBreakdown finiteToString transactions currentMonth) c
  = match amountsOf c (filter (isMonthExpense currentMonth) transactions) with
    | [] => VUndefined
    | l => VNumber (sumParsed l)
    end.
Proof.
  intros Hc H. unfold categoryBreakdown.
  rewrite (fold_get category stepN) by now apply member_not_proto.
  unfold amountsOf.
  set (l := filter (fun t => String.eqb (category t) c)
              (filter (isMonthExpense currentMonth) transactions)).
  assert (Hl : forall t, In t l -> nonNegative (parseFloat (amount t))).
  { intros t Ht. unfold l in Ht. apply filter_In in Ht as [Ht Ec].
    apply filter_In in Ht as [Ht Em]. apply String.eqb_eq in Ec.
    now apply H. }
  unfold get. cbn [getOwn]. rewrite Hc.
  destruct l as [|t r]; [reflexivity|].
  cbn [fold_left map].
  change (orElse VUndefined (VNumber 0%float)) with (VNumber 0%float).
  cbn [plusNumber]. rewrite chain_number.
  - reflexivity.
  - apply plusZero_add; [apply zero_plusZero | apply Hl; now left].
  - intros u Hu. apply Hl. now right.
Qed.

Lemma chain_string (l : list Transaction) (s : string) :
  fold_left stepS l (VString (String "0" s))
  = VString (String "0" s ++ fold_right String.append "" (map amount l)).
Proof.
  revert s. induction l as [|t r IH]; intros s.
  - cbn. f_equal. f_equal. induction s; cbn; congruence.
  - cbn [fold_left].
    change (orElse (VString (String "0" s)) (VNumber 0%float))
      with (VString (String "0" s)).
    cbn [plusString].
    change (String "0" s ++ amount t) with (String "0" (s ++ amount t)).
    rewrite IH. f_equal. cbn [String.append map fold_right]. f_equal.
    apply append_assoc.
Qed.

(** In the breakdown of the Insights screen such a category holds a
    string: the character 0 followed by its amounts as they are written,
    one after the other, whatever the amounts are. *)
Theorem screenBreakdown_strings (transactions : list Transaction)
    (currentMonth c : string) :
  isPrototypeMember c = false ->
  get (screenBreakdown finiteToString transactions currentMonth) c
  = match amountsOf c (filter (isMonthExpense currentMonth) transactions) with
    | [] => VUndefined
    | l => VString ("0" ++ fold_right String.append "" l)
    end.
Proof.
  intros Hc. unfold screenBreakdown.
  rewrite (fold_get category stepS) by now apply member_not_proto.
  unfold amountsOf.
  destruct (filter (fun t => String.eqb (category t) c)
              (filter (isMonthExpense currentMonth) transactions)) as [|t r].
  - unfold get. cbn [getOwn fold_left map]. now rewrite Hc.
  - unfold get at 1. cbn [getOwn]. rewrite Hc. cbn [fold_left map].
    change (plusString finiteToString
              (orElse VUndefined (VNumber 0%float)) (amount t))
      with (VString (String "0" (amount t))).
    rewrite chain_string. reflexivity.
Qed.

Lemma chain_text_number (l : list Transaction) :
  fold_left stepN l VNativeText = VNativeText.
Proof. induction l as [|t r IH]; [reflexivity | exact IH]. Qed.

Lemma chain_text_string (l : list Transaction) :
  fold_left stepS l VNativeText = VNativeText.
Proof. induction l as [|t r IH]; [reflexivity | exact IH]. Qed.

(** No breakdown ever has an entry for a category named [__proto__].  A
    category named after another member of [Object.prototype]
    ([constructor], [toString], ...) holds text in both breakdowns, never
    a number: it counts as [NaN] in the sort and is shown as 0. *)
Theorem prototype_named_categories (transactions : list Transaction)
    (currentMonth c : string) :
  (~ In "__proto__"
       (keys (categoryBreakdown finiteToString transactions currentMonth)) /\
   ~ In "__proto__"
       (keys (screenBreakdown finiteToString transactions currentMonth))) /\
  (isPrototypeMember c = true -> c <> "__proto__" ->
   In c (monthExpenseCategories transactions currentMonth) ->
   get (categoryBreakdown finiteToString transactions currentMonth) c
   = VNativeText /\
   get (screenBreakdown finiteToString transactions currentMonth) c
   = VNativeText /\
   toNumber VNativeText = nan /\
   formatCurrency formatNumber user VNativeText
   = (format <- currencyFormat formatNumber (userCurrency user) ;;
      Normal (format 0%float))).
Proof.
  split.
  - unfold categoryBreakdown, screenBreakdown. split; intros H;
      apply (build_In category) in H; cbn in H; tauto.
  - intros Hm Hc Hin.
    unfold monthExpenseCategories in Hin.
    apply in_map_iff in Hin as (t & Ec & Ht).
    assert (F : In t (filter (fun t => String.eqb (category t) c)
                        (filter (isMonthExpense currentMonth) transactions))).
    { apply filter_In. split; [exact Ht | now apply String.eqb_eq]. }
    unfold categoryBreakdown, screenBreakdown.
    rewrite (fold_get category stepN), (fold_get category stepS)
      by exact Hc.
    unfold get. cbn [getOwn]. rewrite Hm.
    destruct (filter _ (filter _ _)) as [|u r]; [destruct F|].
    cbn [fold_left].
    change (plusNumber finiteToString (orElse VObject (VNumber 0%float))
              (parseFloat (amount u))) with VNativeText.
    change (plusString finiteToString (orElse VObject (VNumber 0%float))
              (amount u)) with VNativeText.
    rewrite chain_text_number, chain_text_string. repeat split.
Qed.

Lemma categoryBreakdown_keys (transactions : list Transaction)
    (currentMonth k : string) :
  In k (keys (categoryBreakdown finiteToString transactions currentMonth)) <->
  In k (monthExpenseCategories transactions currentMonth) /\
  k <> "__proto__".
Proof.
  clear formatNumber user.
  unfold categoryBreakdown, monthExpenseCategories.
  rewrite (build_In category). cbn. tauto.
Qed.

(** The spending insight has a top category exactly when the month has
    an expense under a category other than [__proto__]; the top category
    is then one of the month's expense categories, with the entry the
    breakdown holds for it. *)
Theorem topCategory_defined (transactions : list Transaction)
    (currentMonth : string) :
  (topCategory finiteToString transactions currentMonth = None <->
   distinctKeys (monthExpenseCategories transactions currentMonth) = []) /\
  (forall k v,
     topCategory finiteToString transactions currentMonth = Some (k, v) ->
     In k (monthExpenseCategories transactions currentMonth) /\
     k <> "__proto__" /\
     get (categoryBreakdown finiteToString transactions currentMonth) k = v).
Proof.
  unfold topCategory, sortBy, entries. split.
  - rewrite hd_error_None, sort_nil_iff, <- !length_zero_nil.
    unfold categoryBreakdown, monthExpenseCategories.
    now rewrite (build_length category).
  - intros k v Hin%hd_sort_In.
    assert (Hk : In k (keys (categoryBreakdown finiteToString transactions
                               currentMonth))).
    { unfold keys. change k with (fst (k, v)). now apply in_map. }
    apply categoryBreakdown_keys in Hk as [H1 H2].
    split; [exact H1|]. split; [exact H2|].
    unfold get. rewrite (getOwn_of_In _ k v); [reflexivity| |exact Hin].
    unfold categoryBreakdown. apply (build_NoDup category). constructor.
Qed.

(** The goal insight has a top goal exactly when there is a goal, and
    the top goal is then the progress of one of the goals. *)
Theorem topGoal_defined (goals : list Goal) :
  (topGoal goals = None <-> goals = []) /\
  (forall p, topGoal goals = Some p ->
             exists g, In g goals /\ p = goalProgress g).
Proof.
  unfold topGoal, sortBy. split.
  - rewrite hd_error_None, sort_nil_iff. split.
    + intros H. now apply map_eq_nil in H.
    + intros ->. reflexivity.
  - intros p Hin%hd_sort_In.
    apply in_map_iff in Hin as (g & <- & Hg). eauto.
Qed.

Lemma rows_categories (transactions : list Transaction)
    (currentMonth : string) (m : FinancialMetrics)
    (rows : list BreakdownRow) :
  renderCategoryBreakdown finiteToString formatNumber user transactions
    currentMonth m = Normal rows ->
  map rowCategory rows
  = map fst (screenEntries finiteToString transactions currentMonth).
Proof.
  intros H%mapM_Forall2.
  induction H as [|[c a] row l bs Hrow _ IH]; [reflexivity|].
  cbn [map fst]. rewrite IH. f_equal.
  unfold breakdownRow in Hrow.
  destruct (formatCurrency formatNumber user a) as [shown|e];
    [|discriminate Hrow].
  cbn [bind] in Hrow.
  match type of Hrow with
  | context [toFixed ?h 1 ?x] =>
      destruct (toFixed_1_normal h x) as [s E]; rewrite E in Hrow
  end.
  cbn [bind] in Hrow. injection Hrow as <-. reflexivity.
Qed.

(** The rows of the screen's breakdown are at most four, their
    categories are pairwise distinct (they are the [key]s of the rows),
    and each is a category of an expense of the month. *)
Theorem rows_distinct (transactions : list Transaction)
    (currentMonth : string) (m : FinancialMetrics)
    (rows : list BreakdownRow) :
  renderCategoryBreakdown finiteToString formatNumber user transactions
    currentMonth m = Normal rows ->
  NoDup (map rowCategory rows) /\
  List.length rows <= 4 /\
  forall c, In c (map rowCategory rows) ->
    In c (monthExpenseCategories transactions currentMonth) /\
    c <> "__proto__".
Proof.
  intros H. rewrite <- (length_map rowCategory rows).
  rewrite (rows_categories _ _ _ _ H).
  unfold screenEntries, sortBy, entries.
  set (o := screenBreakdown finiteToString transactions currentMonth).
  set (after := fun x y : string * jsval => greater (byAmountDesc x y) zero).
  assert (N : NoDup (keys o)).
  { unfold o, screenBreakdown. apply (build_NoDup category). constructor. }
  assert (P : Permutation (map fst (sort after o)) (keys o)).
  { apply Permutation_map, sort_perm. }
  split; [|split].
  - rewrite <- firstn_map. apply NoDup_firstn_prefix.
    apply (Permutation_NoDup (Permutation_sym P)), N.
  - rewrite length_map, firstn_length_min. apply Nat.le_min_l.
  - intros c Hc. rewrite <- firstn_map in Hc. apply firstn_In in Hc.
    apply (Permutation_in _ P) in Hc.
    unfold o, screenBreakdown, monthExpenseCategories in *.
    apply (build_In category) in Hc. cbn in Hc. tauto.
Qed.

(** When the month's expenses are not positive every row shows 0.0%:
    the share is not computed. *)
Theorem rows_percentage_guard (transactions : list Transaction)
    (currentMonth : string) (m : FinancialMetrics)
    (rows : list BreakdownRow) :
  greater (expenses m) 0%float = false ->
  renderCategoryBreakdown finiteToString formatNumber user transactions
    currentMonth m = Normal rows ->
  Forall (fun row => rowPercentage row = "0.0%") rows.
Proof.
  intros G H%mapM_Forall2.
  induction H as [|[c a] row l bs Hrow _ IH]; constructor; [|exact IH].
  unfold breakdownRow in Hrow. rewrite G in Hrow.
  destruct (formatCurrency formatNumber user a) as [shown|e];
    [|discriminate Hrow].
  injection Hrow as <-. reflexivity.
Qed.

End Host.

Lemma categoryBreakdown_sums_witness :
  get (categoryBreakdown noDigits groceries "2024-03") "food"
  = VNumber (sumParsed ["10"; "20"]).
Proof.
  apply (categoryBreakdown_sums noDigits groceries "2024-03" "food").
  - reflexivity.
  - intros t [<-|[<-|[]]] _ _; reflexivity.
Defined.

Lemma screenBreakdown_strings_witness :
  get (screenBreakdown noDigits groceries "2024-03") "food"
  = VString "01020".
Proof.
  apply (screenBreakdown_strings noDigits groceries "2024-03" "food").
  reflexivity.
Defined.

Lemma prototype_named_categories_witness :
  get (categoryBreakdown noDigits [spend "01" "10" "toString"] "2024-03")
    "toString"
  = VNativeText.
Proof.
  apply (prototype_named_categories noDigits dollars None
           [spend "01" "10" "toString"] "2024-03" "toString").
  - reflexivity.
  - discriminate.
  - left. reflexivity.
Defined.

Lemma topCategory_defined_witness :
  topCategory noDigits march "2024-04" = None /\
  In "food" (monthExpenseCategories groceries "2024-03").
Proof.
  destruct (topCategory_defined noDigits march "2024-04") as [[_ H] _].
  destruct (topCategory_defined noDigits groceries "2024-03") as [_ H'].
  split.
  - apply H. reflexivity.
  - apply (H' "food" (VNumber 30%float)). reflexivity.
Defined.

Lemma topGoal_defined_witness :
  topGoal [] = None /\
  exists g, In g [emergencyFund; zeroTargetGoal] /\
            {| goalName := "Trip"; progress := infinity |} = goalProgress g.
Proof.
  destruct (topGoal_defined []) as [[_ H] _].
  destruct (topGoal_defined [emergencyFund; zeroTargetGoal]) as [_ H'].
  split.
  - apply H. reflexivity.
  - apply H'. reflexivity.
Defined.

Lemma rows_distinct_witness :
  NoDup ["snacks"; "rent"; "food"; "fuel"].
Proof.
  apply (rows_distinct noDigits dollars None fiveCategories "2024-03"
           (financialMetrics fiveCategories "2024-03")
           [ {| rowCategory := "snacks"; rowAmount := "$11.00";
                rowPercentage := "34.4%" |};
             {| rowCategory := "rent"; rowAmount := "$9.00";
                rowPercentage := "28.1%" |};
             {| rowCategory := "food"; rowAmount := "$8.00";
                rowPercentage := "25.0%" |};
             {| rowCategory := "fuel"; rowAmount := "$7.00";
                rowPercentage := "21.9%" |} ]).
  reflexivity.
Defined.

Lemma rows_percentage_guard_witness :
  Forall (fun row => rowPercentage row = "0.0%")
    [ {| rowCategory := "gift"; rowAmount := "$0.00";
         rowPercentage := "0.0%" |} ].
Proof.
  apply (rows_percentage_guard noDigits dollars None [spend "01" "0" "gift"]
           "2024-03" (financialMetrics [spend "01" "0" "gift"] "2024-03")).
  - reflexivity.
  - reflexivity.
Defined.

End BreakdownDetails.
